(** * The paper-tracking pipeline: scoring engine, collectors, entry points

    A shallow embedding of [analysis/paper_scorer.py], [fetch_from_excel.py],
    [fetch_missing_semantic.py] and [collectors/arxiv_collector.py].

    Conventions of the embedding:
    - a Python [str] is a [string]; its characters are the code points below
      256, so that [str.strip] and [str.lower] are the Latin-1 restrictions
      of the Python ones;
    - a Python [dict] with string keys is a [gmap string _]; the merge
      [{**a, **b}] is the left-biased union [b ∪ a];
    - a statement that can raise returns a [res]; code that prints, sleeps,
      reads or writes files runs in the state monad [M] over a [world];
    - the libraries the scripts call (the JSON decoder, the completion
      endpoint, the search services, the pandas statistics) are variables of
      the sections that use them: every theorem holds for each behaviour they
      may have.  A reference JSON decoder is defined for the examples. *)

From Stdlib Require Import ZArith QArith String Ascii List Lia.
From stdpp Require Import base option gmap strings list.

#[local] Set Warnings "-register-all".
#[local] Open Scope string_scope.
#[local] Open Scope Z_scope.
#[local] Open Scope list_scope.

(** ** Exceptions and results *)

Inductive exn : Type :=
| JSONDecodeError
| TypeError
| IndexError
| KeyError
| ValueError
| AttributeError
| UnboundLocalError
| FileNotFoundError
| StopIteration
| RuntimeError (what : string)
| SystemExit (code : Z).

Inductive res (A : Type) : Type :=
| Ok (a : A)
| Raise (e : exn).

Arguments Ok {A} a.
Arguments Raise {A} e.

Definition res_bind {A B} (r : res A) (k : A -> res B) : res B :=
  match r with
  | Ok a => k a
  | Raise e => Raise e
  end.

(** [except Exception] catches every class of [exn] but [SystemExit]. *)
Definition is_Exception (e : exn) : bool :=
  match e with
  | SystemExit _ => false
  | _ => true
  end.

(** The exit status of the interpreter once a script's top level is over. *)
Definition exit_code {A} (r : res A) : Z :=
  match r with
  | Ok _ => 0
  | Raise (SystemExit n) => n
  | Raise _ => 1
  end.

(** ** Python strings *)

Module PyStr.

Definition tick : ascii := "`"%char.
Definition dquote : string := String (ascii_of_nat 34) "".

(** [s[n:]] and [s[:n]] for [0 <= n]. *)
Fixpoint drop (n : nat) (s : string) : string :=
  match n, s with
  | O, _ => s
  | S _, "" => ""
  | S n', String _ s' => drop n' s'
  end.

Fixpoint take (n : nat) (s : string) : string :=
  match n, s with
  | O, _ => ""
  | S _, "" => ""
  | S n', String c s' => String c (take n' s')
  end.

(** [s.startswith(p)] *)
Fixpoint startswith (p s : string) : bool :=
  match p, s with
  | "", _ => true
  | String _ _, "" => false
  | String a p', String b s' => Ascii.eqb a b && startswith p' s'
  end.

(** [s.partition(sep)] when [sep] occurs in [s]: the text before the
    leftmost occurrence and the text after it. *)
Fixpoint partition (sep s : string) : option (string * string) :=
  if startswith sep s then Some ("", drop (String.length sep) s)
  else match s with
       | "" => None
       | String c s' =>
           match partition sep s' with
           | Some (a, b) => Some (String c a, b)
           | None => None
           end
       end.

(** [sep in s] *)
Definition contains (sep s : string) : bool :=
  match partition sep s with
  | Some _ => true
  | None => false
  end.

(** [s.split(sep)] for a non-empty [sep]: cut at the leftmost occurrence,
    go on in the rest.  Every cut consumes a character, so [length s]
    rounds are enough ([split_unfold] below). *)
Fixpoint split_from (rounds : nat) (sep s : string) : list string :=
  match rounds with
  | O => [s]
  | S n =>
      match partition sep s with
      | None => [s]
      | Some (a, b) => a :: split_from n sep b
      end
  end.

Definition split (sep s : string) : list string :=
  split_from (String.length s) sep s.

(** [l[i]] on a list *)
Definition item {A} (l : list A) (i : nat) : res A :=
  match l !! i with
  | Some x => Ok x
  | None => Raise IndexError
  end.

(** [c.isspace()] on the code points below 256 *)
Definition isspace (c : ascii) : bool :=
  let n := nat_of_ascii c in
  ((9 <=? n) && (n <=? 13) || (28 <=? n) && (n <=? 32)
   || (n =? 133) || (n =? 160))%nat.

Fixpoint lstrip (s : string) : string :=
  match s with
  | "" => ""
  | String c s' => if isspace c then lstrip s' else s
  end.

Fixpoint rstrip (s : string) : string :=
  match s with
  | "" => ""
  | String c s' =>
      match rstrip s' with
      | "" => if isspace c then "" else String c ""
      | r => String c r
      end
  end.

Definition strip (s : string) : string := rstrip (lstrip s).

(** [s.lower()] on the code points below 256 *)
Definition lower_char (c : ascii) : ascii :=
  let n := nat_of_ascii c in
  if ((65 <=? n) && (n <=? 90)
      || (192 <=? n) && (n <=? 222) && negb (n =? 215))%nat
  then ascii_of_nat (n + 32) else c.

Fixpoint lower (s : string) : string :=
  match s with
  | "" => ""
  | String c s' => String (lower_char c) (lower s')
  end.

(** [sep.join(l)] *)
Fixpoint join (sep : string) (l : list string) : string :=
  match l with
  | [] => ""
  | [x] => x
  | x :: l' => x +:+ sep +:+ join sep l'
  end.

End PyStr.

(** ** Python values, rows and the world the scripts run in *)

(** The values a CSV cell or a decoded JSON text can hold.  A float is kept
    as a text (its [repr], or its literal for a decoded one): no arithmetic
    is done on floats here. *)
Inductive pyval : Type :=
| VNone
| VBool (b : bool)
| VInt (z : Z)
| VFloat (repr : string)
| VStr (s : string)
| VList (l : list pyval)
| VDict (d : gmap string pyval).

(** One row of a DataFrame, as [row.to_dict()] gives it. *)
Abbreviation row := (gmap string pyval).

Definition nan : pyval := VFloat "nan".

(** [pd.isna(v)] on a cell *)
Definition isna (v : pyval) : bool :=
  match v with
  | VNone => true
  | VFloat r => String.eqb r "nan"
  | _ => false
  end.

(** [bool(d)] for a dict *)
Definition dict_truthy {A} (d : gmap string A) : bool :=
  negb (bool_decide (d = ∅)).

(** [d.get(k, default)] *)
Definition dict_get {A} (d : gmap string A) (k : string) (default : A) : A :=
  match d !! k with
  | Some v => v
  | None => default
  end.

(** [v[:n]]: slicing is defined on strings and lists only. *)
Definition py_slice (v : pyval) (n : nat) : res pyval :=
  match v with
  | VStr s => Ok (VStr (PyStr.take n s))
  | VList l => Ok (VList (take n l))
  | _ => Raise TypeError
  end.

(** [v[k] = x] with a string key [k]: only a dict takes it. *)
Definition py_setitem (v : pyval) (k : string) (x : pyval) : res (gmap string pyval) :=
  match v with
  | VDict d => Ok (<[k := x]> d)
  | _ => Raise TypeError
  end.

(** [total += v] for an integer [total].  The operand met in the scoring
    loop is the integer stored by [score_paper] ([scores_of_Some] below); a
    float operand, which would turn the total into a float, is outside this
    model. *)
Definition py_iadd (total : Z) (v : pyval) : res Z :=
  match v with
  | VInt n => Ok (total + n)
  | VBool b => Ok (total + Z.b2z b)
  | _ => Raise TypeError
  end.

(** The lines the scripts print (separator and banner lines left out). *)
Inductive line : Type :=
| MsgLoading (path : string)
| MsgFound (n : nat)
| MsgNoApiKey
| MsgScoring
| MsgJsonParsingError (title : pyval)
| MsgResponse (text : string)
| MsgErrorScoring (e : exn)
| MsgScoringComplete
| MsgPapersScored (scored attempted : nat)
| MsgTotalTokens (n : Z)
| MsgEstimatedCost (usd : Q)
| MsgSavedTo (path : string)
| MsgFileNotFound (path : string)
| MsgUsage
| MsgBanner
| MsgTitles (n : nat)
| MsgProgress (idx total : nat) (title : pyval)
| MsgFoundOne
| MsgNotFoundOne
| MsgFetched (found total : nat)
| MsgCouldNotFetch (n : nat)
| MsgAdded (found total : nat)
| MsgStillMissing (n : nat)
| MsgAllFound
| MsgSearching (query : string)
| MsgPaperTitle (title : string)
| MsgFoundPapers (n : nat)
| MsgTotalUnique (n : nat).

Inductive event : Type :=
| EvPrint (l : line)
| EvSleep (seconds : Q)
| EvGetenv (name : string)
| EvReadCsv (path : string)
| EvReadExcel (path : string)
| EvMakedirs (path : string)
| EvWriteCsv (path : string) (rows : list row)
| EvRequest (paper : row)
| EvSearch (title : pyval).

(** An Excel sheet: its columns in order, each with its cells. *)
Abbreviation sheet := (list (string * list pyval)).

(** The world: the CSV files and the Excel sheets by path (a path is meant
    to hold one of the two), the process environment (after [load_dotenv]),
    what happened so far, and the number of calls made to remote services. *)
Record world : Type := World {
  files : gmap string (list row);
  sheets : gmap string sheet;
  environ : gmap string string;
  trace : list event;
  calls : nat
}.

Definition M (A : Type) : Type := world -> res A * world.

Definition ret {A} (a : A) : M A := fun w => (Ok a, w).

Definition bind {A B} (m : M A) (k : A -> M B) : M B :=
  fun w =>
    match m w with
    | (Ok a, w') => k a w'
    | (Raise e, w') => (Raise e, w')
    end.

Definition raise {A} (e : exn) : M A := fun w => (Raise e, w).

Definition lift {A} (r : res A) : M A := fun w => (r, w).

Declare Scope py_scope.
Delimit Scope py_scope with py.
Notation "x <- m ;; k" := (bind m (fun x => k))
  (at level 100, m at next level, right associativity) : py_scope.
Notation "m ;; k" := (bind m (fun _ => k))
  (at level 100, right associativity) : py_scope.
#[local] Open Scope py_scope.

Definition emit (e : event) : M unit :=
  fun w => (Ok tt, World (files w) (sheets w) (environ w) (trace w ++ [e]) (calls w)).

Definition print (l : line) : M unit := emit (EvPrint l).

Definition sleep (seconds : Q) : M unit := emit (EvSleep seconds).

(** A call to a remote service: the service answers as a function of the
    number of calls made before, and the call is recorded.  The answer is
    handed over as a value, for the caller's [try]. *)
Definition remote {A} (service : nat -> res A) (e : event) : M (res A) :=
  fun w => (Ok (service (calls w)),
            World (files w) (sheets w) (environ w) (trace w ++ [e]) (S (calls w))).

(** [os.getenv(name)] *)
Definition getenv (name : string) : M (option string) :=
  fun w => (Ok (environ w !! name),
            World (files w) (sheets w) (environ w) (trace w ++ [EvGetenv name]) (calls w)).

(** [os.path.exists(path)] *)
Definition path_exists (path : string) : M bool :=
  fun w => (Ok (bool_decide (is_Some (files w !! path)) || bool_decide (is_Some (sheets w !! path))), w).

(** [pd.read_csv(path)]; a path that holds an Excel sheet is no CSV. *)
Definition read_csv (path : string) : M (list row) :=
  fun w =>
    match files w !! path with
    | Some rows => (Ok rows, World (files w) (sheets w) (environ w) (trace w ++ [EvReadCsv path]) (calls w))
    | None =>
        match sheets w !! path with
        | Some _ => (Raise ValueError, w)
        | None => (Raise FileNotFoundError, w)
        end
    end.

(** [pd.read_excel(path)]; a path that holds a CSV file is no Excel sheet. *)
Definition read_excel (path : string) : M sheet :=
  fun w =>
    match sheets w !! path with
    | Some sh => (Ok sh, World (files w) (sheets w) (environ w) (trace w ++ [EvReadExcel path]) (calls w))
    | None =>
        match files w !! path with
        | Some _ => (Raise ValueError, w)
        | None => (Raise FileNotFoundError, w)
        end
    end.

(** [df.to_csv(path, index=False)]: the file is replaced as a whole. *)
Definition to_csv (path : string) (rows : list row) : M unit :=
  fun w => (Ok tt, World (<[path := rows]> (files w)) (sheets w) (environ w)
                         (trace w ++ [EvWriteCsv path rows]) (calls w)).

(** [os.path.dirname(path)] *)
Fixpoint upto_last_slash (s : string) : option string :=
  match s with
  | "" => None
  | String c s' =>
      match upto_last_slash s' with
      | Some h => Some (String c h)
      | None => if Ascii.eqb c "/" then Some (String c "") else None
      end
  end.

Fixpoint all_slashes (s : string) : bool :=
  match s with
  | "" => true
  | String c s' => Ascii.eqb c "/" && all_slashes s'
  end.

Fixpoint rstrip_slashes (s : string) : string :=
  match s with
  | "" => ""
  | String c s' =>
      match rstrip_slashes s' with
      | "" => if Ascii.eqb c "/" then "" else String c ""
      | r => String c r
      end
  end.

Definition dirname (path : string) : string :=
  match upto_last_slash path with
  | None => ""
  | Some head => if all_slashes head then head else rstrip_slashes head
  end.

(** [os.makedirs(d, exist_ok=True)]: the empty path is refused. *)
Definition makedirs (d : string) : M unit :=
  if String.eqb d "" then raise FileNotFoundError else emit (EvMakedirs d).

(** [df.head(n)] *)
Definition df_head {A} (n : Z) (df : list A) : list A :=
  if 0 <=? n then take (Z.to_nat n) df
  else take (length df - Z.to_nat (- n)) df.

(** ** analysis/scoring_rubric.py and analysis/paper_scorer.py *)

(** What the completion endpoint returns: content blocks and token usage. *)
Inductive block : Type :=
| TextBlock (text : string)
| OtherBlock.

Record usage_t : Type := Usage {
  input_tokens : Z;
  output_tokens : Z
}.

Record message : Type := Message {
  content : list block;
  usage : usage_t
}.

(** [get_scoring_prompt(paper)]: the fixed template filled with four fields
    of the paper; the prompt is identified with the four values. *)
Record prompt : Type := Prompt {
  prompt_title : pyval;
  prompt_authors : pyval;
  prompt_published : pyval;
  prompt_abstract : pyval
}.

Definition get_scoring_prompt (paper : row) : prompt :=
  {| prompt_title := dict_get paper "title" (VStr "Unknown");
     prompt_authors := dict_get paper "authors" (VStr "Unknown");
     prompt_published := dict_get paper "published" (VStr "Unknown");
     prompt_abstract := dict_get paper "abstract" (VStr "No abstract available") |}.

Definition fence : string := "```".
Definition fence_json : string := "```json".

(** [message.content[0].text] *)
Definition first_text (m : message) : res string :=
  res_bind (PyStr.item (content m) 0)
    (fun b => match b with
              | TextBlock t => Ok t
              | OtherBlock => Raise AttributeError
              end).

(** Lines 46-49 of paper_scorer.py: the markdown fence is cut away. *)
Definition strip_markdown (response_text : string) : res string :=
  if PyStr.contains fence_json response_text then
    res_bind (PyStr.item (PyStr.split fence_json response_text) 1)
      (fun inner => PyStr.item (PyStr.split fence inner) 0)
  else if PyStr.contains fence response_text then
    res_bind (PyStr.item (PyStr.split fence response_text) 1)
      (fun inner => PyStr.item (PyStr.split fence inner) 0)
  else Ok response_text.

Section ScoringEngine.

(** [json.loads], the completion endpoint behind [client.messages.create]
    (it answers a prompt, as the n-th remote call) and the pandas statistics
    printed at the end of a run. *)
Variable json_loads : string -> res pyval.
Variable messages_create : prompt -> nat -> res message.
Variable summary_statistics : list row -> res unit.

(** The body of the [try] of [score_paper], from the endpoint's answer on.
    It yields the local [response_text] as it stands when the body is left
    (unbound, assigned, or reassigned by the fence cut) and the outcome. *)
Definition score_paper_try (reply : res message)
  : option string * res (gmap string pyval) :=
  match reply with
  | Raise e => (None, Raise e)
  | Ok message =>
      match first_text message with
      | Raise e => (None, Raise e)
      | Ok response_text =>
          match strip_markdown response_text with
          | Raise e => (Some response_text, Raise e)
          | Ok response_text =>
              (Some response_text,
               res_bind (json_loads (PyStr.strip response_text))
                 (fun scores =>
                    py_setitem scores "tokens_used"
                      (VInt (input_tokens (usage message)
                             + output_tokens (usage message)))))
          end
      end
  end.

(** [score_paper(paper, client)] *)
Definition score_paper (paper : row) : M (option (gmap string pyval)) :=
  let prompt := get_scoring_prompt paper in
  reply <- remote (messages_create prompt) (EvRequest paper) ;;
  let '(response_text, outcome) := score_paper_try reply in
  match outcome with
  | Ok scores => ret (Some scores)
  | Raise JSONDecodeError =>
      title <- lift (py_slice (dict_get paper "title" (VStr "Unknown")) 50) ;;
      print (MsgJsonParsingError title) ;;
      text <- lift (match response_text with
                    | Some t => Ok (PyStr.take 200 t)
                    | None => Raise UnboundLocalError
                    end) ;;
      print (MsgResponse text) ;;
      ret None
  | Raise e =>
      if is_Exception e then print (MsgErrorScoring e) ;; ret None
      else raise e
  end.

(** The [for] loop of [score_papers_batch] (lines 100-112), with its two
    accumulators. *)
Fixpoint score_loop (df : list row) (scored_papers : list row) (total_tokens : Z)
  : M (list row * Z) :=
  match df with
  | [] => ret (scored_papers, total_tokens)
  | paper :: df' =>
      scores <- score_paper paper ;;
      acc <- match scores with
             | Some scores =>
                 if dict_truthy scores then
                   let scored_paper := scores ∪ paper in
                   total <- lift (py_iadd total_tokens
                                    (dict_get scores "tokens_used" (VInt 0))) ;;
                   ret (scored_papers ++ [scored_paper], total)
                 else ret (scored_papers, total_tokens)
             | None => ret (scored_papers, total_tokens)
             end ;;
      sleep (1 # 2) ;;
      score_loop df' (fst acc) (snd acc)
  end.

(** Lines 81-82: [if max_papers: df = df.head(max_papers)] *)
Definition limit (max_papers : option Z) (df : list row) : list row :=
  match max_papers with
  | Some n => if n =? 0 then df else df_head n df
  | None => df
  end.

Definition price_per_million : Q := 3.

(** [(total_tokens / 1_000_000) * 3], in exact arithmetic. *)
Definition estimated_cost (total_tokens : Z) : Q :=
  (inject_Z total_tokens / 1000000) * price_per_million.

(** [score_papers_batch(input_csv, output_csv, max_papers)]: [None] when the
    credential is missing, the scored DataFrame otherwise. *)
Definition score_papers_batch (input_csv output_csv : string) (max_papers : option Z)
  : M (option (list row)) :=
  print (MsgLoading input_csv) ;;
  df <- read_csv input_csv ;;
  let df := limit max_papers df in
  print (MsgFound (length df)) ;;
  api_key <- getenv "ANTHROPIC_API_KEY" ;;
  match api_key with
  | None | Some "" =>
      print MsgNoApiKey ;;
      ret None
  | Some _ =>
      print MsgScoring ;;
      acc <- score_loop df [] 0 ;;
      let scored_papers := fst acc in
      let total_tokens := snd acc in
      let scored_df := scored_papers in
      makedirs (dirname output_csv) ;;
      to_csv output_csv scored_df ;;
      print MsgScoringComplete ;;
      print (MsgPapersScored (length scored_papers) (length df)) ;;
      print (MsgTotalTokens total_tokens) ;;
      print (MsgEstimatedCost (estimated_cost total_tokens)) ;;
      print (MsgSavedTo output_csv) ;;
      (if (0 <? length scored_papers)%nat
       then lift (summary_statistics scored_df)
       else ret tt) ;;
      ret (Some scored_df)
  end.

(** The script's top level. *)
Definition paper_scorer_main : M unit :=
  let input_file := "data/raw/curated_papers.csv" in
  let output_file := "data/processed/scored_papers.csv" in
  present <- path_exists input_file ;;
  if negb present then
    print (MsgFileNotFound input_file) ;;
    print MsgUsage ;;
    raise (SystemExit 1)
  else
    print MsgBanner ;;
    scored_df <- score_papers_batch input_file output_file None ;;
    ret tt.

End ScoringEngine.

(** ** The collection stage *)

(** [try: m  except FileNotFoundError: h] *)
Definition except_FileNotFoundError {A} (m : M A) (h : M A) : M A :=
  fun w =>
    match m w with
    | (Raise FileNotFoundError, w') => h w'
    | r => r
    end.

(** [df[name].tolist()]: the rows of one DataFrame carry the same columns,
    so the column is missing when a row lacks it. *)
Fixpoint df_column (name : string) (df : list row) : res (list pyval) :=
  match df with
  | [] => Ok []
  | r :: df' =>
      match r !! name with
      | None => Raise KeyError
      | Some v => res_bind (df_column name df') (fun vs => Ok (v :: vs))
      end
  end.

(** [pd.DataFrame({'title': titles})] *)
Definition title_frame (titles : list pyval) : list row :=
  map (fun t => {["title" := t]}) titles.

(** [bool(paper)] for what a lookup returns: a dict or [None]. *)
Definition found (paper : option row) : bool :=
  match paper with
  | Some p => dict_truthy p
  | None => false
  end.

Definition curated_papers_csv : string := "data/raw/curated_papers.csv".
Definition papers_not_found_csv : string := "data/raw/papers_not_found.csv".

(** *** fetch_from_excel.py *)

Section FetchFromExcel.

(** [search_paper_by_title(title)], the lookup on arXiv and then on Google
    Scholar, as the n-th remote call: a paper, [None], or an exception that
    escapes it (its first statement slices the title). *)
Variable search_paper_by_title : pyval -> nat -> res (option row).

(** Lines 101-110: the first column whose lowered name holds "title", the
    first column otherwise. *)
Definition title_column (columns : list string) : res string :=
  match List.find (fun col => PyStr.contains "title" (PyStr.lower col)) columns with
  | Some col => Ok col
  | None => PyStr.item columns 0
  end.

(** [df[title_column].dropna().tolist()] *)
Definition sheet_titles (df : sheet) (title_column : string) : res (list pyval) :=
  match List.find (fun c => String.eqb (fst c) title_column) df with
  | Some c => Ok (List.filter (fun v => negb (isna v)) (snd c))
  | None => Raise KeyError
  end.

(** The loop of lines 124-135. *)
Fixpoint fetch_loop (titles : list pyval) (idx total : nat)
    (papers : list row) (not_found : list pyval) : M (list row * list pyval) :=
  match titles with
  | [] => ret (papers, not_found)
  | title :: titles' =>
      print (MsgProgress idx total VNone) ;;
      answer <- remote (search_paper_by_title title) (EvSearch title) ;;
      paper <- lift answer ;;
      let acc := match paper with
                 | Some p => if dict_truthy p then (papers ++ [p], not_found)
                             else (papers, not_found ++ [title])
                 | None => (papers, not_found ++ [title])
                 end in
      sleep 3 ;;
      fetch_loop titles' (S idx) total (fst acc) (snd acc)
  end.

(** [fetch_papers_from_excel(excel_file)]: [None] when the file is missing,
    the DataFrame of the papers found otherwise; with no paper found,
    [papers_df] is unbound at the final [return]. *)
Definition fetch_papers_from_excel (excel_file : string) : M (option (list row)) :=
  print MsgBanner ;;
  opened <- except_FileNotFoundError
              (df <- read_excel excel_file ;; ret (Some df))
              (print (MsgFileNotFound excel_file) ;; ret None) ;;
  match opened with
  | None => ret None
  | Some df =>
      title_column <- lift (title_column (map fst df)) ;;
      titles <- lift (sheet_titles df title_column) ;;
      print (MsgTitles (length titles)) ;;
      acc <- fetch_loop titles 1 (length titles) [] [] ;;
      let papers := fst acc in
      let not_found := snd acc in
      papers_df <- match papers with
                   | [] => ret None
                   | _ :: _ =>
                       let papers_df := papers in
                       makedirs "data/raw" ;;
                       to_csv curated_papers_csv papers_df ;;
                       print (MsgFetched (length papers) (length titles)) ;;
                       ret (Some papers_df)
                   end ;;
      match not_found with
      | [] => ret tt
      | _ :: _ =>
          print (MsgCouldNotFetch (length not_found)) ;;
          to_csv papers_not_found_csv (title_frame not_found)
      end ;;
      match papers_df with
      | Some papers_df => ret (Some papers_df)
      | None => raise UnboundLocalError
      end
  end.

(** Lines 193-197: [sys.argv[1]] when there is one, the default name
    otherwise. *)
Definition excel_file_of (argv : list string) : string :=
  match argv with
  | _ :: path :: _ => path
  | _ => "curated_paper_titles.xlsx"
  end.

(** The script's top level, with [sys.argv]. *)
Definition fetch_from_excel_main (argv : list string) : M unit :=
  let excel_file := excel_file_of argv in
  present <- path_exists excel_file ;;
  if negb present then
    print (MsgFileNotFound excel_file) ;;
    print MsgUsage ;;
    raise (SystemExit 1)
  else
    papers_df <- fetch_papers_from_excel excel_file ;;
    ret tt.

End FetchFromExcel.

(** *** fetch_missing_semantic.py *)

Section FetchMissingSemantic.

(** [search_semantic_scholar(title)] as the n-th remote call; it catches
    every exception itself. *)
Variable search_semantic_scholar : pyval -> nat -> option row.

(** The loop of lines 71-83. *)
Fixpoint missing_loop (titles : list pyval) (idx total : nat)
    (found_papers : list row) (still_not_found : list pyval)
  : M (list row * list pyval) :=
  match titles with
  | [] => ret (found_papers, still_not_found)
  | title :: titles' =>
      shown <- lift (py_slice title 60) ;;
      print (MsgProgress idx total shown) ;;
      answer <- remote (fun n => Ok (search_semantic_scholar title n)) (EvSearch title) ;;
      paper <- lift answer ;;
      acc <- match paper with
             | Some p =>
                 if dict_truthy p then
                   print MsgFoundOne ;; ret (found_papers ++ [p], still_not_found)
                 else
                   print MsgNotFoundOne ;; ret (found_papers, still_not_found ++ [title])
             | None =>
                 print MsgNotFoundOne ;; ret (found_papers, still_not_found ++ [title])
             end ;;
      sleep 1 ;;
      missing_loop titles' (S idx) total (fst acc) (snd acc)
  end.

(** [fetch_missing_papers()] *)
Definition fetch_missing_papers : M unit :=
  let not_found_file := papers_not_found_csv in
  opened <- except_FileNotFoundError
              (df <- read_csv not_found_file ;; ret (Some df))
              (print (MsgFileNotFound not_found_file) ;; ret None) ;;
  match opened with
  | None => ret tt
  | Some not_found_df =>
      titles <- lift (df_column "title" not_found_df) ;;
      print (MsgTitles (length titles)) ;;
      acc <- missing_loop titles 1 (length titles) [] [] ;;
      let found_papers := fst acc in
      let still_not_found := snd acc in
      match found_papers with
      | [] => ret tt
      | _ :: _ =>
          let new_df := found_papers in
          let existing_file := curated_papers_csv in
          combined_df <- except_FileNotFoundError
                           (existing_df <- read_csv existing_file ;;
                            ret (existing_df ++ new_df))
                           (ret new_df) ;;
          to_csv existing_file combined_df ;;
          print (MsgAdded (length found_papers) (length combined_df))
      end ;;
      match still_not_found with
      | _ :: _ =>
          to_csv not_found_file (title_frame still_not_found) ;;
          print (MsgStillMissing (length still_not_found))
      | [] => print MsgAllFound
      end
  end.

(** The script's top level. *)
Definition fetch_missing_semantic_main : M unit := fetch_missing_papers.

End FetchMissingSemantic.

(** *** collectors/arxiv_collector.py *)

Record arxiv_result : Type := ArxivResult {
  result_title : string;
  result_authors : list string;
  result_summary : string;
  result_published : string;
  result_entry_id : string;
  result_categories : list string
}.

(** The dict built for one result (lines 20-27); all its values are strings. *)
Definition arxiv_paper (result : arxiv_result) : gmap string string :=
  <["title" := result_title result]>
  (<["authors" := PyStr.join ", " (result_authors result)]>
  (<["abstract" := result_summary result]>
  (<["published" := result_published result]>
  (<["url" := result_entry_id result]>
  (<["categories" := PyStr.join ", " (result_categories result)]> ∅))))).

(** [df.drop_duplicates(subset=[key])]: the first row of each key value is
    kept; a missing cell for [key] counts as one value. *)
Fixpoint drop_duplicates_from (key : string) (seen : list (option string))
    (df : list (gmap string string)) : list (gmap string string) :=
  match df with
  | [] => []
  | r :: df' =>
      if bool_decide (r !! key ∈ seen) then drop_duplicates_from key seen df'
      else r :: drop_duplicates_from key (r !! key :: seen) df'
  end.

(** A DataFrame built from a list of dicts has the union of their keys as
    columns; a [subset] column that is not one of them is a [KeyError]. *)
Definition drop_duplicates (key : string) (df : list (gmap string string))
  : res (list (gmap string string)) :=
  if existsb (fun r => bool_decide (is_Some (r !! key))) df
  then Ok (drop_duplicates_from key [] df)
  else Raise KeyError.

Section ArxivCollector.

(** [arxiv.Search(query, max_results, ...).results()] as the n-th remote
    call, and the timestamp of [datetime.now()] in the output file's name. *)
Variable arxiv_search : string -> nat -> nat -> res (list arxiv_result).
Variable timestamp : string.

(** The loop of lines 19-29 over the results of a search. *)
Fixpoint search_arxiv_loop (results : list arxiv_result)
    (papers : list (gmap string string)) : M (list (gmap string string)) :=
  match results with
  | [] => ret papers
  | result :: results' =>
      let paper := arxiv_paper result in
      print (MsgPaperTitle (PyStr.take 50 (dict_get paper "title" ""))) ;;
      search_arxiv_loop results' (papers ++ [paper])
  end.

(** [search_arxiv(query, max_results)] *)
Definition search_arxiv (query : string) (max_results : nat)
  : M (list (gmap string string)) :=
  print (MsgSearching query) ;;
  answer <- remote (arxiv_search query max_results) (EvSearch (VStr query)) ;;
  results <- lift answer ;;
  search_arxiv_loop results [].

Definition queries : list string :=
  [ "cooperative guidance reinforcement learning";
    "multi-agent missile guidance";
    "distributed UAV swarm control" ].

(** The loop of lines 43-46. *)
Fixpoint collect (queries : list string) (all_papers : list (gmap string string))
  : M (list (gmap string string)) :=
  match queries with
  | [] => ret all_papers
  | query :: queries' =>
      papers <- search_arxiv query 15 ;;
      print (MsgFoundPapers (length papers)) ;;
      collect queries' (all_papers ++ papers)
  end.

Definition arxiv_output : string :=
  "data/raw/arxiv_papers_" +:+ timestamp +:+ ".csv".

(** [main()]: the rows written to the output file. *)
Definition arxiv_main : M (list (gmap string string)) :=
  all_papers <- collect queries [] ;;
  df <- lift (drop_duplicates "url" all_papers) ;;
  print (MsgTotalUnique (length df)) ;;
  makedirs "data/raw" ;;
  to_csv arxiv_output (map (fmap VStr) df) ;;
  print (MsgSavedTo arxiv_output) ;;
  ret df.

End ArxivCollector.

(** ** A reference JSON decoder

    [json.loads] for the examples below, after the grammar of
    [json.decoder] and [json.scanner]: whitespace is space, tab, newline and
    carriage return; [NaN], [Infinity] and [-Infinity] are accepted; a
    repeated key keeps its last value; control characters are refused inside
    strings; text after the value is an error.  A float literal is kept as
    written.  A unicode escape above 00ff names a character outside the
    alphabet of this model, and is answered with [RuntimeError]. *)

Module JsonRef.

Definition dq : ascii := ascii_of_nat 34.

Definition is_ws (c : ascii) : bool :=
  let n := nat_of_ascii c in
  ((n =? 32) || (n =? 9) || (n =? 10) || (n =? 13))%nat.

Fixpoint skip_ws (s : string) : string :=
  match s with
  | String c s' => if is_ws c then skip_ws s' else s
  | "" => ""
  end.

Definition is_digit (c : ascii) : bool :=
  let n := nat_of_ascii c in ((48 <=? n) && (n <=? 57))%nat.

(** The longest run of digits at the head of [s], and the rest. *)
Fixpoint span_digits (s : string) : string * string :=
  match s with
  | String c s' =>
      if is_digit c then let '(d, r) := span_digits s' in (String c d, r)
      else ("", s)
  | "" => ("", "")
  end.

Fixpoint digits_value (acc : Z) (s : string) : Z :=
  match s with
  | String c s' => digits_value (10 * acc + Z.of_nat (nat_of_ascii c - 48)) s'
  | "" => acc
  end.

Definition hex_value (c : ascii) : option nat :=
  let n := nat_of_ascii c in
  if ((48 <=? n) && (n <=? 57))%nat then Some (n - 48)%nat
  else if ((97 <=? n) && (n <=? 102))%nat then Some (n - 87)%nat
  else if ((65 <=? n) && (n <=? 70))%nat then Some (n - 55)%nat
  else None.

(** The four hex digits of a [\u] escape. *)
Definition unicode_escape (s : string) : res (ascii * string) :=
  match s with
  | String a (String b (String c (String d s'))) =>
      match hex_value a, hex_value b, hex_value c, hex_value d with
      | Some x, Some y, Some z, Some t =>
          let n := (((x * 16 + y) * 16 + z) * 16 + t)%nat in
          if (n <? 256)%nat then Ok (ascii_of_nat n, s')
          else Raise (RuntimeError "code point above 255")
      | _, _, _, _ => Raise JSONDecodeError
      end
  | _ => Raise JSONDecodeError
  end.

Definition escape (c : ascii) : option ascii :=
  if Ascii.eqb c dq then Some dq
  else if Ascii.eqb c "\" then Some "\"%char
  else if Ascii.eqb c "/" then Some "/"%char
  else if Ascii.eqb c "b" then Some (ascii_of_nat 8)
  else if Ascii.eqb c "f" then Some (ascii_of_nat 12)
  else if Ascii.eqb c "n" then Some (ascii_of_nat 10)
  else if Ascii.eqb c "r" then Some (ascii_of_nat 13)
  else if Ascii.eqb c "t" then Some (ascii_of_nat 9)
  else None.

(** A string, from after its opening quote: its content and the rest.
    [skip] counts the characters of a pending [\u] escape still to pass. *)
Fixpoint scan_string (s : string) (skip : nat) : res (string * string) :=
  match s with
  | "" => Raise JSONDecodeError
  | String c s' =>
      match skip with
      | S k => scan_string s' k
      | O =>
          if Ascii.eqb c dq then Ok ("", s')
          else if Ascii.eqb c "\" then
            match s' with
            | "" => Raise JSONDecodeError
            | String e s'' =>
                if Ascii.eqb e "u" then
                  match unicode_escape s'' with
                  | Raise x => Raise x
                  | Ok (u, _) =>
                      res_bind (scan_string s' 5)
                        (fun p => Ok (String u (fst p), snd p))
                  end
                else
                  match escape e with
                  | None => Raise JSONDecodeError
                  | Some u =>
                      res_bind (scan_string s' 1)
                        (fun p => Ok (String u (fst p), snd p))
                  end
            end
          else if (nat_of_ascii c <? 32)%nat then Raise JSONDecodeError
          else res_bind (scan_string s' 0) (fun p => Ok (String c (fst p), snd p))
      end
  end.

(** A number whose integer part starts at [s]; [sign] is "-" or empty. *)
Definition scan_number (sign s : string) : res (pyval * string) :=
  let '(int_part, r) := span_digits s in
  match int_part with
  | "" => Raise JSONDecodeError
  | String d0 more =>
      (* a leading 0 stands alone *)
      let '(int_part, r) :=
        if Ascii.eqb d0 "0" then ("0", more +:+ r) else (int_part, r) in
      let '(frac, r1) :=
        match r with
        | String "." r' =>
            match span_digits r' with
            | ("", _) => ("", r)
            | (ds, r'') => ("." +:+ ds, r'')
            end
        | _ => ("", r)
        end in
      let '(expo, r2) :=
        match r1 with
        | String e r' =>
            if Ascii.eqb e "e" || Ascii.eqb e "E" then
              let '(sg, r'') :=
                match r' with
                | String "+" t => ("+", t)
                | String "-" t => ("-", t)
                | _ => ("", r')
                end in
              match span_digits r'' with
              | ("", _) => ("", r1)
              | (ds, r''') => (String e sg +:+ ds, r''')
              end
            else ("", r1)
        | "" => ("", r1)
        end in
      match frac, expo with
      | "", "" =>
          let n := digits_value 0 int_part in
          Ok (VInt (if String.eqb sign "" then n else - n), r2)
      | _, _ => Ok (VFloat (sign +:+ int_part +:+ frac +:+ expo), r2)
      end
  end.

(** [s] with the literal [word] taken from its head. *)
Definition literal (word s : string) : option string :=
  if PyStr.startswith word s then Some (PyStr.drop (String.length word) s) else None.

(** One value at the head of [s] (no leading whitespace), and the rest. *)
Fixpoint scan_value (depth : nat) (s : string) : res (pyval * string) :=
  match depth with
  | O => Raise (RuntimeError "maximum recursion depth exceeded")
  | S depth' =>
      match s with
      | "" => Raise JSONDecodeError
      | String c s' =>
          if Ascii.eqb c dq then
            res_bind (scan_string s' 0) (fun p => Ok (VStr (fst p), snd p))
          else if Ascii.eqb c "{" then
            match skip_ws s' with
            | String "}" r => Ok (VDict ∅, r)
            | r => scan_members depth' ∅ r
            end
          else if Ascii.eqb c "[" then
            match skip_ws s' with
            | String "]" r => Ok (VList [], r)
            | r => scan_elements depth' [] r
            end
          else if Ascii.eqb c "-" then
            match literal "Infinity" s' with
            | Some r => Ok (VFloat "-inf", r)
            | None => scan_number "-" s'
            end
          else if is_digit c then scan_number "" s
          else
            match literal "null" s, literal "true" s, literal "false" s,
                  literal "NaN" s, literal "Infinity" s with
            | Some r, _, _, _, _ => Ok (VNone, r)
            | _, Some r, _, _, _ => Ok (VBool true, r)
            | _, _, Some r, _, _ => Ok (VBool false, r)
            | _, _, _, Some r, _ => Ok (nan, r)
            | _, _, _, _, Some r => Ok (VFloat "inf", r)
            | _, _, _, _, _ => Raise JSONDecodeError
            end
      end
  end
with scan_elements (depth : nat) (acc : list pyval) (s : string)
  : res (pyval * string) :=
  match depth with
  | O => Raise (RuntimeError "maximum recursion depth exceeded")
  | S depth' =>
      match scan_value depth' s with
      | Raise e => Raise e
      | Ok (v, r) =>
          match skip_ws r with
          | String "]" r' => Ok (VList (acc ++ [v]), r')
          | String "," r' => scan_elements depth' (acc ++ [v]) (skip_ws r')
          | _ => Raise JSONDecodeError
          end
      end
  end
with scan_members (depth : nat) (acc : gmap string pyval) (s : string)
  : res (pyval * string) :=
  match depth with
  | O => Raise (RuntimeError "maximum recursion depth exceeded")
  | S depth' =>
      match s with
      | String q s' =>
          if Ascii.eqb q dq then
            match scan_string s' 0 with
            | Raise e => Raise e
            | Ok (key, r) =>
                match skip_ws r with
                | String ":" r' =>
                    match scan_value depth' (skip_ws r') with
                    | Raise e => Raise e
                    | Ok (v, r'') =>
                        match skip_ws r'' with
                        | String "}" t => Ok (VDict (<[key := v]> acc), t)
                        | String "," t =>
                            scan_members depth' (<[key := v]> acc) (skip_ws t)
                        | _ => Raise JSONDecodeError
                        end
                    end
                | _ => Raise JSONDecodeError
                end
            end
          else Raise JSONDecodeError
      | "" => Raise JSONDecodeError
      end
  end.

(** [json.loads(s)] *)
Definition loads (s : string) : res pyval :=
  match scan_value (2 * String.length s + 2) (skip_ws s) with
  | Raise e => Raise e
  | Ok (v, r) =>
      match skip_ws r with
      | "" => Ok v
      | _ => Raise JSONDecodeError
      end
  end.

End JsonRef.

(** ** Notions used to state the properties *)

(** The text before the leftmost [sep] of [s] ([s] itself when there is
    none), and the text after it. *)
Definition before (sep s : string) : string :=
  match PyStr.partition sep s with
  | Some (a, _) => a
  | None => s
  end.

Definition after (sep s : string) : string :=
  match PyStr.partition sep s with
  | Some (_, b) => b
  | None => ""
  end.

Fixpoint last_is_tick (s : string) : bool :=
  match s with
  | "" => false
  | String c "" => Ascii.eqb c PyStr.tick
  | String _ s' => last_is_tick s'
  end.

(** [t] holds no run of three backticks and does not end with a backtick:
    put in front of a closing fence, it makes no earlier fence with it. *)
Definition fence_free (t : string) : Prop :=
  PyStr.contains fence t = false /\ last_is_tick t = false.

(** A text in which each apostrophe stands for a double quote, to write
    JSON in the examples. *)
Fixpoint json_text (s : string) : string :=
  match s with
  | "" => ""
  | String c s' =>
      String (if Ascii.eqb c "'" then ascii_of_nat 34 else c) (json_text s')
  end.

(** The scores [score_paper] returns for a paper when its request is the
    [n]-th remote call, and none when the [try] body raises. *)
Definition scores_of (json_loads : string -> res pyval)
    (messages_create : prompt -> nat -> res message)
    (paper : row) (n : nat) : option (gmap string pyval) :=
  match snd (score_paper_try json_loads (messages_create (get_scoring_prompt paper) n)) with
  | Ok scores => Some scores
  | Raise _ => None
  end.

(** The rows a run over [df] is to put in the output store, when its first
    request is the [n]-th remote call: a merged row for each paper that got
    scores, nothing for the others. *)
Fixpoint expected_rows (json_loads : string -> res pyval)
    (messages_create : prompt -> nat -> res message)
    (df : list row) (n : nat) : list row :=
  match df with
  | [] => []
  | paper :: df' =>
      match scores_of json_loads messages_create paper n with
      | Some scores => (scores ∪ paper) :: expected_rows json_loads messages_create df' (S n)
      | None => expected_rows json_loads messages_create df' (S n)
      end
  end.

(** The number of papers of [df] that get no scores. *)
Fixpoint failed (json_loads : string -> res pyval)
    (messages_create : prompt -> nat -> res message)
    (df : list row) (n : nat) : nat :=
  match df with
  | [] => 0
  | paper :: df' =>
      match scores_of json_loads messages_create paper n with
      | Some _ => failed json_loads messages_create df' (S n)
      | None => S (failed json_loads messages_create df' (S n))
      end
  end.

(** The integer under [tokens_used] in a row. *)
Definition tokens_used_of (r : row) : Z :=
  match r !! "tokens_used" with
  | Some (VInt n) => n
  | _ => 0
  end.

Fixpoint sum_tokens (rows : list row) : Z :=
  match rows with
  | [] => 0
  | r :: rows' => tokens_used_of r + sum_tokens rows'
  end.



(** What a run added to the trace. *)
Definition printed (before_run after_run : world) : list event :=
  drop (length (trace before_run)) (trace after_run).

(** A world with the given CSV files, sheets and environment, and nothing
    done yet. *)
Definition fresh (fs : list (string * list row)) (shs : list (string * sheet))
    (env : list (string * string)) : world :=
  World (list_to_map fs) (list_to_map shs) (list_to_map env) [] 0.

(** The world after [evs] were recorded and [n] more remote calls made. *)
Definition logged (w : world) (evs : list event) (n : nat) : world :=
  World (files w) (sheets w) (environ w) (trace w ++ evs) (n + calls w).

(** The events of the scoring loop: requests, pauses and failure reports. *)
Definition loop_event (e : event) : bool :=
  match e with
  | EvRequest _ | EvSleep _ => true
  | EvPrint (MsgJsonParsingError _) | EvPrint (MsgResponse _)
  | EvPrint (MsgErrorScoring _) => true
  | _ => false
  end.


(** The world after [rows] were written to [path] and [evs] recorded. *)
Definition written (w : world) (path : string) (rows : list row)
    (evs : list event) : world :=
  World (<[path := rows]> (files w)) (sheets w) (environ w) (trace w ++ evs) (calls w).

Definition api_key_name : string := "ANTHROPIC_API_KEY".

(** What [score_papers_batch] records before it looks for the credential. *)
Definition batch_prologue (input_csv : string) (n : nat) : list event :=
  [EvPrint (MsgLoading input_csv); EvReadCsv input_csv; EvPrint (MsgFound n);
   EvGetenv api_key_name].

(** What it records once the loop is over: the write and the summary. *)
Definition batch_epilogue (output_csv : string) (scored_papers : list row)
    (attempted : nat) (total_tokens : Z) : list event :=
  [EvMakedirs (dirname output_csv); EvWriteCsv output_csv scored_papers;
   EvPrint MsgScoringComplete;
   EvPrint (MsgPapersScored (length scored_papers) attempted);
   EvPrint (MsgTotalTokens total_tokens);
   EvPrint (MsgEstimatedCost (estimated_cost total_tokens));
   EvPrint (MsgSavedTo output_csv)].

(** The events of a run of [score_papers_batch] up to the end of its loop. *)
Definition early_event (e : event) : bool :=
  loop_event e ||
  match e with
  | EvPrint (MsgLoading _) | EvReadCsv _ | EvPrint (MsgFound _) | EvGetenv _
  | EvPrint MsgNoApiKey | EvPrint MsgScoring => true
  | _ => false
  end.

(** The papers [main] of the arXiv collector gathers over [qs], when its
    first search is the [n]-th remote call and no search raises. *)
Fixpoint collected (arxiv_search : string -> nat -> nat -> res (list arxiv_result))
    (qs : list string) (n : nat) : list (gmap string string) :=
  match qs with
  | [] => []
  | q :: qs' =>
      match arxiv_search q 15%nat n with
      | Ok results => map arxiv_paper results ++ collected arxiv_search qs' (S n)
      | Raise _ => []
      end
  end.

(** The papers the recovery pass finds for [titles], when its first search
    is the [n]-th remote call. *)
Fixpoint found_by (search_semantic_scholar : pyval -> nat -> option row)
    (titles : list pyval) (n : nat) : list row :=
  match titles with
  | [] => []
  | title :: titles' =>
      match search_semantic_scholar title n with
      | Some p =>
          if dict_truthy p then p :: found_by search_semantic_scholar titles' (S n)
          else found_by search_semantic_scholar titles' (S n)
      | None => found_by search_semantic_scholar titles' (S n)
      end
  end.

(** A paper whose title can be sliced in a report: a string (or no title
    at all, for which the report takes the placeholder). *)
Definition sliceable (v : pyval) : bool :=
  match v with
  | VStr _ | VList _ => true
  | _ => false
  end.

Definition well_titled (paper : row) : bool :=
  sliceable (dict_get paper "title" (VStr "Unknown")).

(** ** Worlds and services of the examples *)

Module Demo.

Definition newline : string := String (ascii_of_nat 10) "".

Definition scored_papers_csv : string := "data/processed/scored_papers.csv".

Definition paper_a : row :=
  <["title" := VStr "Multi-UAV Cooperative Guidance via MARL"]>
    (<["abstract" := VStr "..."]> ∅).
Definition paper_b : row := <["title" := VStr "Swarm control survey"]> ∅.
Definition paper_c : row := <["title" := VStr "Guidance law learning"]> ∅.

(** An answer in range, an answer that is no JSON, and a fenced answer with
    a relevance of 99. *)
Definition reply_a : message :=
  Message [TextBlock (json_text "{'relevance_score': 9, 'maturity_level': 2}")]
    (Usage 100 20).
Definition reply_b : message :=
  Message [TextBlock "I cannot score this paper."] (Usage 50 5).
Definition reply_c : message :=
  Message [TextBlock ("```json" +:+ newline +:+ json_text "{'relevance_score': 99}"
                      +:+ newline +:+ "```")]
    (Usage 10 1).

Definition endpoint (p : prompt) (n : nat) : res message :=
  match n with
  | 0%nat => Ok reply_a
  | 1%nat => Ok reply_b
  | _ => Ok reply_c
  end.

Definition statistics (df : list row) : res unit := Ok tt.

Definition world0 : world :=
  fresh [(curated_papers_csv, [paper_a; paper_b; paper_c])] []
    [("ANTHROPIC_API_KEY", "sk-ant-demo")].

Definition row_a : row :=
  <["relevance_score" := VInt 9]> (<["maturity_level" := VInt 2]>
    (<["tokens_used" := VInt 120]> paper_a)).
Definition row_c : row :=
  <["relevance_score" := VInt 99]> (<["tokens_used" := VInt 11]> paper_c).

(** The same store without a credential in the environment. *)
Definition world_no_key : world :=
  fresh [(curated_papers_csv, [paper_a; paper_b; paper_c])] [] [].

(** A store whose only row has an empty title cell, read back as NaN. *)
Definition paper_untitled : row :=
  <["title" := nan]> (<["abstract" := VStr "..."]> ∅).
Definition world_untitled : world :=
  fresh [(curated_papers_csv, [paper_untitled])] []
    [("ANTHROPIC_API_KEY", "sk-ant-demo")].
Definition endpoint_prose (p : prompt) (n : nat) : res message := Ok reply_b.

(** A JSON object with backticks inside a string value. *)
Definition backticked : string := json_text "{'a': '```{}```'}".


(** The collection stage: every title resolves to the same arXiv entry. *)
Definition entry : row :=
  <["title" := VStr "Cooperative guidance"]>
    (<["url" := VStr "http://arxiv.org/abs/2401.00001v1"]>
       (<["source" := VStr "arxiv"]> ∅)).
Definition lookup_title (title : pyval) (n : nat) : res (option row) :=
  Ok (Some entry).
Definition semantic_found (title : pyval) (n : nat) : option row := Some entry.
Definition semantic_nothing (title : pyval) (n : nat) : option row := None.

Definition titles_sheet : sheet :=
  [("Paper Title", [VStr "Cooperative guidance"; VStr "Cooperative guidance (preprint)"])].

Definition earlier : row :=
  <["title" := VStr "An earlier paper"]>
    (<["url" := VStr "http://arxiv.org/abs/2301.00002v2"]> ∅).

(** A store with one row, and the Excel list of two titles. *)
Definition world_excel : world :=
  fresh [(curated_papers_csv, [earlier])]
    [("curated_paper_titles.xlsx", titles_sheet)] [].

(** A store with one row, and one title waiting in the not-found list. *)
Definition world_missing : world :=
  fresh [(curated_papers_csv, [earlier]);
         (papers_not_found_csv, title_frame [VStr "Cooperative guidance"])] [] [].

(** Nothing on disk. *)
Definition world_empty : world := fresh [] [] [].

(** arXiv answers every query with the same two results. *)
Definition result_1 : arxiv_result :=
  ArxivResult "Cooperative guidance" ["A. Author"; "B. Author"] "..."
    "2024-01-01" "http://arxiv.org/abs/2401.00001v1" ["cs.RO"].
Definition result_2 : arxiv_result :=
  ArxivResult "Swarm control" ["C. Author"] "..."
    "2024-02-02" "http://arxiv.org/abs/2402.00002v1" ["cs.MA"; "cs.SY"].
Definition arxiv (query : string) (max_results n : nat) : res (list arxiv_result) :=
  Ok [result_1; result_2].
Definition stamp : string := "20240301_120000".

(** The runs of the examples. *)
Definition run_scored :=
  score_papers_batch JsonRef.loads endpoint statistics
    curated_papers_csv scored_papers_csv None world0.
Definition run_no_key :=
  score_papers_batch JsonRef.loads endpoint statistics
    curated_papers_csv scored_papers_csv None world_no_key.
Definition run_untitled :=
  score_papers_batch JsonRef.loads endpoint_prose statistics
    curated_papers_csv scored_papers_csv None world_untitled.
Definition run_excel :=
  fetch_from_excel_main lookup_title ["fetch_from_excel.py"] world_excel.
Definition run_missing := fetch_missing_papers semantic_found world_missing.
Definition run_arxiv := arxiv_main arxiv stamp world_empty.

End Demo.

(** ** The lookups of the collection stage, from the inside

    [search_semantic_scholar] and [search_paper_by_title] as functions of
    what the remote services answer at the [n]-th call.  The lines they
    print are left out.  The values met are those of [pyval]; the truth
    value of a float, the text [str] gives for a float, a list or a dict,
    and the order in which a dict gives its keys are left to the
    interpreter. *)

Module Lookup.

(** What [requests.get] returns: the status, and what [.json()] gives. *)
Record response : Type := Response {
  status_code : Z;
  json : res pyval
}.

(** [str(n)] for an integer *)
Definition digit (n : Z) : ascii := ascii_of_nat (48 + Z.to_nat n).

Fixpoint digits_from (rounds : nat) (n : Z) (acc : string) : string :=
  match rounds with
  | O => acc
  | S rounds' =>
      let acc' := String (digit (n mod 10)) acc in
      if n / 10 =? 0 then acc' else digits_from rounds' (n / 10) acc'
  end.

Definition decimal (n : Z) : string :=
  if n <? 0 then "-" +:+ digits_from (S (Z.to_nat (Z.log2 (- n)))) (- n) ""
  else digits_from (S (Z.to_nat (Z.log2 n))) n "".

(** [v.get(k, default)] and [v.lower()] are methods of dicts and of
    strings. *)
Definition py_get (v : pyval) (k : string) (default : pyval) : res pyval :=
  match v with
  | VDict d => Ok (dict_get d k default)
  | _ => Raise AttributeError
  end.

Definition py_lower (v : pyval) : res string :=
  match v with
  | VStr s => Ok (PyStr.lower s)
  | _ => Raise AttributeError
  end.

(** [v[k]] for a string key [k] *)
Definition py_getitem (v : pyval) (k : string) : res pyval :=
  match v with
  | VDict d =>
      match d !! k with
      | Some x => Ok x
      | None => Raise KeyError
      end
  | _ => Raise TypeError
  end.

(** [len(v)] *)
Definition py_len (v : pyval) : res nat :=
  match v with
  | VStr s => Ok (String.length s)
  | VList l => Ok (length l)
  | VDict d => Ok (size d)
  | _ => Raise TypeError
  end.

(** [v[0]]; the keys of a decoded object are strings, so that 0 is none of
    them. *)
Definition py_first (v : pyval) : res pyval :=
  match v with
  | VList l => PyStr.item l 0
  | VStr "" => Raise IndexError
  | VStr (String c _) => Ok (VStr (String c ""))
  | VDict _ => Raise KeyError
  | _ => Raise TypeError
  end.

(** [sep.join(items)]: every item has to be a string. *)
Fixpoint strings_of (items : list pyval) : res (list string) :=
  match items with
  | [] => Ok []
  | VStr s :: items' => res_bind (strings_of items') (fun ss => Ok (s :: ss))
  | _ :: _ => Raise TypeError
  end.

Definition py_join (sep : string) (items : list pyval) : res string :=
  res_bind (strings_of items) (fun ss => Ok (PyStr.join sep ss)).

(** [[f(a) for a in items]] *)
Fixpoint comprehension (f : pyval -> res pyval) (items : list pyval)
  : res (list pyval) :=
  match items with
  | [] => Ok []
  | a :: items' =>
      res_bind (f a) (fun x =>
      res_bind (comprehension f items') (fun xs => Ok (x :: xs)))
  end.

(** [try: body  except Exception: return None] *)
Definition except_Exception (body : res (option row)) : res (option row) :=
  match body with
  | Raise e => if is_Exception e then Ok None else Raise e
  | Ok paper => Ok paper
  end.

Section Interpreter.

(** [bool(x)] for a float given by its text, [str(v)] for a float, a list
    or a dict, and the keys of a dict in the order of their insertion (which
    the map does not keep). *)
Variable float_truthy : string -> bool.
Variable py_repr : pyval -> string.
Variable key_order : gmap string pyval -> list string.

(** The items [for a in v] goes through: the elements of a list, the
    characters of a string, the keys of a dict. *)
Definition py_iter (v : pyval) : res (list pyval) :=
  match v with
  | VList l => Ok l
  | VStr s => Ok (map (fun c => VStr (String c "")) (list_ascii_of_string s))
  | VDict d => Ok (map VStr (key_order d))
  | _ => Raise TypeError
  end.

(** [bool(v)] *)
Definition py_truthy (v : pyval) : bool :=
  match v with
  | VNone => false
  | VBool b => b
  | VInt n => negb (n =? 0)
  | VFloat r => float_truthy r
  | VStr s => negb (String.eqb s "")
  | VList l => match l with [] => false | _ :: _ => true end
  | VDict d => dict_truthy d
  end.

(** [str(v)] *)
Definition py_str (v : pyval) : string :=
  match v with
  | VNone => "None"
  | VBool true => "True"
  | VBool false => "False"
  | VInt n => decimal n
  | VStr s => s
  | _ => py_repr v
  end.

(** *** fetch_missing_semantic.py, lines 9-48 *)

Section SemanticScholar.

(** [requests.get(url, params={'query': title, ...}, timeout=10)] as the
    n-th remote call. *)
Variable requests_get : pyval -> nat -> res response.

(** Line 30: the names of the authors, joined. *)
Definition semantic_authors (result : pyval) : res string :=
  res_bind (py_get result "authors" (VList [])) (fun authors =>
  res_bind (py_iter authors) (fun items =>
  res_bind (comprehension (fun a => py_get a "name" (VStr "Unknown")) items)
    (fun names => py_join ", " names))).

(** Lines 30-40: the paper built from the first match. *)
Definition semantic_paper (title result : pyval) : res row :=
  res_bind (semantic_authors result) (fun authors =>
  res_bind (py_get result "title" title) (fun title' =>
  res_bind (py_get result "abstract" (VStr "Abstract not available")) (fun abstract =>
  res_bind (py_get result "year" (VStr "Unknown")) (fun year =>
  res_bind (py_get result "url" (VStr "No URL")) (fun url =>
  res_bind (py_get result "venue" (VStr "Not specified")) (fun venue =>
  Ok (<["title" := title']>
     (<["authors" := VStr authors]>
     (<["abstract" := abstract]>
     (<["published" := VStr (py_str year)]>
     (<["url" := url]>
     (<["categories" := venue]>
     (<["source" := VStr "semantic_scholar"]> ∅))))))))))))).

(** Line 26: [data.get('data') and len(data['data']) > 0] *)
Definition has_matches (data : pyval) : res bool :=
  res_bind (py_get data "data" VNone) (fun matches =>
  if py_truthy matches then
    res_bind (py_getitem data "data") (fun matches' =>
    res_bind (py_len matches') (fun n => Ok (0 <? n)%nat))
  else Ok false).

(** The body of the [try], lines 21-44. *)
Definition semantic_try (title : pyval) (n : nat) : res (option row) :=
  res_bind (requests_get title n) (fun response =>
  if status_code response =? 200 then
    res_bind (json response) (fun data =>
    res_bind (has_matches data) (fun some =>
    if some then
      res_bind (py_getitem data "data") (fun matches =>
      res_bind (py_first matches) (fun result =>
      res_bind (semantic_paper title result) (fun paper => Ok (Some paper))))
    else Ok None))
  else Ok None).

(** [search_semantic_scholar(title)] *)
Definition search_semantic_scholar (title : pyval) (n : nat) : res (option row) :=
  except_Exception (semantic_try title n).

End SemanticScholar.

(** *** fetch_from_excel.py, lines 11-74 *)

Section TitleSearch.

(** [list(arxiv.Search(query='ti:...', max_results=3).results())] and
    [next(scholarly.search_pubs(title))] at the n-th lookup; the second
    raises [StopIteration] when Google Scholar has no match. *)
Variable arxiv_title_search : pyval -> nat -> res (list arxiv_result).
Variable scholar_first : pyval -> nat -> res pyval.

(** Lines 35-45: the paper built from the first arXiv match. *)
Definition arxiv_match (title : pyval) (result : arxiv_result) : res row :=
  res_bind (py_lower title) (fun lowered =>
  Ok (<["title" := VStr (result_title result)]>
     (<["authors" := VStr (PyStr.join ", " (result_authors result))]>
     (<["abstract" := VStr (result_summary result)]>
     (<["published" := VStr (result_published result)]>
     (<["url" := VStr (result_entry_id result)]>
     (<["categories" := VStr (PyStr.join ", " (result_categories result))]>
     (<["source" := VStr "arxiv"]>
     (<["search_title" := title]>
     (<["match_quality" :=
          VStr (if PyStr.contains lowered (PyStr.lower (result_title result))
                then "exact" else "partial")]> ∅)))))))))).

(** The first [try], lines 25-47: a paper, or nothing to return yet. *)
Definition arxiv_try (title : pyval) (n : nat) : res (option row) :=
  res_bind (arxiv_title_search title n) (fun results =>
  match results with
  | result :: _ =>
      res_bind (arxiv_match title result) (fun paper => Ok (Some paper))
  | [] => Ok None
  end).

(** Lines 57-68: the paper built from the Google Scholar match, and the
    slice of its title in the line printed after it. *)
Definition scholar_paper (title result : pyval) : res row :=
  res_bind (py_getitem result "bib") (fun bib =>
  res_bind (py_getitem bib "title") (fun title' =>
  res_bind (py_get bib "author" (VList [VStr "Unknown"])) (fun author =>
  res_bind (py_iter author) (fun items =>
  res_bind (py_join ", " items) (fun authors =>
  res_bind (py_get bib "abstract"
              (VStr "Abstract not available from Google Scholar")) (fun abstract =>
  res_bind (py_get bib "pub_year" (VStr "Unknown")) (fun year =>
  res_bind (py_get result "eprint_url" (VStr "No URL available")) (fun eprint =>
  res_bind (py_get result "pub_url" eprint) (fun url =>
  res_bind (py_slice title' 60) (fun _ =>
  Ok (<["title" := title']>
     (<["authors" := VStr authors]>
     (<["abstract" := abstract]>
     (<["published" := VStr (py_str year)]>
     (<["url" := url]>
     (<["categories" := VStr "Not specified"]>
     (<["source" := VStr "google_scholar"]>
     (<["search_title" := title]>
     (<["match_quality" := VStr "google_scholar"]> ∅))))))))))))))))))).

(** The second [try], lines 52-71. *)
Definition scholar_try (title : pyval) (n : nat) : res (option row) :=
  res_bind (scholar_first title n) (fun result =>
  res_bind (scholar_paper title result) (fun paper => Ok (Some paper))).

(** [search_paper_by_title(title)]: the title is sliced for the first
    line, outside any [try]. *)
Definition search_paper_by_title (title : pyval) (n : nat) : res (option row) :=
  res_bind (py_slice title 70) (fun _ =>
  match arxiv_try title n with
  | Ok (Some paper) => Ok (Some paper)
  | Ok None => except_Exception (scholar_try title n)
  | Raise e =>
      if is_Exception e then except_Exception (scholar_try title n)
      else Raise e
  end).

End TitleSearch.

End Interpreter.

End Lookup.

(** ** Notions used to state further properties *)

(** The papers for which a request was recorded, in the order of the
    requests, and the pauses recorded. *)
Definition requests_of (evs : list event) : list row :=
  omap (fun e => match e with EvRequest paper => Some paper | _ => None end) evs.

Definition sleeps_of (evs : list event) : list Q :=
  omap (fun e => match e with EvSleep s => Some s | _ => None end) evs.

(** The searches recorded, by the title searched. *)
Definition searches_of (evs : list event) : list pyval :=
  omap (fun e => match e with EvSearch title => Some title | _ => None end) evs.

Definition is_print (e : event) : bool :=
  match e with
  | EvPrint _ => true
  | _ => false
  end.

(** The papers the Excel pass fetches for [titles], when its first lookup
    is the [n]-th remote call, and the titles it fetches nothing for. *)
Fixpoint fetched_by (search_paper_by_title : pyval -> nat -> res (option row))
    (titles : list pyval) (n : nat) : list row :=
  match titles with
  | [] => []
  | title :: titles' =>
      match search_paper_by_title title n with
      | Ok (Some p) =>
          if dict_truthy p then p :: fetched_by search_paper_by_title titles' (S n)
          else fetched_by search_paper_by_title titles' (S n)
      | _ => fetched_by search_paper_by_title titles' (S n)
      end
  end.

Fixpoint unfetched_by (search_paper_by_title : pyval -> nat -> res (option row))
    (titles : list pyval) (n : nat) : list pyval :=
  match titles with
  | [] => []
  | title :: titles' =>
      match search_paper_by_title title n with
      | Ok (Some p) =>
          if dict_truthy p then unfetched_by search_paper_by_title titles' (S n)
          else title :: unfetched_by search_paper_by_title titles' (S n)
      | _ => title :: unfetched_by search_paper_by_title titles' (S n)
      end
  end.

(** The titles the recovery pass finds nothing for. *)
Fixpoint missed_by (search_semantic_scholar : pyval -> nat -> option row)
    (titles : list pyval) (n : nat) : list pyval :=
  match titles with
  | [] => []
  | title :: titles' =>
      if found (search_semantic_scholar title n)
      then missed_by search_semantic_scholar titles' (S n)
      else title :: missed_by search_semantic_scholar titles' (S n)
  end.

(** A result that, when it is an exception, is one [except Exception]
    catches. *)
Definition catchable {A} (r : res A) : Prop :=
  forall e, r = Raise e -> is_Exception e = true.

(** ** Further runs of the examples *)

Module Cases.

(** An endpoint that is down, an endpoint whose request ends in a JSON
    error, a decoder that accepts nothing, and statistics that miss a
    column. *)
Definition endpoint_down (p : prompt) (n : nat) : res message :=
  Raise (RuntimeError "overloaded").
Definition endpoint_json_error (p : prompt) (n : nat) : res message :=
  Raise JSONDecodeError.
Definition decode_nothing (s : string) : res pyval := Raise JSONDecodeError.
Definition statistics_missing_column (df : list row) : res unit := Raise KeyError.

(** An output path with no directory in it. *)
Definition bare_output : string := "scored_papers.csv".

(** A paper that differs from [Demo.paper_b] by a column the prompt does
    not read. *)
Definition paper_b_with_url : row :=
  <["url" := VStr "http://arxiv.org/abs/2401.00003v1"]> Demo.paper_b.

(** An answer with prose around its fenced block. *)
Definition inner_json : string :=
  Demo.newline +:+ json_text "{'relevance_score': 9}" +:+ Demo.newline.
Definition chatty : string :=
  "Here are the scores:" +:+ Demo.newline +:+ fence_json +:+ inner_json
  +:+ fence +:+ Demo.newline +:+ "Let me know if you need more.".

Definition run_down :=
  score_paper JsonRef.loads endpoint_down Demo.paper_untitled Demo.world_untitled.
Definition run_bare_output :=
  score_papers_batch decode_nothing Demo.endpoint_prose Demo.statistics
    curated_papers_csv bare_output None Demo.world0.
Definition run_statistics_fail :=
  score_papers_batch JsonRef.loads Demo.endpoint statistics_missing_column
    curated_papers_csv Demo.scored_papers_csv None Demo.world0.


Definition excel_file : string := "curated_paper_titles.xlsx".
Definition run_excel_pass :=
  fetch_papers_from_excel Demo.lookup_title excel_file Demo.world_excel.

(** The interpreter's part in the lookups: floats other than 0.0 are
    true, [str] of a float, list or dict is not looked at, and a dict gives
    its keys in the order of the map. *)
Definition float_truthy (r : string) : bool := negb (String.eqb r "0.0").
Definition py_repr (v : pyval) : string := "...".
Definition key_order (d : gmap string pyval) : list string :=
  map fst (map_to_list d).

(** Semantic Scholar: a request that times out, a match with a null
    abstract, and a match whose authors are null. *)
Definition requests_timeout (title : pyval) (n : nat) : res Lookup.response :=
  Raise (RuntimeError "timed out").

Definition match_found : gmap string pyval :=
  <["title" := VStr "Cooperative guidance"]>
    (<["abstract" := VNone]>
       (<["year" := VInt 2021]>
          (<["authors" := VList [VDict {["name" := VStr "A. Author"]};
                                 VDict {["name" := VStr "B. Author"]}]]> ∅))).
Definition requests_found (title : pyval) (n : nat) : res Lookup.response :=
  Ok (Lookup.Response 200 (Ok (VDict {["data" := VList [VDict match_found]]}))).
Definition paper_found : row :=
  <["title" := VStr "Cooperative guidance"]>
    (<["authors" := VStr "A. Author, B. Author"]>
       (<["abstract" := VNone]>
          (<["published" := VStr "2021"]>
             (<["url" := VStr "No URL"]>
                (<["categories" := VStr "Not specified"]>
                   (<["source" := VStr "semantic_scholar"]> ∅)))))).

Definition match_without_authors : gmap string pyval :=
  <["title" := VStr "Cooperative guidance"]> (<["authors" := VNone]> ∅).
Definition response_without_authors : Lookup.response :=
  Lookup.Response 200 (Ok (VDict {["data" := VList [VDict match_without_authors]]})).
Definition requests_without_authors (title : pyval) (n : nat)
  : res Lookup.response := Ok response_without_authors.

(** arXiv with one result and with none; a Google Scholar match whose
    [author] is one string, and a Google Scholar without a match. *)
Definition arxiv_one (title : pyval) (n : nat) : res (list arxiv_result) :=
  Ok [Demo.result_1].
Definition arxiv_none (title : pyval) (n : nat) : res (list arxiv_result) := Ok [].

Definition scholar_bib : gmap string pyval :=
  <["title" := VStr "Swarm control"]> (<["author" := VStr "A B"]> ∅).
Definition scholar_match : gmap string pyval :=
  <["bib" := VDict scholar_bib]>
    (<["eprint_url" := VStr "https://example.org/swarm.pdf"]> ∅).
Definition scholar_one (title : pyval) (n : nat) : res pyval :=
  Ok (VDict scholar_match).
Definition scholar_none (title : pyval) (n : nat) : res pyval := Raise StopIteration.

(** A sheet whose second title cell is a number. *)
Definition sheet_with_number : sheet :=
  [("Title", [VStr "Cooperative guidance"; VInt 2024])].
Definition world_number : world :=
  fresh [(curated_papers_csv, [Demo.earlier])] [(excel_file, sheet_with_number)] [].

End Cases.

(** * Properties *)

(** ** Strings: [partition], [split] and the fence cut *)

#[local] Arguments String.append !_ _ / : simpl nomatch.
#[local] Arguments Ascii.eqb : simpl never.

Lemma append_assoc (a b c : string) : (a +:+ b) +:+ c = a +:+ (b +:+ c).
Proof. induction a as [|x a IH]; simpl; [reflexivity | now rewrite IH]. Qed.

Lemma prefix_append (p r : string) : PyStr.startswith p (p +:+ r) = true.
Proof.
  induction p as [|c p IH]; simpl; [reflexivity |].
  now rewrite Ascii.eqb_refl.
Qed.

Lemma prefix_append_r (p x y : string) :
  PyStr.startswith p x = true -> PyStr.startswith p (x +:+ y) = true.
Proof.
  revert x. induction p as [|c p IH]; intros x H; simpl in *.
  - reflexivity.
  - destruct x as [|d x]; [discriminate |]. simpl.
    apply andb_prop in H as [-> H]. now apply IH.
Qed.

Lemma prefix_trans (p q s : string) :
  PyStr.startswith p q = true -> PyStr.startswith q s = true -> PyStr.startswith p s = true.
Proof.
  revert q s. induction p as [|c p IH]; intros q s Hpq Hqs; simpl in *.
  - reflexivity.
  - destruct q as [|d q]; [discriminate |].
    destruct s as [|e s]; simpl in Hqs; [discriminate |].
    apply andb_prop in Hpq as [Hcd Hpq]. apply andb_prop in Hqs as [Hde Hqs].
    apply Ascii.eqb_eq in Hcd as ->. rewrite Hde. simpl. eauto.
Qed.

Lemma drop_length_append (p r : string) :
  PyStr.drop (String.length p) (p +:+ r) = r.
Proof. induction p; simpl; [reflexivity | assumption]. Qed.

Lemma prefix_split (p s : string) :
  PyStr.startswith p s = true -> s = p +:+ PyStr.drop (String.length p) s.
Proof.
  revert s. induction p as [|c p IH]; intros s H; simpl in *.
  - reflexivity.
  - destruct s as [|d s]; [discriminate |].
    apply andb_prop in H as [Hcd H]. apply Ascii.eqb_eq in Hcd as ->.
    simpl. f_equal. now apply IH.
Qed.

Lemma partition_prefix (sep r : string) :
  PyStr.partition sep (sep +:+ r) = Some ("", r).
Proof.
  destruct (sep +:+ r) eqn:E; simpl;
    rewrite <- E, prefix_append, drop_length_append; reflexivity.
Qed.

(** [partition] cuts [s] in three. *)
Lemma partition_Some (sep s a b : string) :
  PyStr.partition sep s = Some (a, b) -> s = a +:+ sep +:+ b.
Proof.
  revert a b. induction s as [|c s IH]; intros a b H; simpl in H.
  - destruct (PyStr.startswith sep "") eqn:P; [| discriminate].
    injection H as <- <-. now apply prefix_split.
  - destruct (PyStr.startswith sep (String c s)) eqn:P.
    + injection H as <- <-. now apply prefix_split.
    + destruct (PyStr.partition sep s) as [[a' b']|]; [| discriminate].
      injection H as <- <-. simpl. f_equal. now apply IH.
Qed.

Lemma length_append (a b : string) :
  String.length (a +:+ b) = (String.length a + String.length b)%nat.
Proof. induction a; simpl; [reflexivity | now f_equal]. Qed.

Lemma partition_empty (sep : string) :
  sep <> "" -> PyStr.partition sep "" = None.
Proof. destruct sep; [congruence | reflexivity]. Qed.

Lemma partition_startswith (sep s : string) :
  PyStr.startswith sep s = true ->
  PyStr.partition sep s = Some ("", PyStr.drop (String.length sep) s).
Proof. intros P. destruct s; simpl; now rewrite P. Qed.

Lemma partition_step (sep : string) (c : ascii) (s : string) :
  PyStr.startswith sep (String c s) = false ->
  PyStr.partition sep (String c s) =
    match PyStr.partition sep s with
    | Some (a, b) => Some (String c a, b)
    | None => None
    end.
Proof. intros P. simpl. now rewrite P. Qed.

Lemma before_step (sep : string) (c : ascii) (s : string) :
  PyStr.startswith sep (String c s) = false ->
  before sep (String c s) = String c (before sep s).
Proof.
  intros P. unfold before. simpl. rewrite P.
  now destruct (PyStr.partition sep s) as [[a b]|].
Qed.

Lemma before_prefix (sep s : string) :
  PyStr.startswith sep s = true -> before sep s = "".
Proof. intros P. unfold before. destruct s; simpl; now rewrite P. Qed.

Lemma before_is_prefix (sep s : string) : exists r, s = before sep s +:+ r.
Proof.
  unfold before. destruct (PyStr.partition sep s) as [[a b]|] eqn:E.
  - exists (sep +:+ b). now apply partition_Some.
  - exists "". clear E. induction s; simpl; [reflexivity | now f_equal].
Qed.

Lemma before_none (sep s : string) :
  PyStr.contains sep s = false -> before sep s = s.
Proof.
  unfold PyStr.contains, before.
  now destruct (PyStr.partition sep s) as [[a b]|].
Qed.

(** The first two pieces of a split. *)
Lemma split_from_head (sep s : string) (n : nat) :
  sep <> "" -> (String.length s <= n)%nat ->
  PyStr.split_from n sep s !! 0%nat = Some (before sep s).
Proof.
  intros Hsep Hn. unfold before. destruct n; simpl.
  - destruct s; [| simpl in Hn; lia]. now rewrite partition_empty.
  - now destruct (PyStr.partition sep s) as [[a b]|].
Qed.

Lemma split_item_0 (sep s : string) :
  sep <> "" -> PyStr.item (PyStr.split sep s) 0 = Ok (before sep s).
Proof.
  intros Hsep. unfold PyStr.item, PyStr.split.
  now rewrite split_from_head.
Qed.

Lemma split_item_1 (sep s : string) :
  sep <> "" -> PyStr.contains sep s = true ->
  PyStr.item (PyStr.split sep s) 1 = Ok (before sep (after sep s)).
Proof.
  intros Hsep Hc. unfold PyStr.item, PyStr.split, PyStr.contains, after in *.
  destruct (PyStr.partition sep s) as [[a b]|] eqn:E; [| discriminate].
  pose proof (partition_Some _ _ _ _ E) as Hs.
  assert (Hlen : (String.length s = String.length a + (String.length sep + String.length b))%nat)
    by (rewrite Hs at 1; now rewrite !length_append).
  assert (0 < String.length sep)%nat by (destruct sep; [congruence | simpl; lia]).
  destruct (String.length s) as [|n] eqn:L; [lia |].
  simpl. rewrite E. simpl.
  rewrite split_from_head; [reflexivity | assumption | lia].
Qed.

(** The fence cut never fails, and is a composition of cuts. *)
Lemma strip_markdown_eq (s : string) :
  strip_markdown s =
    Ok (if PyStr.contains fence_json s
        then before fence (before fence_json (after fence_json s))
        else if PyStr.contains fence s
             then before fence (before fence (after fence s))
             else s).
Proof.
  unfold strip_markdown.
  destruct (PyStr.contains fence_json s) eqn:Hj.
  - rewrite split_item_1 by (discriminate || assumption). simpl.
    apply split_item_0. discriminate.
  - destruct (PyStr.contains fence s) eqn:Hf; [| reflexivity].
    rewrite split_item_1 by (discriminate || assumption). simpl.
    apply split_item_0. discriminate.
Qed.

Lemma append_empty_r (s : string) : s +:+ "" = s.
Proof. induction s; simpl; [reflexivity | now f_equal]. Qed.

(** An occurrence of a separator is an occurrence of each of its prefixes. *)
Lemma contains_prefix_sep (p q s : string) :
  PyStr.startswith p q = true ->
  PyStr.contains q s = true -> PyStr.contains p s = true.
Proof.
  intros Hpq. unfold PyStr.contains.
  induction s as [|c s IH]; simpl.
  - destruct (PyStr.startswith q "") eqn:Hq; [| discriminate].
    now rewrite (prefix_trans _ _ _ Hpq Hq).
  - destruct (PyStr.startswith q (String c s)) eqn:Hq.
    + now rewrite (prefix_trans _ _ _ Hpq Hq).
    + destruct (PyStr.startswith p (String c s)); [reflexivity |].
      destruct (PyStr.partition q s) as [[a b]|]; [| discriminate].
      destruct (PyStr.partition p s) as [[a' b']|]; [reflexivity |].
      intros _. now apply IH.
Qed.

Lemma contains_step (sep : string) (c : ascii) (s : string) :
  PyStr.contains sep (String c s) = false ->
  PyStr.startswith sep (String c s) = false /\ PyStr.contains sep s = false.
Proof.
  unfold PyStr.contains. simpl.
  destruct (PyStr.startswith sep (String c s)); [discriminate |].
  now destruct (PyStr.partition sep s) as [[a b]|].
Qed.

Lemma fence_free_tail (c : ascii) (t : string) :
  fence_free (String c t) -> fence_free t.
Proof.
  intros [Hc Hl]. apply contains_step in Hc as [_ Hc]. split; [exact Hc |].
  destruct t; [reflexivity | exact Hl].
Qed.

(** In front of a fence, a fence-free text starts no fence. *)
Lemma fence_free_head (c : ascii) (t r : string) :
  fence_free (String c t) ->
  PyStr.startswith fence (String c t +:+ fence +:+ r) = false.
Proof.
  intros [Hc Hl]. apply contains_step in Hc as [Hs _].
  unfold fence in *. simpl in *.
  destruct (Ascii.eqb "`" c) eqn:E1; [| reflexivity]. simpl in *.
  destruct t as [|c2 t].
  { rewrite Ascii.eqb_sym in Hl. unfold PyStr.tick in Hl. congruence. }
  simpl in *. destruct (Ascii.eqb "`" c2) eqn:E2; [| reflexivity]. simpl in *.
  destruct t as [|c3 t].
  { rewrite Ascii.eqb_sym in Hl. unfold PyStr.tick in Hl. congruence. }
  simpl in *. now rewrite Hs.
Qed.

(** The leftmost separator after a fence-free text, for a separator that
    starts with a fence. *)
Lemma partition_fence_free (sep t r : string) :
  PyStr.startswith fence sep = true -> fence_free t ->
  PyStr.partition sep (t +:+ sep +:+ r) = Some (t, r).
Proof.
  intros Hsep. induction t as [|c t IH]; intros Hfree.
  - simpl. apply partition_prefix.
  - assert (Hno : PyStr.startswith sep (String c t +:+ sep +:+ r) = false).
    { destruct (PyStr.startswith sep (String c t +:+ sep +:+ r)) eqn:E;
        [| reflexivity].
      pose proof (prefix_trans _ _ _ Hsep E) as Hf.
      rewrite (prefix_split _ _ Hsep), append_assoc in Hf.
      now rewrite fence_free_head in Hf. }
    change (String c t +:+ sep +:+ r) with (String c (t +:+ sep +:+ r)) in *.
    simpl. rewrite Hno, IH by (eapply fence_free_tail; eassumption).
    reflexivity.
Qed.

(** Cutting at the tagged fence first does not move the cut at the plain
    fence, unless the plain fence is followed by one more backtick. *)
Lemma before_fence_json (s : string) :
  (forall a b, PyStr.partition fence s = Some (a, b) ->
               PyStr.startswith "`" b = false) ->
  before fence (before fence_json s) = before fence s.
Proof.
  induction s as [|c s IH]; intros Hb; [reflexivity |].
  destruct (PyStr.startswith fence (String c s)) eqn:Hf.
  - rewrite (before_prefix fence (String c s)) by assumption.
    specialize (Hb _ _ (partition_startswith _ _ Hf)).
    destruct s as [|c2 [|c3 b]]; simpl in Hf;
      try (rewrite ?andb_false_r in Hf; discriminate).
    apply andb_prop in Hf as [E1 Hf]. apply andb_prop in Hf as [E2 Hf].
    apply andb_prop in Hf as [E3 _].
    apply Ascii.eqb_eq in E1 as <-, E2 as <-, E3 as <-.
    simpl in Hb.
    destruct (PyStr.startswith fence_json (String "`" (String "`" (String "`" b))))
      eqn:Hj.
    + now rewrite (before_prefix fence_json) by exact Hj.
    + assert (H2 : PyStr.startswith fence_json (String "`" (String "`" b)) = false).
      { destruct b as [|x b]; [reflexivity |]. simpl in *.
        destruct (Ascii.eqb "`" x); [discriminate | reflexivity]. }
      assert (H3 : PyStr.startswith fence_json (String "`" b) = false).
      { destruct b as [|x b]; [reflexivity |]. simpl in *.
        destruct (Ascii.eqb "`" x); [discriminate | reflexivity]. }
      rewrite (before_step fence_json _ _ Hj), (before_step fence_json _ _ H2),
        (before_step fence_json _ _ H3).
      now apply before_prefix.
  - assert (Hj : PyStr.startswith fence_json (String c s) = false).
    { destruct (PyStr.startswith fence_json (String c s)) eqn:E; [| reflexivity].
      assert (PyStr.startswith fence fence_json = true) as Hp by reflexivity.
      now rewrite (prefix_trans _ _ _ Hp E) in Hf. }
    rewrite (before_step fence_json), (before_step fence c s) by assumption.
    rewrite before_step.
    + f_equal. apply IH. intros a b Hab. apply (Hb (String c a) b).
      now rewrite partition_step, Hab.
    + destruct (before_is_prefix fence_json s) as [r Hr].
      destruct (PyStr.startswith fence (String c (before fence_json s))) eqn:E;
        [| reflexivity].
      apply (prefix_append_r _ _ r) in E.
      change (String c (before fence_json s) +:+ r)
        with (String c (before fence_json s +:+ r)) in E.
      rewrite <- Hr in E. congruence.
Qed.

(** The three shapes of a response. *)
Lemma strip_markdown_tagged (t : string) :
  fence_free t -> strip_markdown (fence_json +:+ t +:+ fence) = Ok t.
Proof.
  intros Hfree. rewrite strip_markdown_eq.
  unfold PyStr.contains, after. rewrite partition_prefix.
  pose proof (partition_fence_free fence t "" eq_refl Hfree) as Hp.
  rewrite append_empty_r in Hp.
  rewrite before_fence_json.
  - unfold before. now rewrite Hp.
  - intros a b Hab. rewrite Hp in Hab. now injection Hab as <- <-.
Qed.

Lemma strip_markdown_bare (t : string) :
  fence_free t -> PyStr.contains fence_json (fence +:+ t +:+ fence) = false ->
  strip_markdown (fence +:+ t +:+ fence) = Ok t.
Proof.
  intros Hfree Hj. rewrite strip_markdown_eq, Hj.
  unfold PyStr.contains at 1, after. rewrite partition_prefix.
  pose proof (partition_fence_free fence t "" eq_refl Hfree) as Hp.
  rewrite append_empty_r in Hp.
  unfold before at 2. rewrite Hp.
  f_equal. apply before_none, Hfree.
Qed.

Lemma strip_markdown_plain (s : string) :
  PyStr.contains fence s = false -> strip_markdown s = Ok s.
Proof.
  intros Hf. rewrite strip_markdown_eq, Hf.
  destruct (PyStr.contains fence_json s) eqn:Hj; [| reflexivity].
  assert (PyStr.startswith fence fence_json = true) as Hp by reflexivity.
  now rewrite (contains_prefix_sep _ _ _ Hp Hj) in Hf.
Qed.

(** ** The scoring engine *)

Lemma dict_truthy_insert {A} (d : gmap string A) (k : string) (v : A) :
  dict_truthy (<[k := v]> d) = true.
Proof.
  unfold dict_truthy. rewrite bool_decide_eq_false_2; [reflexivity |].
  apply insert_non_empty.
Qed.

Lemma logged_logged (w : world) (evs evs' : list event) (n n' : nat) :
  logged (logged w evs n) evs' n' = logged w (evs ++ evs') (n' + n).
Proof.
  unfold logged. simpl. f_equal; [now rewrite app_assoc | lia].
Qed.

Lemma logged_eq (w : world) (evs evs' : list event) (n n' : nat) :
  evs = evs' -> n = n' -> logged w evs n = logged w evs' n'.
Proof. now intros -> ->. Qed.

Lemma logged_nil (w : world) : logged w [] 0 = w.
Proof. destruct w. unfold logged. simpl. now rewrite app_nil_r. Qed.

Lemma printed_logged (w : world) (evs : list event) (n : nat) :
  printed w (logged w evs n) = evs.
Proof. unfold printed, logged. simpl. apply drop_app_length. Qed.

Lemma printed_written (w : world) (evs evs' : list event) (n : nat)
    (path : string) (rows : list row) :
  printed w (written (logged w evs n) path rows evs') = evs ++ evs'.
Proof.
  unfold printed, logged, written. simpl.
  rewrite <- app_assoc. apply drop_app_length.
Qed.

Lemma loop_event_elem (e : event) (evs : list event) :
  forallb loop_event evs = true -> e ∈ evs -> loop_event e = true.
Proof.
  intros H He. apply list_elem_of_In in He.
  now apply (proj1 (forallb_forall _ _) H).
Qed.


(** An event that is not one of the early ones, in the trace of a run that
    got to its summary, is an event of the summary. *)
Lemma late_event_elem (e : event) (prologue evs epilogue : list event) :
  forallb early_event prologue = true ->
  forallb loop_event evs = true ->
  early_event e = false ->
  e ∈ (prologue ++ [EvPrint MsgScoring] ++ evs) ++ epilogue ->
  e ∈ epilogue.
Proof.
  intros Hpro Hev He Hin.
  apply elem_of_app in Hin as [Hin | Hin]; [exfalso | exact Hin].
  apply elem_of_app in Hin as [Hin | Hin].
  - apply list_elem_of_In in Hin.
    apply (proj1 (forallb_forall _ _) Hpro) in Hin. congruence.
  - apply elem_of_cons in Hin as [-> | Hin]; [discriminate |].
    apply (loop_event_elem _ _ Hev) in Hin.
    unfold early_event in He. now rewrite Hin in He.
Qed.

(** The line of the summary that [H] says is there. *)
Ltac summary_line H :=
  unfold batch_epilogue in H;
  repeat (apply elem_of_cons in H as [H | H]; [try discriminate |]);
  [ | now apply elem_of_nil in H ].

Section ScoringFacts.

Variable json_loads : string -> res pyval.
Variable messages_create : prompt -> nat -> res message.
Variable summary_statistics : list row -> res unit.

(** When the [try] body ends well, the answer held a text whose cut and
    stripped form decoded to an object, and the scores are that object with
    the token count stored in it. *)
Lemma score_paper_try_ok (reply : res message) (rt : option string)
    (scores : gmap string pyval) :
  score_paper_try json_loads reply = (rt, Ok scores) ->
  exists message text inner obj,
    reply = Ok message /\ first_text message = Ok text /\
    strip_markdown text = Ok inner /\ rt = Some inner /\
    json_loads (PyStr.strip inner) = Ok (VDict obj) /\
    scores = <["tokens_used" :=
                 VInt (input_tokens (usage message) + output_tokens (usage message))]> obj.
Proof.
  unfold score_paper_try. intros H.
  destruct reply as [message|e]; [| discriminate].
  destruct (first_text message) as [text|e] eqn:Ht; [| discriminate].
  destruct (strip_markdown text) as [inner|e] eqn:Hs; [| discriminate].
  injection H as <- H.
  destruct (json_loads (PyStr.strip inner)) as [v|e] eqn:Hj; [| discriminate].
  destruct v; try discriminate. simpl in H. injection H as <-.
  exists message, text, inner, d. auto 10.
Qed.

Lemma scores_of_Some (paper : row) (n : nat) (scores : gmap string pyval) :
  scores_of json_loads messages_create paper n = Some scores ->
  exists message text inner obj,
    messages_create (get_scoring_prompt paper) n = Ok message /\
    first_text message = Ok text /\ strip_markdown text = Ok inner /\
    json_loads (PyStr.strip inner) = Ok (VDict obj) /\
    scores = <["tokens_used" :=
                 VInt (input_tokens (usage message) + output_tokens (usage message))]> obj.
Proof.
  unfold scores_of. intros H.
  destruct (score_paper_try json_loads _) as [rt [s|e]] eqn:E; [| discriminate].
  injection H as ->.
  apply score_paper_try_ok in E as (m & t & i & o & ? & ? & ? & ? & ? & ?).
  exists m, t, i, o. auto 10.
Qed.

(** [score_paper] on a paper that gets scores. *)
Lemma score_paper_scored (paper : row) (w : world) (scores : gmap string pyval) :
  scores_of json_loads messages_create paper (calls w) = Some scores ->
  score_paper json_loads messages_create paper w
    = (Ok (Some scores), logged w [EvRequest paper] 1).
Proof.
  unfold scores_of, score_paper, bind, remote. intros H.
  destruct (score_paper_try json_loads _) as [rt [s|e]]; [| discriminate].
  simpl in H. injection H as ->. reflexivity.
Qed.

(** [score_paper] on a paper that gets none: no scores are returned,
    whatever else happens; when it returns, one failure was reported. *)
Lemma score_paper_unscored (paper : row) (w : world) :
  scores_of json_loads messages_create paper (calls w) = None ->
  exists r report,
    score_paper json_loads messages_create paper w
      = (r, logged w (EvRequest paper :: report) 1) /\
    forallb loop_event report = true /\
    (r = Ok None \/ exists e, r = Raise e).
Proof.
  unfold scores_of, score_paper, bind, remote. intros H.
  destruct (score_paper_try json_loads _) as [rt [s|e]]; [discriminate |].
  clear H. unfold logged, is_Exception, lift, print, emit, ret, raise.
  destruct e;
    try (eexists (Ok None), [EvPrint (MsgErrorScoring _)];
         split; [| split; [reflexivity | now left]];
         cbn [trace files sheets environ calls]; now rewrite <- !app_assoc).
  - destruct (py_slice (dict_get paper "title" (VStr "Unknown")) 50) as [t|e].
    + destruct rt as [text|].
      * exists (Ok None),
          [EvPrint (MsgJsonParsingError t); EvPrint (MsgResponse (PyStr.take 200 text))].
        split; [| split; [reflexivity | now left]].
        cbn [trace files sheets environ calls]. now rewrite <- !app_assoc.
      * exists (Raise UnboundLocalError), [EvPrint (MsgJsonParsingError t)].
        split; [| split; [reflexivity | right; eauto]].
        cbn [trace files sheets environ calls]. now rewrite <- !app_assoc.
    + exists (Raise e), []. split; [reflexivity |].
      split; [reflexivity | right; eauto].
  - eexists (Raise (SystemExit _)), [].
    split; [reflexivity |]. split; [reflexivity | right; eauto].
Qed.

Lemma score_loop_cons (paper : row) (df scored_papers : list row)
    (total_tokens : Z) (w : world) :
  score_loop json_loads messages_create (paper :: df) scored_papers total_tokens w =
    match score_paper json_loads messages_create paper w with
    | (Ok (Some scores), w1) =>
        if dict_truthy scores then
          match py_iadd total_tokens (dict_get scores "tokens_used" (VInt 0)) with
          | Ok total =>
              score_loop json_loads messages_create df
                (scored_papers ++ [scores ∪ paper]) total (logged w1 [EvSleep (1 # 2)] 0)
          | Raise e => (Raise e, w1)
          end
        else score_loop json_loads messages_create df scored_papers total_tokens
               (logged w1 [EvSleep (1 # 2)] 0)
    | (Ok None, w1) =>
        score_loop json_loads messages_create df scored_papers total_tokens
          (logged w1 [EvSleep (1 # 2)] 0)
    | (Raise e, w1) => (Raise e, w1)
    end.
Proof.
  cbn [score_loop]. unfold bind at 1.
  destruct (score_paper json_loads messages_create paper w) as [[[scores|]|e] w1];
    [| reflexivity | reflexivity].
  destruct (dict_truthy scores); [| reflexivity].
  unfold bind, lift.
  destruct (py_iadd total_tokens _); reflexivity.
Qed.

(** The loop: what it accumulates when it ends, and what it leaves alone in
    any case. *)
Lemma score_loop_spec (df : list row) :
  forall (scored_papers : list row) (total_tokens : Z) (w : world) r w',
    score_loop json_loads messages_create df scored_papers total_tokens w = (r, w') ->
    (exists evs n, w' = logged w evs n /\ forallb loop_event evs = true) /\
    forall acc, r = Ok acc ->
      fst acc = scored_papers ++ expected_rows json_loads messages_create df (calls w) /\
      snd acc = total_tokens
                + sum_tokens (expected_rows json_loads messages_create df (calls w)) /\
      calls w' = (length df + calls w)%nat.
Proof.
  induction df as [|paper df IH]; intros acc0 T w r w' H.
  - simpl in H. injection H as <- <-. split.
    + exists [], 0%nat. now rewrite logged_nil.
    + intros acc [= <-]. simpl. rewrite app_nil_r. split; [reflexivity |]. split; [lia | reflexivity].
  - rewrite score_loop_cons in H.
    destruct (scores_of json_loads messages_create paper (calls w)) as [scores|] eqn:E.
    + rewrite (score_paper_scored _ _ _ E) in H.
      pose proof (scores_of_Some _ _ _ E) as (m & t & i & o & _ & _ & _ & _ & ->).
      rewrite dict_truthy_insert in H.
      unfold dict_get in H. rewrite lookup_insert_eq in H. simpl in H.
      apply IH in H as [(evs & n & -> & Hev) Hacc]. split.
      * exists ([EvRequest paper] ++ [EvSleep (1 # 2)] ++ evs), (n + 1)%nat.
        rewrite !logged_logged.
        split; [apply logged_eq; [now rewrite <- ?app_assoc | lia] |].
        simpl. exact Hev.
      * intros acc ->. destruct (Hacc _ eq_refl) as (H1 & H2 & H3).
        simpl in H1, H2, H3. simpl. rewrite E.
        rewrite H1, H2, H3. simpl.
        unfold tokens_used_of. rewrite lookup_union_l', lookup_insert_eq
          by (rewrite lookup_insert_eq; eauto).
        rewrite <- app_assoc. simpl. split; [reflexivity |]. split; lia.
    + destruct (score_paper_unscored _ _ E) as (r0 & report & Hsp & Hrep & Hr0).
      rewrite Hsp in H. destruct Hr0 as [-> | [e ->]].
      * apply IH in H as [(evs & n & -> & Hev) Hacc]. split.
        -- exists ((EvRequest paper :: report) ++ [EvSleep (1 # 2)] ++ evs), (n + 1)%nat.
           rewrite !logged_logged.
           split; [apply logged_eq; [now rewrite <- ?app_assoc | lia] |].
           simpl. rewrite !forallb_app, Hrep. simpl. exact Hev.
        -- intros acc ->. destruct (Hacc _ eq_refl) as (H1 & H2 & H3).
           simpl in H1, H2, H3. simpl. rewrite E. rewrite H1, H2, H3.
           split; [reflexivity |]. split; lia.
      * injection H as <- <-. split; [| discriminate].
        exists (EvRequest paper :: report), 1%nat. split; [reflexivity |].
        simpl. exact Hrep.
Qed.

(** How the [try] body can fail: on the endpoint's exception, before the
    response text is bound, or with the text bound. *)
Lemma score_paper_try_raise (reply : res message) (rt : option string) (e : exn) :
  score_paper_try json_loads reply = (rt, Raise e) ->
  reply = Raise e \/
  (e <> JSONDecodeError /\ is_Exception e = true) \/
  (exists inner, rt = Some inner /\ json_loads (PyStr.strip inner) = Raise e).
Proof.
  unfold score_paper_try. intros H.
  destruct reply as [message|e0]; [| injection H as _ <-; now left].
  right.
  destruct (first_text message) as [text|e0] eqn:Ht.
  2:{ injection H as _ <-. left. unfold first_text, PyStr.item in Ht.
      destruct (content message !! 0%nat) as [[t|]|]; simpl in Ht;
        try discriminate; injection Ht as <-; (split; [discriminate | reflexivity]). }
  rewrite strip_markdown_eq in H. injection H as <- H.
  destruct (json_loads (PyStr.strip _)) as [v|e0] eqn:Hj.
  - left. destruct v; simpl in H; try discriminate;
      injection H as <-; (split; [discriminate | reflexivity]).
  - right. simpl in H. injection H as <-. eauto.
Qed.

(** [score_paper] returns, with scores or without, for a paper whose title
    can be sliced, when the endpoint raises no JSON error of its own and
    nothing asks the interpreter to exit. *)
Lemma score_paper_returns (paper : row) (w : world) :
  well_titled paper = true ->
  (forall e, messages_create (get_scoring_prompt paper) (calls w) = Raise e ->
             is_Exception e = true /\ e <> JSONDecodeError) ->
  (forall s e, json_loads s = Raise e -> is_Exception e = true) ->
  exists scores evs,
    score_paper json_loads messages_create paper w = (Ok scores, logged w evs 1).
Proof.
  intros Htitle Hend Hdec.
  destruct (scores_of json_loads messages_create paper (calls w)) as [scores|] eqn:E.
  { exists (Some scores), [EvRequest paper]. now apply score_paper_scored. }
  unfold scores_of in E. unfold score_paper, bind, remote.
  destruct (score_paper_try json_loads _) as [rt [s|e]] eqn:T; [discriminate |].
  clear E. unfold logged, lift, print, emit, ret, raise.
  cbn [files sheets environ trace calls].
  assert (Hexc : is_Exception e = true).
  { apply score_paper_try_raise in T as [Hr | [[_ He] | (inner & _ & Hj)]];
      [now apply Hend in Hr | exact He | now apply Hdec in Hj]. }
  destruct e; try discriminate;
    try (eexists None, [EvRequest paper; EvPrint (MsgErrorScoring _)];
         cbn; now rewrite <- !app_assoc).
  unfold well_titled in Htitle.
  destruct (dict_get paper "title" (VStr "Unknown")) eqn:Hd; try discriminate;
    cbn [py_slice];
    (apply score_paper_try_raise in T as [Hr | [[He _] | (inner & -> & _)]];
     [ now apply Hend in Hr | now destruct He | ]);
    cbn [files sheets environ trace calls];
    eexists None, [EvRequest paper; _; _]; now rewrite <- !app_assoc.
Qed.

(** So does the loop over such papers. *)
Lemma score_loop_returns (df : list row) :
  forallb well_titled df = true ->
  (forall p n e, messages_create p n = Raise e ->
                 is_Exception e = true /\ e <> JSONDecodeError) ->
  (forall s e, json_loads s = Raise e -> is_Exception e = true) ->
  forall scored_papers total_tokens w,
  exists acc w',
    score_loop json_loads messages_create df scored_papers total_tokens w
      = (Ok acc, w').
Proof.
  intros Htitles Hend Hdec.
  induction df as [|paper df IH]; intros acc0 T w.
  - eexists _, _. reflexivity.
  - cbn [forallb] in Htitles. apply andb_prop in Htitles as [Ht Hts].
    rewrite score_loop_cons.
    destruct (scores_of json_loads messages_create paper (calls w)) as [scores|] eqn:E.
    + rewrite (score_paper_scored _ _ _ E).
      pose proof (scores_of_Some _ _ _ E) as (m & t & i & o & _ & _ & _ & _ & ->).
      rewrite dict_truthy_insert. unfold dict_get. rewrite lookup_insert_eq.
      cbn [py_iadd]. apply IH, Hts.
    + destruct (score_paper_returns paper w Ht (Hend _ _) Hdec) as (o & evs & Hsp).
      destruct (score_paper_unscored _ _ E) as (r & report & Hsp' & _ & _).
      rewrite Hsp. rewrite Hsp in Hsp'.
      destruct o as [scores|]; [| apply IH, Hts].
      exfalso. unfold scores_of in E. unfold score_paper, bind, remote in Hsp.
      destruct (score_paper_try json_loads _) as [rt [s|e]]; [discriminate |].
      unfold lift, print, emit, ret, raise in Hsp.
      destruct e; cbn in Hsp; try discriminate.
      destruct (py_slice _ 50); [| discriminate].
      destruct rt; discriminate.
Qed.

(** [score_papers_batch], stage by stage. *)
Lemma score_papers_batch_eq (input_csv output_csv : string)
    (max_papers : option Z) (w : world) :
  score_papers_batch json_loads messages_create summary_statistics
      input_csv output_csv max_papers w =
    match files w !! input_csv with
    | None =>
        (Raise (match sheets w !! input_csv with
                | Some _ => ValueError
                | None => FileNotFoundError
                end),
         logged w [EvPrint (MsgLoading input_csv)] 0)
    | Some rows =>
        let df := limit max_papers rows in
        let w1 := logged w (batch_prologue input_csv (length df)) 0 in
        match environ w !! api_key_name with
        | None | Some "" => (Ok None, logged w1 [EvPrint MsgNoApiKey] 0)
        | Some _ =>
            match score_loop json_loads messages_create df [] 0
                    (logged w1 [EvPrint MsgScoring] 0) with
            | (Raise e, w2) => (Raise e, w2)
            | (Ok acc, w2) =>
                if String.eqb (dirname output_csv) "" then (Raise FileNotFoundError, w2)
                else
                  (match (if (0 <? length (fst acc))%nat
                          then summary_statistics (fst acc) else Ok tt) with
                   | Ok _ => Ok (Some (fst acc))
                   | Raise e => Raise e
                   end,
                   written w2 output_csv (fst acc)
                     (batch_epilogue output_csv (fst acc) (length df) (snd acc)))
            end
        end
    end.
Proof.
  unfold score_papers_batch, bind, print, emit, read_csv, getenv, logged,
    written, batch_prologue, batch_epilogue, api_key_name.
  cbn [files sheets environ trace calls].
  destruct (files w !! input_csv) as [rows|]; [| now destruct (sheets w !! input_csv)].
  cbn [files sheets environ trace calls].
  rewrite <- !app_assoc. cbn [app].
  destruct (environ w !! "ANTHROPIC_API_KEY") as [[|c k]|];
    [ cbn [files sheets environ trace calls]; now rewrite <- !app_assoc
    | | cbn [files sheets environ trace calls]; now rewrite <- !app_assoc ].
  cbn [files sheets environ trace calls]. rewrite <- !app_assoc. cbn [app plus].
  destruct (score_loop json_loads messages_create (limit max_papers rows) [] 0 _)
    as [[acc|e] w2]; [| reflexivity].
  unfold makedirs, raise, emit, to_csv, lift, ret.
  destruct (String.eqb (dirname output_csv) ""); [reflexivity |].
  cbn [files sheets environ trace calls]. rewrite <- !app_assoc. cbn [app].
  destruct (0 <? length (fst acc))%nat; [| reflexivity].
  now destruct (summary_statistics (fst acc)).
Qed.

(** Every expected row is the merge of a paper of the input with the
    scores it got. *)
Lemma expected_rows_elem (df : list row) :
  forall (n : nat) (r : row),
    r ∈ expected_rows json_loads messages_create df n ->
    exists paper k scores,
      paper ∈ df /\ scores_of json_loads messages_create paper k = Some scores /\
      r = scores ∪ paper.
Proof.
  induction df as [|paper df IH]; intros n r Hr; simpl in Hr.
  - now apply elem_of_nil in Hr.
  - destruct (scores_of json_loads messages_create paper n) as [scores|] eqn:E.
    + apply elem_of_cons in Hr as [-> | Hr].
      * exists paper, n, scores. split; [left | auto].
      * destruct (IH _ _ Hr) as (p & k & s & Hp & Hs & ->).
        exists p, k, s. split; [now right | auto].
    + destruct (IH _ _ Hr) as (p & k & s & Hp & Hs & ->).
      exists p, k, s. split; [now right | auto].
Qed.

Lemma expected_rows_length (df : list row) (n : nat) :
  (length (expected_rows json_loads messages_create df n)
   + failed json_loads messages_create df n = length df)%nat.
Proof.
  revert n. induction df as [|paper df IH]; intros n; simpl; [reflexivity |].
  destruct (scores_of json_loads messages_create paper n); simpl;
    specialize (IH (S n)); lia.
Qed.


(** A run either stops before the summary, the files untouched, or writes
    the expected rows and prints the summary. *)
Lemma score_papers_batch_cases (input_csv output_csv : string)
    (max_papers : option Z) (w w' : world) (r : res (option (list row))) :
  score_papers_batch json_loads messages_create summary_statistics
      input_csv output_csv max_papers w = (r, w') ->
  (forallb early_event (printed w w') = true /\ files w' = files w /\
   forall df, r <> Ok (Some df))
  \/
  exists rows evs,
    files w !! input_csv = Some rows /\
    forallb loop_event evs = true /\
    w' = written
           (logged w (batch_prologue input_csv (length (limit max_papers rows))
                      ++ [EvPrint MsgScoring] ++ evs)
              (length (limit max_papers rows)))
           output_csv
           (expected_rows json_loads messages_create (limit max_papers rows) (calls w))
           (batch_epilogue output_csv
              (expected_rows json_loads messages_create (limit max_papers rows) (calls w))
              (length (limit max_papers rows))
              (sum_tokens
                 (expected_rows json_loads messages_create (limit max_papers rows) (calls w)))) /\
    (r = Ok (Some (expected_rows json_loads messages_create
                     (limit max_papers rows) (calls w)))
     \/ exists e, r = Raise e).
Proof.
  rewrite score_papers_batch_eq. intros H.
  destruct (files w !! input_csv) as [rows|].
  2:{ injection H as <- <-. left. rewrite printed_logged. now repeat split. }
  cbn zeta in H.
  assert (forallb early_event (batch_prologue input_csv (length (limit max_papers rows)))
          = true) as Hpro by reflexivity.
  assert (forall evs, forallb loop_event evs = true -> forallb early_event evs = true)
    as Hloop.
  { intros evs Hev. apply forallb_forall. intros e He.
    unfold early_event. now rewrite (proj1 (forallb_forall _ _) Hev e He). }
  destruct (environ w !! api_key_name) as [[|c k]|];
    try (injection H as <- <-; left; rewrite logged_logged, printed_logged;
         now repeat split).
  destruct (score_loop _ _ _ _ _ _) as [[acc|e] w2] eqn:L.
  2:{ injection H as <- <-. left.
      apply score_loop_spec in L as [(evs & n & -> & Hev) _].
      rewrite !logged_logged, printed_logged, !forallb_app, Hpro, (Hloop _ Hev).
      now repeat split. }
  apply score_loop_spec in L as [(evs & n & -> & Hev) Hacc].
  destruct (Hacc _ eq_refl) as (H1 & H2 & H3).
  cbn in H1, H2, H3.
  destruct (String.eqb (dirname output_csv) "").
  { injection H as <- <-. left.
    rewrite !logged_logged, printed_logged, !forallb_app, Hpro, (Hloop _ Hev).
    now repeat split. }
  injection H as <- <-. right. exists rows, evs.
  split; [reflexivity |]. split; [exact Hev |].
  rewrite H1, H2. cbn [Z.add]. split.
  - rewrite !logged_logged. unfold written. f_equal.
    unfold logged in H3 |- *. cbn in H3 |- *. lia.
  - destruct (0 <? length _)%nat; [| now left].
    destruct (summary_statistics _); [now left | right; eauto].
Qed.

(** A run that returns a DataFrame: the rows it wrote, and its trace. *)
Lemma score_papers_batch_done (input_csv output_csv : string)
    (max_papers : option Z) (w w' : world) (scored_df : list row) :
  score_papers_batch json_loads messages_create summary_statistics
      input_csv output_csv max_papers w = (Ok (Some scored_df), w') ->
  exists rows evs,
    files w !! input_csv = Some rows /\
    scored_df = expected_rows json_loads messages_create
                  (limit max_papers rows) (calls w) /\
    forallb loop_event evs = true /\
    w' = written
           (logged w (batch_prologue input_csv (length (limit max_papers rows))
                      ++ [EvPrint MsgScoring] ++ evs)
              (length (limit max_papers rows)))
           output_csv scored_df
           (batch_epilogue output_csv scored_df (length (limit max_papers rows))
              (sum_tokens scored_df)).
Proof.
  intros H. apply score_papers_batch_cases in H as [(_ & _ & Hno) | H].
  - now destruct (Hno scored_df).
  - destruct H as (rows & evs & Hrows & Hev & -> & [Hr | [e Hr]]); [| discriminate].
    injection Hr as ->. exists rows, evs. auto.
Qed.

End ScoringFacts.

(** ** The claims on the scoring engine *)

Section ScoringClaims.

Variable json_loads : string -> res pyval.
Variable messages_create : prompt -> nat -> res message.
Variable summary_statistics : list row -> res unit.

(** C2, as amended.  A response that holds no run of three backticks is
    the text handed to the decoder, verbatim up to [strip()].  When moreover
    the text [t] does not end with a backtick, the response that wraps it in
    a fence tagged json, and the response that wraps it in a bare fence and
    holds no tagged fence, are cut to the same text [t]: the body of the
    [try] ends as it does on [t] alone, with the same decoded scores or the
    same exception. *)
Theorem fenced_response_parsed_as_inner (t : string) (u : usage_t) :
  PyStr.contains fence t = false ->
  score_paper_try json_loads (Ok (Message [TextBlock t] u))
    = (Some t,
       res_bind (json_loads (PyStr.strip t))
         (fun scores =>
            py_setitem scores "tokens_used"
              (VInt (input_tokens u + output_tokens u)))) /\
  (last_is_tick t = false ->
   score_paper_try json_loads (Ok (Message [TextBlock (fence_json +:+ t +:+ fence)] u))
     = score_paper_try json_loads (Ok (Message [TextBlock t] u)) /\
   (PyStr.contains fence_json (fence +:+ t +:+ fence) = false ->
    score_paper_try json_loads (Ok (Message [TextBlock (fence +:+ t +:+ fence)] u))
      = score_paper_try json_loads (Ok (Message [TextBlock t] u)))).
Proof.
  intros Hno.
  assert (Hplain : score_paper_try json_loads (Ok (Message [TextBlock t] u))
                   = (Some t,
                      res_bind (json_loads (PyStr.strip t))
                        (fun scores =>
                           py_setitem scores "tokens_used"
                             (VInt (input_tokens u + output_tokens u))))).
  { unfold score_paper_try, first_text. cbn [content PyStr.item lookup list_lookup res_bind usage].
    now rewrite strip_markdown_plain. }
  split; [exact Hplain |].
  intros Hlast. rewrite Hplain.
  assert (fence_free t) as Hfree by (split; assumption).
  split; [| intros Hbare];
    unfold score_paper_try, first_text;
    cbn [content PyStr.item lookup list_lookup res_bind usage].
  - now rewrite strip_markdown_tagged.
  - now rewrite strip_markdown_bare.
Qed.


(** C4, as amended.  Without a credential in the environment (unset or
    empty), [score_papers_batch] reports the missing key and returns [None]:
    no request is made and no file is written.  The input file has been
    read by then.  The script that called it on the curated store ends
    there, and the process exits with status 0. *)
Theorem missing_credential_stops_after_read (input_csv output_csv : string)
    (max_papers : option Z) (w : world) (rows : list row) :
  files w !! input_csv = Some rows ->
  environ w !! api_key_name = None \/ environ w !! api_key_name = Some "" ->
  (exists w',
      score_papers_batch json_loads messages_create summary_statistics
          input_csv output_csv max_papers w = (Ok None, w') /\
      printed w w' = [EvPrint (MsgLoading input_csv); EvReadCsv input_csv;
                      EvPrint (MsgFound (length (limit max_papers rows)));
                      EvGetenv api_key_name; EvPrint MsgNoApiKey] /\
      files w' = files w /\ calls w' = calls w) /\
  (input_csv = curated_papers_csv ->
   exit_code (fst (paper_scorer_main json_loads messages_create
                     summary_statistics w)) = 0).
Proof.
  intros Hrows Hkey. split.
  - rewrite score_papers_batch_eq, Hrows. cbn zeta.
    eexists. split.
    + destruct Hkey as [-> | ->]; reflexivity.
    + rewrite logged_logged, printed_logged. now repeat split.
  - intros ->. unfold curated_papers_csv in Hrows.
    unfold paper_scorer_main, bind at 1, path_exists. rewrite Hrows.
    rewrite bool_decide_eq_true_2 by eauto.
    cbn [orb negb]. unfold bind at 1, print at 1, emit.
    unfold bind at 1. rewrite score_papers_batch_eq.
    cbn [files sheets environ trace calls]. rewrite Hrows. cbn zeta.
    unfold logged. cbn [files sheets environ trace calls].
    destruct Hkey as [-> | ->]; reflexivity.
Qed.




(** The count of a completed run: the rows written and the papers without
    scores add up to the papers attempted, as the summary line says. *)
Lemma score_papers_batch_count (input_csv output_csv : string)
    (max_papers : option Z) (w w' : world) (scored_df : list row) :
  score_papers_batch json_loads messages_create summary_statistics
      input_csv output_csv max_papers w = (Ok (Some scored_df), w') ->
  exists rows,
    files w !! input_csv = Some rows /\
    (length scored_df
     + failed json_loads messages_create (limit max_papers rows) (calls w)
     = length (limit max_papers rows))%nat /\
    EvPrint (MsgPapersScored (length scored_df) (length (limit max_papers rows)))
      ∈ printed w w'.
Proof.
  intros H.
  apply score_papers_batch_done in H as (rows & evs & Hrows & -> & Hev & ->).
  exists rows. split; [exact Hrows |]. split; [apply expected_rows_length |].
  rewrite printed_written. apply elem_of_app. right. unfold batch_epilogue.
  do 3 apply list_elem_of_further. apply list_elem_of_here.
Qed.

(** The run goes on over papers without scores: with the input file and
    the credential present, an output path inside a directory, titles that
    can be sliced, an endpoint that raises no JSON error of its own, nothing
    that asks the interpreter to exit and statistics that succeed, the run
    returns the expected rows, as many as the papers attempted less the
    papers without scores. *)
Lemma score_papers_batch_completes (input_csv output_csv : string)
    (max_papers : option Z) (w : world) (rows : list row) (key : string) :
  files w !! input_csv = Some rows ->
  environ w !! api_key_name = Some key -> key <> "" ->
  dirname output_csv <> "" ->
  forallb well_titled (limit max_papers rows) = true ->
  (forall p n e, messages_create p n = Raise e ->
                 is_Exception e = true /\ e <> JSONDecodeError) ->
  (forall s e, json_loads s = Raise e -> is_Exception e = true) ->
  (forall df, summary_statistics df = Ok tt) ->
  exists w',
    score_papers_batch json_loads messages_create summary_statistics
        input_csv output_csv max_papers w
      = (Ok (Some (expected_rows json_loads messages_create
                     (limit max_papers rows) (calls w))), w') /\
    (length (expected_rows json_loads messages_create (limit max_papers rows) (calls w))
     + failed json_loads messages_create (limit max_papers rows) (calls w)
     = length (limit max_papers rows))%nat.
Proof.
  intros Hrows Hkey Hne Hdir Htitles Hend Hdec Hstat.
  rewrite score_papers_batch_eq, Hrows. cbn zeta. rewrite Hkey.
  destruct key as [|c key]; [congruence |].
  destruct (score_loop_returns json_loads messages_create _ Htitles Hend Hdec [] 0
              (logged (logged w (batch_prologue input_csv (length (limit max_papers rows))) 0)
                 [EvPrint MsgScoring] 0))
    as (acc & w2 & L).
  rewrite L.
  destruct (String.eqb (dirname output_csv) "") eqn:Hd;
    [now apply String.eqb_eq in Hd |].
  apply score_loop_spec in L as [_ Hacc].
  destruct (Hacc _ eq_refl) as (H1 & _). cbn in H1. rewrite H1.
  eexists. split; [| apply expected_rows_length].
  rewrite Hstat. now destruct (0 <? _)%nat.
Qed.

End ScoringClaims.

(** ** The collection stage *)

Lemma written_files_ne (w : world) (path path' : string) (rows : list row)
    (evs : list event) :
  path <> path' -> files (written w path rows evs) !! path' = files w !! path'.
Proof. intros Hne. unfold written. simpl. now rewrite lookup_insert_ne. Qed.

Lemma store_paths_differ : curated_papers_csv <> papers_not_found_csv.
Proof. discriminate. Qed.

(** *** [drop_duplicates] *)

Lemma drop_duplicates_from_sublist (key : string) (df : list (gmap string string)) :
  forall seen, sublist (drop_duplicates_from key seen df) df.
Proof.
  induction df as [|r df IH]; intros seen; simpl; [constructor |].
  case_bool_decide.
  - apply sublist_cons, IH.
  - apply sublist_skip, IH.
Qed.

Lemma drop_duplicates_from_fresh (key : string) (df : list (gmap string string)) :
  forall seen r,
    r ∈ drop_duplicates_from key seen df -> r !! key ∉ seen.
Proof.
  induction df as [|x df IH]; intros seen r Hr; simpl in Hr.
  - now apply elem_of_nil in Hr.
  - case_bool_decide as Hx.
    + now apply IH in Hr.
    + apply elem_of_cons in Hr as [-> | Hr]; [exact Hx |].
      apply IH in Hr. intros Hin. apply Hr. now right.
Qed.

Lemma drop_duplicates_from_NoDup (key : string) (df : list (gmap string string)) :
  forall seen, NoDup (map (fun r => r !! key) (drop_duplicates_from key seen df)).
Proof.
  induction df as [|x df IH]; intros seen; simpl; [constructor |].
  case_bool_decide as Hx; [apply IH |].
  simpl. constructor; [| apply IH].
  intros Hin. apply list_elem_of_fmap in Hin as (r & Hk & Hr).
  apply drop_duplicates_from_fresh in Hr. apply Hr. rewrite <- Hk. now left.
Qed.

Lemma drop_duplicates_from_covers (key : string) (df : list (gmap string string)) :
  forall seen p,
    p ∈ df ->
    p !! key ∈ seen \/
    exists r, r ∈ drop_duplicates_from key seen df /\ r !! key = p !! key.
Proof.
  induction df as [|x df IH]; intros seen p Hp; simpl.
  - now apply elem_of_nil in Hp.
  - apply elem_of_cons in Hp as [-> | Hp].
    + case_bool_decide as Hx; [now left |].
      right. exists x. split; [now left | reflexivity].
    + case_bool_decide as Hx.
      * apply IH; assumption.
      * destruct (IH (x !! key :: seen) p Hp) as [Hin | (r & Hr & Hk)].
        -- apply elem_of_cons in Hin as [Heq | Hin]; [| now left].
           right. exists x. split; [now left | now symmetry].
        -- right. exists r. split; [now right | exact Hk].
Qed.

(** *** The loops leave the files alone *)

Section CollectionFacts.

Variable search_paper_by_title : pyval -> nat -> res (option row).
Variable search_semantic_scholar : pyval -> nat -> option row.
Variable arxiv_search : string -> nat -> nat -> res (list arxiv_result).
Variable timestamp : string.

Lemma fetch_loop_files (titles : list pyval) :
  forall idx total papers not_found w r w',
    fetch_loop search_paper_by_title titles idx total papers not_found w = (r, w') ->
    files w' = files w /\ sheets w' = sheets w.
Proof.
  induction titles as [|title titles IH]; intros idx total papers nf w r w' H.
  - simpl in H. injection H as <- <-. auto.
  - cbn [fetch_loop] in H. unfold bind, print, emit, remote, lift, sleep in H.
    cbn [files sheets environ trace calls] in H.
    destruct (search_paper_by_title title (calls w)) as [paper|e].
    + apply IH in H as [-> ->]. auto.
    + injection H as <- <-. auto.
Qed.

Lemma missing_loop_spec (titles : list pyval) :
  forall idx total found_papers still w r w',
    missing_loop search_semantic_scholar titles idx total found_papers still w
      = (r, w') ->
    files w' = files w /\ sheets w' = sheets w /\
    forall acc, r = Ok acc ->
      fst acc = found_papers ++ found_by search_semantic_scholar titles (calls w).
Proof.
  induction titles as [|title titles IH]; intros idx total fp st w r w' H.
  - simpl in H. injection H as <- <-. repeat split.
    intros acc [= <-]. simpl. now rewrite app_nil_r.
  - cbn [missing_loop] in H. unfold bind, print, emit, remote, lift, sleep, ret in H.
    destruct (py_slice title 60) as [shown|e].
    + cbn [files sheets environ trace calls] in H. cbn [found_by].
      destruct (search_semantic_scholar title (calls w)) as [p|];
        [destruct (dict_truthy p) |];
        cbn [files sheets environ trace calls fst snd] in H;
        apply IH in H as (-> & -> & Hacc); repeat split;
        intros acc Hr; rewrite (Hacc _ Hr); cbn [calls];
        now rewrite <- ?app_assoc.
    + injection H as <- <-. repeat split. discriminate.
Qed.

Lemma search_arxiv_loop_spec (results : list arxiv_result) :
  forall papers w,
    exists w',
      search_arxiv_loop results papers w = (Ok (papers ++ map arxiv_paper results), w') /\
      files w' = files w /\ sheets w' = sheets w /\ calls w' = calls w.
Proof.
  induction results as [|result results IH]; intros papers w.
  - exists w. simpl. now rewrite app_nil_r.
  - cbn [search_arxiv_loop]. unfold bind, print, emit.
    destruct (IH (papers ++ [arxiv_paper result])
                (World (files w) (sheets w) (environ w)
                   (trace w ++ [EvPrint (MsgPaperTitle
                      (PyStr.take 50 (dict_get (arxiv_paper result) "title" "")))])
                   (calls w)))
      as (w' & -> & Hf).
    exists w'. split; [| exact Hf].
    simpl. now rewrite <- app_assoc.
Qed.

Lemma search_arxiv_spec (query : string) (max_results : nat) (w : world) r w' :
  search_arxiv arxiv_search query max_results w = (r, w') ->
  files w' = files w /\ sheets w' = sheets w /\ calls w' = S (calls w) /\
  forall papers, r = Ok papers ->
    exists results, arxiv_search query max_results (calls w) = Ok results /\
                    papers = map arxiv_paper results.
Proof.
  unfold search_arxiv, bind, print, emit, remote, lift.
  cbn [files sheets environ trace calls].
  destruct (arxiv_search query max_results (calls w)) as [results|e].
  - match goal with
    | |- search_arxiv_loop _ _ ?w1 = _ -> _ =>
        destruct (search_arxiv_loop_spec results [] w1) as (w2 & -> & Hf & Hs & Hc)
    end.
    intros H. injection H as <- <-. cbn in Hf, Hs, Hc.
    repeat split; try assumption.
    intros papers [= <-]. eauto.
  - intros H. injection H as <- <-. repeat split. discriminate.
Qed.

Lemma collect_spec (qs : list string) :
  forall all_papers w r w',
    collect arxiv_search qs all_papers w = (r, w') ->
    files w' = files w /\ sheets w' = sheets w /\
    forall all, r = Ok all -> all = all_papers ++ collected arxiv_search qs (calls w).
Proof.
  induction qs as [|q qs IH]; intros acc w r w' H.
  - simpl in H. injection H as <- <-. repeat split.
    intros all [= <-]. simpl. now rewrite app_nil_r.
  - cbn [collect] in H. unfold bind at 1 in H.
    destruct (search_arxiv arxiv_search q 15 w) as [[papers|e] w1] eqn:S.
    + apply search_arxiv_spec in S as (Hf & Hs & Hc & Hp).
      destruct (Hp _ eq_refl) as (results & Hres & ->).
      unfold bind, print, emit in H. cbn [files sheets environ trace calls] in H.
      apply IH in H as (Hf' & Hs' & Hall). cbn in Hf', Hs', Hall.
      rewrite Hf', Hs', Hf, Hs. repeat split.
      intros all Hr. rewrite (Hall _ Hr), Hc. simpl. rewrite Hres.
      now rewrite <- app_assoc.
    + apply search_arxiv_spec in S as (Hf & Hs & _).
      injection H as <- <-. repeat split; try assumption. discriminate.
Qed.

End CollectionFacts.

(** ** The claims on the entry points and the collection stage *)

Section CollectionClaims.

Variable json_loads : string -> res pyval.
Variable messages_create : prompt -> nat -> res message.
Variable summary_statistics : list row -> res unit.
Variable search_paper_by_title : pyval -> nat -> res (option row).
Variable search_semantic_scholar : pyval -> nat -> option row.
Variable arxiv_search : string -> nat -> nat -> res (list arxiv_result).
Variable timestamp : string.

(** C5, as amended.  With its input file missing, paper_scorer.py reports
    it and exits with status 1, and so does fetch_from_excel.py;
    fetch_missing_semantic.py reports it and returns, so the process exits
    with status 0.  Nothing else is done in the three cases. *)
Theorem exit_status_on_missing_input :
  (forall w,
      files w !! curated_papers_csv = None ->
      sheets w !! curated_papers_csv = None ->
      exists w',
        paper_scorer_main json_loads messages_create summary_statistics w
          = (Raise (SystemExit 1), w') /\
        exit_code (fst (paper_scorer_main json_loads messages_create
                          summary_statistics w)) = 1 /\
        printed w w' = [EvPrint (MsgFileNotFound curated_papers_csv); EvPrint MsgUsage] /\
        files w' = files w)
  /\
  (forall argv w,
      files w !! excel_file_of argv = None ->
      sheets w !! excel_file_of argv = None ->
      exists w',
        fetch_from_excel_main search_paper_by_title argv w
          = (Raise (SystemExit 1), w') /\
        exit_code (fst (fetch_from_excel_main search_paper_by_title argv w)) = 1 /\
        printed w w' = [EvPrint (MsgFileNotFound (excel_file_of argv)); EvPrint MsgUsage] /\
        files w' = files w)
  /\
  (forall w,
      files w !! papers_not_found_csv = None ->
      sheets w !! papers_not_found_csv = None ->
      exists w',
        fetch_missing_semantic_main search_semantic_scholar w = (Ok tt, w') /\
        exit_code (fst (fetch_missing_semantic_main search_semantic_scholar w)) = 0 /\
        printed w w' = [EvPrint (MsgFileNotFound papers_not_found_csv)] /\
        files w' = files w).
Proof.
  split; [| split].
  - intros w Hf Hs.
    assert (H : paper_scorer_main json_loads messages_create summary_statistics w
                = (Raise (SystemExit 1),
                   logged w [EvPrint (MsgFileNotFound curated_papers_csv);
                             EvPrint MsgUsage] 0)).
    { unfold paper_scorer_main, bind, path_exists.
      unfold curated_papers_csv in Hf, Hs. rewrite Hf, Hs.
      rewrite !bool_decide_eq_false_2 by (intros [x Hx]; discriminate).
      unfold logged, print, emit, raise. cbn. now rewrite <- app_assoc. }
    eexists. split; [exact H |]. rewrite H, printed_logged. now repeat split.
  - intros argv w Hf Hs.
    assert (H : fetch_from_excel_main search_paper_by_title argv w
                = (Raise (SystemExit 1),
                   logged w [EvPrint (MsgFileNotFound (excel_file_of argv));
                             EvPrint MsgUsage] 0)).
    { unfold fetch_from_excel_main, bind, path_exists. rewrite Hf, Hs.
      rewrite !bool_decide_eq_false_2 by (intros [x Hx]; discriminate).
      unfold logged, print, emit, raise. cbn. now rewrite <- app_assoc. }
    eexists. split; [exact H |]. rewrite H, printed_logged. now repeat split.
  - intros w Hf Hs.
    assert (H : fetch_missing_semantic_main search_semantic_scholar w
                = (Ok tt, logged w [EvPrint (MsgFileNotFound papers_not_found_csv)] 0)).
    { unfold fetch_missing_semantic_main, fetch_missing_papers, bind,
        except_FileNotFoundError, read_csv.
      rewrite Hf, Hs. reflexivity. }
    eexists. split; [exact H |]. rewrite H, printed_logged. now repeat split.
Qed.

(** C6, as amended.  The recovery pass of fetch_missing_semantic.py
    appends: whatever its outcome, the Curated Corpus Store holds afterwards
    the rows it held before, in their order, followed by new rows, and when
    the pass returns the new rows are the papers it found.  The Excel pass
    of fetch_from_excel.py replaces: when it returns its DataFrame, the
    store holds the papers found in that run and nothing else. *)
Theorem curated_store_appended_or_replaced :
  (forall (w w' : world) (r : res unit) (existing : list row),
      files w !! curated_papers_csv = Some existing ->
      fetch_missing_papers search_semantic_scholar w = (r, w') ->
      exists new,
        files w' !! curated_papers_csv = Some (existing ++ new) /\
        forall waiting titles,
          r = Ok tt ->
          files w !! papers_not_found_csv = Some waiting ->
          df_column "title" waiting = Ok titles ->
          new = found_by search_semantic_scholar titles (calls w))
  /\
  (forall (excel_file : string) (w w' : world) (papers_df : list row),
      fetch_papers_from_excel search_paper_by_title excel_file w
        = (Ok (Some papers_df), w') ->
      files w' !! curated_papers_csv = Some papers_df).
Proof.
  split.
  - intros w w' r existing Hex H.
    assert (Hsame : forall w0 : world,
               files w0 = files w ->
               exists new, files w0 !! curated_papers_csv = Some (existing ++ new)
                           /\ new = []).
    { intros w0 ->. exists []. now rewrite app_nil_r. }
    unfold fetch_missing_papers, bind, except_FileNotFoundError, read_csv in H.
    destruct (files w !! papers_not_found_csv) as [waiting|] eqn:Hnf.
    2:{ destruct (sheets w !! papers_not_found_csv).
        - injection H as <- <-. destruct (Hsame w eq_refl) as (new & Hn & ->).
          exists []. split; [exact Hn | discriminate].
        - unfold print, emit, ret in H. cbn in H. injection H as <- <-.
          exists []. rewrite app_nil_r. split; [exact Hex | discriminate]. }
    unfold ret, lift, print, emit in H. cbn [files sheets environ trace calls] in H.
    destruct (df_column "title" waiting) as [titles|e] eqn:Hcol.
    2:{ injection H as <- <-. exists []. rewrite app_nil_r.
        split; [exact Hex | discriminate]. }
    destruct (missing_loop _ _ _ _ _ _ _) as [[acc|e] w3] eqn:L.
    2:{ apply missing_loop_spec in L as (Hf & _). injection H as <- <-.
        exists []. rewrite app_nil_r, Hf. split; [exact Hex | discriminate]. }
    apply missing_loop_spec in L as (Hf & Hs & Hacc).
    specialize (Hacc _ eq_refl). cbn in Hf, Hs, Hacc.
    exists (fst acc). split.
    2:{ intros waiting' titles' _ [= <-] Hcol'.
        rewrite Hcol in Hcol'. injection Hcol' as <-. exact Hacc. }
    destruct (fst acc) as [|p ps] eqn:Hfound.
    + rewrite app_nil_r.
      destruct (snd acc); unfold to_csv, print, emit in H;
        cbn [files sheets environ trace calls] in H; injection H as <- <-;
        cbn [files]; rewrite ?lookup_insert_ne by discriminate;
        now rewrite Hf.
    + unfold read_csv, to_csv, print, emit in H. rewrite Hf, Hex in H.
      cbn [files sheets environ trace calls] in H.
      destruct (snd acc); cbn [files sheets environ trace calls] in H;
        injection H as <- <-; cbn [files];
        rewrite ?lookup_insert_ne by discriminate;
        apply lookup_insert_eq.
  - intros excel_file w w' papers_df H.
    unfold fetch_papers_from_excel, bind, except_FileNotFoundError, read_excel,
      print, emit in H.
    cbn [files sheets environ trace calls] in H.
    destruct (sheets w !! excel_file) as [df|].
    2:{ destruct (files w !! excel_file); discriminate. }
    unfold ret, lift in H. cbn [files sheets environ trace calls] in H.
    destruct (title_column (map fst df)) as [col|e]; [| discriminate].
    destruct (sheet_titles df col) as [titles|e]; [| discriminate].
    destruct (fetch_loop _ _ _ _ _ _ _) as [[acc|e] w3]; [| discriminate].
    destruct (fst acc) as [|p ps].
    + destruct (snd acc); unfold to_csv, print, emit, raise in H;
        cbn [files sheets environ trace calls] in H; discriminate.
    + unfold makedirs, to_csv, print, emit in H.
      cbn [String.eqb Ascii.eqb Bool.eqb files sheets environ trace calls] in H.
      destruct (snd acc); cbn [files sheets environ trace calls] in H;
        injection H as <- <-; cbn [files];
        rewrite ?lookup_insert_ne by discriminate;
        apply lookup_insert_eq.
Qed.

(** C7, as amended.  The arXiv collector is the stage that removes
    duplicates: the rows it writes are rows it collected, in their order,
    no two of them have the same [url], and every collected row has its
    [url] among them.  (The Excel pass and the recovery pass write what they
    found as it is.) *)
Theorem arxiv_rows_unique_by_url (w w' : world) (df : list (gmap string string)) :
  arxiv_main arxiv_search timestamp w = (Ok df, w') ->
  files w' !! arxiv_output timestamp = Some (map (fmap VStr) df) /\
  sublist df (collected arxiv_search queries (calls w)) /\
  NoDup (map (fun r => r !! "url") df) /\
  forall p, p ∈ collected arxiv_search queries (calls w) ->
            exists r, r ∈ df /\ r !! "url" = p !! "url".
Proof.
  unfold arxiv_main, bind. intros H.
  destruct (collect arxiv_search queries [] w) as [[all|e] w1] eqn:C; [| discriminate].
  apply collect_spec in C as (Hf & Hs & Hall).
  specialize (Hall _ eq_refl). cbn [app] in Hall. subst all.
  unfold lift, drop_duplicates in H.
  destruct (existsb _ _); [| discriminate].
  unfold print, emit, makedirs, to_csv in H.
  cbn [String.eqb Ascii.eqb Bool.eqb files sheets environ trace calls] in H.
  injection H as <- <-. cbn [files].
  split; [apply lookup_insert_eq |].
  split; [apply drop_duplicates_from_sublist |].
  split; [apply drop_duplicates_from_NoDup |].
  intros p Hp.
  destruct (drop_duplicates_from_covers "url" _ [] p Hp) as [Hin | Hr];
    [now apply elem_of_nil in Hin | exact Hr].
Qed.

End CollectionClaims.

(** ** The claims at concrete inputs *)



(** C2 as stated fails: for a JSON object with backticks inside a string
    value, the fenced response is cut inside the object and does not parse,
    while the unwrapped response is cut to the text between its backticks,
    which is not the response. *)
Lemma backticks_inside_json_break_the_cut :
  JsonRef.loads Demo.backticked = Ok (VDict {["a" := VStr "```{}```"]}) /\
  score_paper_try JsonRef.loads
      (Ok (Message [TextBlock (fence_json +:+ Demo.backticked +:+ fence)] (Usage 2 1)))
    = (Some (json_text "{'a': '"), Raise JSONDecodeError) /\
  score_paper_try JsonRef.loads (Ok (Message [TextBlock Demo.backticked] (Usage 2 1)))
    = (Some "{}", Ok {["tokens_used" := VInt 3]}) /\
  strip_markdown Demo.backticked <> Ok Demo.backticked.
Proof.
  split; [vm_compute; reflexivity |].
  split; [vm_compute; reflexivity |].
  split; [vm_compute; reflexivity |].
  vm_compute. discriminate.
Qed.

Lemma fenced_response_witness :
  PyStr.contains fence (json_text "{'relevance_score': 9}") = false /\
  last_is_tick (json_text "{'relevance_score': 9}") = false /\
  PyStr.contains fence_json (fence +:+ json_text "{'relevance_score': 9}" +:+ fence)
    = false /\
  score_paper_try JsonRef.loads
      (Ok (Message [TextBlock (json_text "{'relevance_score': 9}")] (Usage 100 20)))
    = (Some (json_text "{'relevance_score': 9}"),
       Ok (<["tokens_used" := VInt 120]> {["relevance_score" := VInt 9]})) /\
  score_paper_try JsonRef.loads
      (Ok (Message [TextBlock (fence_json +:+ json_text "{'relevance_score': 9}" +:+ fence)]
             (Usage 100 20)))
    = score_paper_try JsonRef.loads
        (Ok (Message [TextBlock (json_text "{'relevance_score': 9}")] (Usage 100 20))) /\
  score_paper_try JsonRef.loads
      (Ok (Message [TextBlock (fence +:+ json_text "{'relevance_score': 9}" +:+ fence)]
             (Usage 100 20)))
    = score_paper_try JsonRef.loads
        (Ok (Message [TextBlock (json_text "{'relevance_score': 9}")] (Usage 100 20))).
Proof.
  assert (H1 : PyStr.contains fence (json_text "{'relevance_score': 9}") = false)
    by (vm_compute; reflexivity).
  assert (H2 : last_is_tick (json_text "{'relevance_score': 9}") = false)
    by (vm_compute; reflexivity).
  assert (H3 : PyStr.contains fence_json
                 (fence +:+ json_text "{'relevance_score': 9}" +:+ fence) = false)
    by (vm_compute; reflexivity).
  destruct (fenced_response_parsed_as_inner JsonRef.loads
              (json_text "{'relevance_score': 9}") (Usage 100 20) H1)
    as [Hplain Hfenced].
  destruct (Hfenced H2) as [Htagged Hbare].
  split; [exact H1 |]. split; [exact H2 |]. split; [exact H3 |].
  split; [vm_compute; reflexivity |].
  split; [exact Htagged | exact (Hbare H3)].
Defined.

(** C3 fails on the code for a paper whose title cell is empty: the
    answer is no JSON, the report of the parsing error slices the title,
    which is a float, and the [TypeError] ends the run before anything is
    written.  The same answer for a titled paper is dropped and the run goes
    on ([Demo.run_scored]). *)
Lemma untitled_paper_aborts_run :
  Demo.paper_untitled !! "title" = Some nan /\
  JsonRef.loads (PyStr.strip "I cannot score this paper.") = Raise JSONDecodeError /\
  fst Demo.run_untitled = Raise TypeError /\
  files (snd Demo.run_untitled) !! Demo.scored_papers_csv = None.
Proof. repeat split; vm_compute; reflexivity. Qed.

(** C4 as stated fails: without a credential the input file is read
    before the key is looked for. *)
Lemma input_read_without_credential :
  environ Demo.world_no_key !! api_key_name = None /\
  fst Demo.run_no_key = Ok None /\
  printed Demo.world_no_key (snd Demo.run_no_key)
    = [EvPrint (MsgLoading curated_papers_csv); EvReadCsv curated_papers_csv;
       EvPrint (MsgFound 3); EvGetenv api_key_name; EvPrint MsgNoApiKey].
Proof. repeat split; vm_compute; reflexivity. Qed.

Lemma missing_credential_witness :
  files Demo.world_no_key !! curated_papers_csv
    = Some [Demo.paper_a; Demo.paper_b; Demo.paper_c] /\
  environ Demo.world_no_key !! api_key_name = None /\
  (exists w',
      Demo.run_no_key = (Ok None, w') /\
      printed Demo.world_no_key w'
        = [EvPrint (MsgLoading curated_papers_csv); EvReadCsv curated_papers_csv;
           EvPrint (MsgFound (length (limit None [Demo.paper_a; Demo.paper_b; Demo.paper_c])));
           EvGetenv api_key_name; EvPrint MsgNoApiKey] /\
      files w' = files Demo.world_no_key /\ calls w' = calls Demo.world_no_key) /\
  exit_code (fst (paper_scorer_main JsonRef.loads Demo.endpoint Demo.statistics
                    Demo.world_no_key)) = 0.
Proof.
  assert (H1 : files Demo.world_no_key !! curated_papers_csv
               = Some [Demo.paper_a; Demo.paper_b; Demo.paper_c])
    by (vm_compute; reflexivity).
  assert (H2 : environ Demo.world_no_key !! api_key_name = None)
    by (vm_compute; reflexivity).
  split; [exact H1 |]. split; [exact H2 |].
  destruct (missing_credential_stops_after_read JsonRef.loads Demo.endpoint
              Demo.statistics curated_papers_csv Demo.scored_papers_csv None
              Demo.world_no_key [Demo.paper_a; Demo.paper_b; Demo.paper_c]
              H1 (or_introl H2)) as [Hbatch Hexit].
  split; [exact Hbatch | exact (Hexit eq_refl)].
Defined.

(** C5 as stated fails: with its input file missing, the recovery pass
    prints that the file was not found and the process exits with status 0. *)
Lemma recovery_exits_zero_without_input :
  files Demo.world_empty !! papers_not_found_csv = None /\
  sheets Demo.world_empty !! papers_not_found_csv = None /\
  fetch_missing_semantic_main Demo.semantic_nothing Demo.world_empty
    = (Ok tt, logged Demo.world_empty [EvPrint (MsgFileNotFound papers_not_found_csv)] 0) /\
  exit_code (fst (fetch_missing_semantic_main Demo.semantic_nothing Demo.world_empty)) = 0 /\
  exit_code (fst (fetch_missing_semantic_main Demo.semantic_nothing Demo.world_empty)) <> 1.
Proof. repeat split; vm_compute; (reflexivity || discriminate). Qed.

Lemma exit_status_witness :
  files Demo.world_empty !! curated_papers_csv = None /\
  files Demo.world_empty !! excel_file_of ["fetch_from_excel.py"] = None /\
  files Demo.world_empty !! papers_not_found_csv = None /\
  exit_code (fst (paper_scorer_main JsonRef.loads Demo.endpoint Demo.statistics
                    Demo.world_empty)) = 1 /\
  exit_code (fst (fetch_from_excel_main Demo.lookup_title ["fetch_from_excel.py"]
                    Demo.world_empty)) = 1 /\
  exit_code (fst (fetch_missing_semantic_main Demo.semantic_nothing Demo.world_empty)) = 0.
Proof.
  destruct (exit_status_on_missing_input JsonRef.loads Demo.endpoint Demo.statistics
              Demo.lookup_title Demo.semantic_nothing) as (Hscorer & Hexcel & Hmissing).
  destruct (Hscorer Demo.world_empty eq_refl eq_refl) as (w1 & _ & H1 & _).
  destruct (Hexcel ["fetch_from_excel.py"] Demo.world_empty eq_refl eq_refl)
    as (w2 & _ & H2 & _).
  destruct (Hmissing Demo.world_empty eq_refl eq_refl) as (w3 & _ & H3 & _).
  repeat split; assumption || reflexivity.
Defined.

(** C6 as stated fails: a run of the Excel pass over a store that holds a
    row leaves the two rows it found and not the earlier row: the store is
    not the old rows followed by new ones. *)
Lemma excel_pass_overwrites_store :
  files Demo.world_excel !! curated_papers_csv = Some [Demo.earlier] /\
  fst Demo.run_excel = Ok tt /\
  files (snd Demo.run_excel) !! curated_papers_csv = Some [Demo.entry; Demo.entry] /\
  ~ exists new, [Demo.entry; Demo.entry] = [Demo.earlier] ++ new.
Proof.
  split; [vm_compute; reflexivity |].
  split; [vm_compute; reflexivity |].
  split; [vm_compute; reflexivity |].
  intros [new H].
  assert (Hs : hd ∅ [Demo.entry; Demo.entry] !! "source"
               = hd ∅ ([Demo.earlier] ++ new) !! "source") by now rewrite H.
  vm_compute in Hs. discriminate.
Qed.

Lemma curated_store_witness :
  files Demo.world_missing !! curated_papers_csv = Some [Demo.earlier] /\
  Demo.run_missing = (Ok tt, snd Demo.run_missing) /\
  fetch_papers_from_excel Demo.lookup_title "curated_paper_titles.xlsx" Demo.world_excel
    = (Ok (Some [Demo.entry; Demo.entry]),
       snd (fetch_papers_from_excel Demo.lookup_title "curated_paper_titles.xlsx"
              Demo.world_excel)) /\
  files (snd Demo.run_missing) !! curated_papers_csv = Some [Demo.earlier; Demo.entry] /\
  files (snd (fetch_papers_from_excel Demo.lookup_title "curated_paper_titles.xlsx"
                Demo.world_excel)) !! curated_papers_csv
    = Some [Demo.entry; Demo.entry].
Proof.
  assert (H1 : files Demo.world_missing !! curated_papers_csv = Some [Demo.earlier])
    by (vm_compute; reflexivity).
  assert (H2 : Demo.run_missing = (Ok tt, snd Demo.run_missing))
    by (vm_compute; reflexivity).
  assert (H3 : fetch_papers_from_excel Demo.lookup_title "curated_paper_titles.xlsx"
                 Demo.world_excel
               = (Ok (Some [Demo.entry; Demo.entry]),
                  snd (fetch_papers_from_excel Demo.lookup_title
                         "curated_paper_titles.xlsx" Demo.world_excel)))
    by (vm_compute; reflexivity).
  destruct (curated_store_appended_or_replaced Demo.lookup_title Demo.semantic_found)
    as [Happend Hreplace].
  destruct (Happend Demo.world_missing (snd Demo.run_missing) (Ok tt) [Demo.earlier] H1 H2)
    as (new & Hstore & Hnew).
  rewrite (Hnew (title_frame [VStr "Cooperative guidance"]) [VStr "Cooperative guidance"]
             eq_refl eq_refl eq_refl) in Hstore.
  split; [exact H1 |]. split; [exact H2 |]. split; [exact H3 |].
  split; [exact Hstore |].
  exact (Hreplace _ _ _ _ H3).
Defined.

(** C7 as stated fails for the Excel pass: two titles that resolve to the
    same arXiv entry leave two rows with one [url] in the persisted store. *)
Lemma excel_pass_keeps_duplicate_urls :
  Demo.titles_sheet
    = [("Paper Title", [VStr "Cooperative guidance"; VStr "Cooperative guidance (preprint)"])] /\
  files (snd Demo.run_excel) !! curated_papers_csv = Some [Demo.entry; Demo.entry] /\
  Demo.entry !! "url" = Some (VStr "http://arxiv.org/abs/2401.00001v1") /\
  ~ NoDup (map (fun r : row => r !! "url") [Demo.entry; Demo.entry]).
Proof.
  split; [reflexivity |].
  split; [vm_compute; reflexivity |].
  split; [vm_compute; reflexivity |].
  intros H. apply NoDup_cons in H as [H _]. apply H. left.
Qed.

Lemma arxiv_rows_witness :
  Demo.run_arxiv
    = (Ok [arxiv_paper Demo.result_1; arxiv_paper Demo.result_2], snd Demo.run_arxiv) /\
  length (collected Demo.arxiv queries (calls Demo.world_empty)) = 6%nat /\
  files (snd Demo.run_arxiv) !! arxiv_output Demo.stamp
    = Some (map (fmap VStr) [arxiv_paper Demo.result_1; arxiv_paper Demo.result_2]) /\
  sublist [arxiv_paper Demo.result_1; arxiv_paper Demo.result_2]
    (collected Demo.arxiv queries (calls Demo.world_empty)) /\
  NoDup (map (fun r : gmap string string => r !! "url")
           [arxiv_paper Demo.result_1; arxiv_paper Demo.result_2]) /\
  forall p, p ∈ collected Demo.arxiv queries (calls Demo.world_empty) ->
            exists r, r ∈ [arxiv_paper Demo.result_1; arxiv_paper Demo.result_2]
                      /\ r !! "url" = p !! "url".
Proof.
  assert (H : arxiv_main Demo.arxiv Demo.stamp Demo.world_empty
              = (Ok [arxiv_paper Demo.result_1; arxiv_paper Demo.result_2],
                 snd Demo.run_arxiv))
    by (vm_compute; reflexivity).
  split; [exact H |]. split; [reflexivity |].
  exact (arxiv_rows_unique_by_url Demo.arxiv Demo.stamp Demo.world_empty
           (snd Demo.run_arxiv)
           [arxiv_paper Demo.result_1; arxiv_paper Demo.result_2] H).
Defined.




(** The pieces of the string model on small inputs. *)
Example split_on_commas : PyStr.split "," "a,b,,c" = ["a"; "b"; ""; "c"].
Proof. reflexivity. Qed.

Example split_keeps_a_stray_tick :
  PyStr.split "```json" "x````json y" = ["x`"; " y"].
Proof. reflexivity. Qed.

Example strip_newlines :
  PyStr.strip (Demo.newline +:+ " {} " +:+ Demo.newline) = "{}".
Proof. reflexivity. Qed.

Example dirname_of_output : dirname Demo.scored_papers_csv = "data/processed".
Proof. reflexivity. Qed.

Example loads_nested :
  JsonRef.loads (json_text "{'a': [1, -2, 2.5e3, true, null, 'x'], 'a2': {}}")
  = Ok (VDict (<["a" := VList (VInt 1 :: VInt (-2) :: VFloat "2.5e3" :: VBool true
                               :: VNone :: VStr "x" :: nil)]>
                 (<["a2" := VDict ∅]> ∅))).
Proof. vm_compute. reflexivity. Qed.

Example loads_rejects_trailing_comma :
  JsonRef.loads "[1,]" = Raise JSONDecodeError.
Proof. vm_compute. reflexivity. Qed.

(** * Further properties *)

(** ** The scoring engine: requests, pauses and the output path *)

Lemma requests_of_app (evs evs' : list event) :
  requests_of (evs ++ evs') = requests_of evs ++ requests_of evs'.
Proof. apply omap_app. Qed.

Lemma sleeps_of_app (evs evs' : list event) :
  sleeps_of (evs ++ evs') = sleeps_of evs ++ sleeps_of evs'.
Proof. apply omap_app. Qed.

Lemma requests_of_prints (evs : list event) :
  forallb is_print evs = true -> requests_of evs = [].
Proof.
  induction evs as [|e evs IH]; [reflexivity |]. simpl.
  intros H. apply andb_prop in H as [He H]. destruct e; try discriminate.
  now apply IH.
Qed.

Lemma sleeps_of_prints (evs : list event) :
  forallb is_print evs = true -> sleeps_of evs = [].
Proof.
  induction evs as [|e evs IH]; [reflexivity |]. simpl.
  intros H. apply andb_prop in H as [He H]. destruct e; try discriminate.
  now apply IH.
Qed.

Lemma forallb_app_true {A} (f : A -> bool) (l l' : list A) :
  forallb f l = true -> forallb f l' = true -> forallb f (l ++ l') = true.
Proof. intros H H'. rewrite forallb_app, H, H'. reflexivity. Qed.

Section ScoringRuns.

Variable json_loads : string -> res pyval.
Variable messages_create : prompt -> nat -> res message.
Variable summary_statistics : list row -> res unit.

(** [score_paper] records its request and then only lines about a failure. *)
Lemma score_paper_events (paper : row) (w w' : world) r :
  score_paper json_loads messages_create paper w = (r, w') ->
  exists report,
    w' = logged w (EvRequest paper :: report) 1 /\
    forallb is_print report = true /\ forallb loop_event report = true.
Proof.
  unfold score_paper, bind, remote.
  destruct (score_paper_try json_loads _) as [rt [s|e]].
  - intros [= <- <-]. exists []. repeat split.
  - unfold logged, is_Exception, lift, print, emit, ret, raise.
    destruct e;
      [ | (intros [= <- <-]; eexists [EvPrint (MsgErrorScoring _)];
           split; [| split; reflexivity]; cbn; now rewrite <- !app_assoc) .. | ].
    + destruct (py_slice (dict_get paper "title" (VStr "Unknown")) 50) as [t|e].
      * destruct rt as [text|]; intros [= <- <-].
        -- exists [EvPrint (MsgJsonParsingError t);
                   EvPrint (MsgResponse (PyStr.take 200 text))].
           split; [| split; reflexivity].
           cbn [trace files sheets environ calls]. now rewrite <- !app_assoc.
        -- exists [EvPrint (MsgJsonParsingError t)]. split; [| split; reflexivity].
           cbn [trace files sheets environ calls]. now rewrite <- !app_assoc.
      * intros [= <- <-]. exists []. repeat split.
    + intros [= <- <-]. exists []. repeat split.
Qed.

(** The loop that ends has made one request for each paper, in their
    order, and one pause of half a second after each. *)
Lemma score_loop_requests (df : list row) :
  forall (scored_papers : list row) (total_tokens : Z) (w w' : world) acc,
    score_loop json_loads messages_create df scored_papers total_tokens w
      = (Ok acc, w') ->
    exists evs,
      w' = logged w evs (length df) /\
      requests_of evs = df /\
      sleeps_of evs = repeat (1 # 2)%Q (length df) /\
      forallb loop_event evs = true.
Proof.
  induction df as [|paper df IH]; intros acc0 T w w' acc H.
  - simpl in H. injection H as _ <-. exists []. now rewrite logged_nil.
  - rewrite score_loop_cons in H.
    destruct (score_paper json_loads messages_create paper w) as [r w1] eqn:S.
    apply score_paper_events in S as (report & -> & Hrep & Hloop).
    assert (Hnext : forall a t,
               score_loop json_loads messages_create df a t
                 (logged (logged w (EvRequest paper :: report) 1) [EvSleep (1 # 2)] 0)
               = (Ok acc, w') ->
               exists evs,
                 w' = logged w evs (length (paper :: df)) /\
                 requests_of evs = paper :: df /\
                 sleeps_of evs = repeat (1 # 2)%Q (length (paper :: df)) /\
                 forallb loop_event evs = true).
    { intros a t Hl. apply IH in Hl as (evs & -> & Hreq & Hsl & Hev).
      exists ((EvRequest paper :: report) ++ [EvSleep (1 # 2)] ++ evs).
      rewrite !logged_logged. split; [apply logged_eq; [reflexivity | simpl; lia] |].
      change ((EvRequest paper :: report) ++ [EvSleep (1 # 2)] ++ evs)
        with ([EvRequest paper] ++ report ++ [EvSleep (1 # 2)] ++ evs).
      rewrite !requests_of_app, !sleeps_of_app, (requests_of_prints report),
        (sleeps_of_prints report), Hreq, Hsl by assumption.
      split; [reflexivity |]. split; [reflexivity |].
      apply (forallb_app_true _ [EvRequest paper]); [reflexivity |].
      apply forallb_app_true; [assumption |].
      now apply (forallb_app_true _ [EvSleep (1 # 2)]). }
    destruct r as [[scores|]|e]; [| eauto | discriminate].
    destruct (dict_truthy scores); [| eauto].
    destruct (py_iadd T _); [eauto | discriminate].
Qed.

(** A run stops before the end of its loop, the files untouched, or goes
    through the loop, one request and one pause for each paper attempted,
    and comes to the output path. *)
Lemma score_papers_batch_stages (input_csv output_csv : string)
    (max_papers : option Z) (w w' : world) (r : res (option (list row))) :
  score_papers_batch json_loads messages_create summary_statistics
      input_csv output_csv max_papers w = (r, w') ->
  (forallb early_event (printed w w') = true /\ files w' = files w /\
   forall df, r <> Ok (Some df))
  \/
  exists rows evs,
    files w !! input_csv = Some rows /\
    requests_of evs = limit max_papers rows /\
    sleeps_of evs = repeat (1 # 2)%Q (length (limit max_papers rows)) /\
    forallb loop_event evs = true /\
    let df := limit max_papers rows in
    let scored := expected_rows json_loads messages_create df (calls w) in
    let w2 := logged w (batch_prologue input_csv (length df)
                        ++ [EvPrint MsgScoring] ++ evs) (length df) in
    if String.eqb (dirname output_csv) "" then
      r = Raise FileNotFoundError /\ w' = w2
    else
      r = (if (0 <? length scored)%nat
           then match summary_statistics scored with
                | Ok _ => Ok (Some scored)
                | Raise e => Raise e
                end
           else Ok (Some scored)) /\
      w' = written w2 output_csv scored
             (batch_epilogue output_csv scored (length df) (sum_tokens scored)).
Proof.
  rewrite score_papers_batch_eq. intros H.
  destruct (files w !! input_csv) as [rows|].
  2:{ injection H as <- <-. left. rewrite printed_logged. now repeat split. }
  cbn zeta in H.
  destruct (environ w !! api_key_name) as [[|c k]|];
    try (injection H as <- <-; left; rewrite logged_logged, printed_logged;
         now repeat split).
  destruct (score_loop _ _ _ _ _ _) as [[acc|e] w2] eqn:L.
  2:{ injection H as <- <-. left.
      apply score_loop_spec in L as [(evs & n & -> & Hev) _].
      rewrite !logged_logged, printed_logged. split; [| now split].
      apply forallb_app_true; [reflexivity |].
      apply (forallb_app_true _ [EvPrint MsgScoring]); [reflexivity |].
      apply forallb_forall. intros e' He'. unfold early_event.
      now rewrite (proj1 (forallb_forall _ _) Hev e' He'). }
  right. pose proof L as L'.
  apply score_loop_requests in L as (evs & -> & Hreq & Hsl & Hev).
  apply score_loop_spec in L' as [_ Hacc].
  destruct (Hacc _ eq_refl) as (H1 & H2 & _). simpl in H1, H2.
  cbn [logged calls] in H1, H2. simpl in H1, H2.
  exists rows, evs. split; [reflexivity |]. repeat (split; [assumption |]).
  cbn zeta. clear Hacc.
  rewrite !logged_logged in H.
  replace (length (limit max_papers rows) + 0 + 0)%nat
    with (length (limit max_papers rows)) in H by lia.
  rewrite Z.add_0_l in H2. rewrite H1, H2 in H.
  destruct (String.eqb (dirname output_csv) "").
  - injection H as <- <-. split; reflexivity.
  - injection H as <- <-. split; [| reflexivity].
    now destruct (0 <? _)%nat.
Qed.

End ScoringRuns.

Lemma before_holds_no_sep (sep s : string) :
  sep <> "" -> PyStr.contains sep (before sep s) = false.
Proof.
  intros Hsep. induction s as [|c s IH].
  - unfold before. rewrite partition_empty by assumption.
    unfold PyStr.contains. now rewrite partition_empty.
  - destruct (PyStr.startswith sep (String c s)) eqn:P.
    + rewrite before_prefix by assumption.
      unfold PyStr.contains. now rewrite partition_empty.
    + rewrite before_step by assumption.
      unfold PyStr.contains in *. rewrite partition_step.
      * now destruct (PyStr.partition sep (before sep s)) as [[a b]|].
      * destruct (PyStr.startswith sep (String c (before sep s))) eqn:Q; [| reflexivity].
        destruct (before_is_prefix sep s) as [r Hr].
        apply (prefix_append_r _ _ r) in Q. simpl in Q. rewrite <- Hr in Q. congruence.
Qed.

Lemma dirname_no_slash (path : string) :
  PyStr.contains "/" path = false -> dirname path = "".
Proof.
  intros H. unfold dirname.
  assert (upto_last_slash path = None) as ->; [| reflexivity].
  induction path as [|c path IH]; [reflexivity |].
  apply contains_step in H as [Hs Hc]. simpl. rewrite (IH Hc).
  simpl in Hs. destruct (Ascii.eqb "/" c) eqn:E; [discriminate |].
  rewrite Ascii.eqb_sym, E. reflexivity.
Qed.

Lemma limit_prefix (max_papers : option Z) (df : list row) :
  exists n, limit max_papers df = take n df.
Proof.
  destruct max_papers as [n|]; unfold limit, df_head.
  - destruct (n =? 0); [exists (length df); now rewrite firstn_all |].
    destruct (0 <=? n); eauto.
  - exists (length df). now rewrite firstn_all.
Qed.

Section ScoringExtras.

Variable json_loads : string -> res pyval.
Variable messages_create : prompt -> nat -> res message.
Variable summary_statistics : list row -> res unit.

(** X1.  A run that returns its DataFrame has made one request for each
    paper it attempted, in the order of the input rows, and one pause of
    half a second for each: no paper is asked twice, none is skipped. *)
Theorem requests_follow_the_input (input_csv output_csv : string)
    (max_papers : option Z) (w w' : world) (scored_df : list row) :
  score_papers_batch json_loads messages_create summary_statistics
      input_csv output_csv max_papers w = (Ok (Some scored_df), w') ->
  exists rows,
    files w !! input_csv = Some rows /\
    requests_of (printed w w') = limit max_papers rows /\
    sleeps_of (printed w w') = repeat (1 # 2)%Q (length (limit max_papers rows)) /\
    calls w' = (length (limit max_papers rows) + calls w)%nat.
Proof.
  intros H. apply score_papers_batch_stages in H as [(_ & _ & Hno) | H].
  { now destruct (Hno scored_df). }
  destruct H as (rows & evs & Hrows & Hreq & Hsl & _ & H). cbn zeta in H.
  destruct (String.eqb (dirname output_csv) ""); destruct H as [Hr ->];
    [discriminate |].
  exists rows. split; [exact Hrows |].
  rewrite printed_written, !requests_of_app, !sleeps_of_app, Hreq, Hsl.
  split; [now rewrite app_nil_r |]. split; [now rewrite app_nil_r |]. reflexivity.
Qed.

(** X2.  The papers attempted are a prefix of the input rows: all of them
    when [max_papers] is [None] or 0, the first [n] (or all, when there are
    fewer) for a positive [n], all but the last [-n] for a negative one. *)
Theorem max_papers_takes_a_prefix (max_papers : option Z) (df : list row) :
  (exists rest, df = limit max_papers df ++ rest) /\
  (max_papers = None \/ max_papers = Some 0 -> limit max_papers df = df) /\
  (forall n, max_papers = Some n -> 0 < n ->
             length (limit max_papers df) = Nat.min (Z.to_nat n) (length df)) /\
  (forall n, max_papers = Some n -> n < 0 ->
             length (limit max_papers df) = (length df - Z.to_nat (- n))%nat).
Proof.
  split; [| split; [| split]].
  - destruct (limit_prefix max_papers df) as [n ->].
    exists (drop n df). now rewrite take_drop.
  - now intros [-> | ->].
  - intros n -> Hn. unfold limit, df_head.
    destruct (Z.eqb_spec n 0); [lia |]. destruct (Z.leb_spec 0 n); [| lia].
    apply length_take.
  - intros n -> Hn. unfold limit, df_head.
    destruct (Z.eqb_spec n 0); [lia |]. destruct (Z.leb_spec 0 n); [lia |].
    rewrite length_take. lia.
Qed.

(** X3.  When the endpoint raises (anything but a JSON error or a request
    to exit), or answers with no content block or with a first block that
    is no text, [score_paper] reports the exception in one line and returns
    no scores, whatever the paper's title is; the paper gets no row. *)
Theorem unusable_answer_gives_no_scores (paper : row) (w : world) (e : exn) :
  (messages_create (get_scoring_prompt paper) (calls w) = Raise e /\
   e <> JSONDecodeError /\ is_Exception e = true)
  \/ (exists m, messages_create (get_scoring_prompt paper) (calls w) = Ok m /\
                first_text m = Raise e) ->
  score_paper json_loads messages_create paper w
    = (Ok None, logged w [EvRequest paper; EvPrint (MsgErrorScoring e)] 1) /\
  expected_rows json_loads messages_create [paper] (calls w) = [].
Proof.
  intros H.
  assert (T : score_paper_try json_loads
                (messages_create (get_scoring_prompt paper) (calls w))
              = (None, Raise e) /\ e <> JSONDecodeError /\ is_Exception e = true).
  { destruct H as [(-> & Hj & He) | (m & -> & Hm)]; [now repeat split |].
    unfold score_paper_try. rewrite Hm. split; [reflexivity |].
    unfold first_text, PyStr.item in Hm.
    destruct (content m !! 0%nat) as [[t|]|]; simpl in Hm;
      try discriminate; injection Hm as <-; split; (discriminate || reflexivity). }
  destruct T as (T & Hj & He). split.
  - unfold score_paper, bind, remote. rewrite T.
    unfold logged, lift, print, emit, ret, raise.
    destruct e; try discriminate; try (now destruct Hj);
      cbn; now rewrite <- !app_assoc.
  - unfold expected_rows, scores_of. now rewrite T.
Qed.

(** X4.  The output file is written before the statistics are computed.
    Whenever a run has recorded the write of the output file, the file
    holds the rows written; with no row the statistics are skipped and the
    (empty) DataFrame is returned, otherwise the run ends as the statistics
    do: their failure leaves the output file written. *)
Theorem statistics_come_after_the_write (input_csv output_csv : string)
    (max_papers : option Z) (w w' : world) (r : res (option (list row)))
    (df : list row) :
  score_papers_batch json_loads messages_create summary_statistics
      input_csv output_csv max_papers w = (r, w') ->
  EvWriteCsv output_csv df ∈ printed w w' ->
  files w' !! output_csv = Some df /\
  r = (if (0 <? length df)%nat
       then match summary_statistics df with
            | Ok _ => Ok (Some df)
            | Raise e => Raise e
            end
       else Ok (Some df)).
Proof.
  intros H Hin. apply score_papers_batch_stages in H as [(Hearly & _) | H].
  { apply list_elem_of_In in Hin.
    now apply (proj1 (forallb_forall _ _) Hearly) in Hin. }
  destruct H as (rows & evs & Hrows & _ & _ & Hev & H). cbn zeta in H.
  destruct (String.eqb (dirname output_csv) ""); destruct H as [-> ->].
  - exfalso. rewrite printed_logged in Hin.
    apply elem_of_app in Hin as [Hin | Hin].
    + apply list_elem_of_In in Hin. unfold batch_prologue in Hin. simpl in Hin.
      intuition discriminate.
    + apply elem_of_cons in Hin as [Hin | Hin]; [discriminate |].
      now apply (loop_event_elem _ _ Hev) in Hin.
  - rewrite printed_written in Hin.
    apply late_event_elem in Hin; [| reflexivity | assumption | reflexivity].
    summary_line Hin. injection Hin as <-.
    split; [| reflexivity]. unfold written. cbn [files].
    apply lookup_insert_eq.
Qed.

(** X5.  With an output path that names no directory (no slash in it), a
    run that would otherwise complete makes every request and then fails
    with [FileNotFoundError] at [os.makedirs('')]: nothing is written. *)
Theorem output_path_without_directory (input_csv output_csv : string)
    (max_papers : option Z) (w : world) (rows : list row) (key : string) :
  PyStr.contains "/" output_csv = false ->
  files w !! input_csv = Some rows ->
  environ w !! api_key_name = Some key -> key <> "" ->
  forallb well_titled (limit max_papers rows) = true ->
  (forall p n e, messages_create p n = Raise e ->
                 is_Exception e = true /\ e <> JSONDecodeError) ->
  (forall s e, json_loads s = Raise e -> is_Exception e = true) ->
  exists w',
    score_papers_batch json_loads messages_create summary_statistics
        input_csv output_csv max_papers w = (Raise FileNotFoundError, w') /\
    files w' = files w /\
    requests_of (printed w w') = limit max_papers rows.
Proof.
  intros Hout Hrows Hkey Hne Htitles Hend Hdec.
  destruct (score_loop_returns json_loads messages_create _ Htitles Hend Hdec [] 0
              (logged (logged w (batch_prologue input_csv (length (limit max_papers rows))) 0)
                 [EvPrint MsgScoring] 0))
    as (acc & w2 & L).
  rewrite score_papers_batch_eq, Hrows. cbn zeta. rewrite Hkey.
  destruct key as [|c k]; [congruence |].
  rewrite L, (dirname_no_slash _ Hout). cbn [String.eqb].
  exists w2. split; [reflexivity |].
  apply score_loop_requests in L as (evs & -> & Hreq & _).
  split; [reflexivity |].
  rewrite !logged_logged, printed_logged, !requests_of_app, Hreq. reflexivity.
Qed.

(** X6.  A row of the output is the paper's dict overlaid with the decoded
    object: under every key other than [tokens_used] it holds the decoded
    value when the object has that key, and the input cell otherwise.  The
    input columns are kept, and an answer can overwrite any of them. *)
Theorem input_columns_kept_unless_overridden (input_csv output_csv : string)
    (max_papers : option Z) (w w' : world) (scored_df : list row) (r : row) :
  score_papers_batch json_loads messages_create summary_statistics
      input_csv output_csv max_papers w = (Ok (Some scored_df), w') ->
  r ∈ scored_df ->
  exists rows paper n message text inner obj,
    files w !! input_csv = Some rows /\
    paper ∈ limit max_papers rows /\
    messages_create (get_scoring_prompt paper) n = Ok message /\
    first_text message = Ok text /\
    strip_markdown text = Ok inner /\
    json_loads (PyStr.strip inner) = Ok (VDict obj) /\
    forall field,
      field <> "tokens_used" ->
      r !! field = (match obj !! field with
                    | Some v => Some v
                    | None => paper !! field
                    end).
Proof.
  intros H Hr.
  apply score_papers_batch_done in H as (rows & evs & Hrows & -> & _ & _).
  apply expected_rows_elem in Hr as (paper & n & scores & Hp & Hs & ->).
  apply scores_of_Some in Hs as (m & t & i & o & Hm & Ht & Hi & Ho & ->).
  exists rows, paper, n, m, t, i, o. repeat (split; [assumption |]).
  intros field Hne. rewrite lookup_union, lookup_insert_ne by congruence.
  destruct (o !! field), (paper !! field); reflexivity.
Qed.

(** X7.  A run touches no file but its output file: whatever its outcome,
    every other path holds afterwards what it held before. *)
Theorem only_the_output_file_is_written (input_csv output_csv : string)
    (max_papers : option Z) (w w' : world) (r : res (option (list row)))
    (path : string) :
  score_papers_batch json_loads messages_create summary_statistics
      input_csv output_csv max_papers w = (r, w') ->
  path <> output_csv ->
  files w' !! path = files w !! path.
Proof.
  intros H Hne. apply score_papers_batch_stages in H as [(_ & -> & _) | H];
    [reflexivity |].
  destruct H as (rows & evs & _ & _ & _ & _ & H). cbn zeta in H.
  destruct (String.eqb (dirname output_csv) ""); destruct H as [_ ->];
    [reflexivity |].
  now rewrite written_files_ne by congruence.
Qed.

(** X10.  The prompt reads four fields of a paper and nothing else: two
    papers that agree on title, authors, published and abstract get the same
    prompt, and so the same scores from the same call. *)
Theorem prompt_reads_four_fields (paper paper' : row) (n : nat) :
  paper !! "title" = paper' !! "title" ->
  paper !! "authors" = paper' !! "authors" ->
  paper !! "published" = paper' !! "published" ->
  paper !! "abstract" = paper' !! "abstract" ->
  get_scoring_prompt paper = get_scoring_prompt paper' /\
  scores_of json_loads messages_create paper n
    = scores_of json_loads messages_create paper' n.
Proof.
  intros Ht Ha Hp Hb.
  assert (E : get_scoring_prompt paper = get_scoring_prompt paper').
  { unfold get_scoring_prompt, dict_get. now rewrite Ht, Ha, Hp, Hb. }
  split; [exact E |]. unfold scores_of. now rewrite E.
Qed.

End ScoringExtras.

(** X8.  The fence cut never fails (the piece it indexes is there whenever
    it looks for it), and the text it hands to the decoder holds no run of
    three backticks. *)
Theorem strip_markdown_leaves_no_fence (response_text : string) :
  exists inner,
    strip_markdown response_text = Ok inner /\ PyStr.contains fence inner = false.
Proof.
  rewrite strip_markdown_eq. eexists. split; [reflexivity |].
  destruct (PyStr.contains fence_json response_text).
  - apply before_holds_no_sep. discriminate.
  - destruct (PyStr.contains fence response_text) eqn:E; [| exact E].
    apply before_holds_no_sep. discriminate.
Qed.

(** X9.  An answer that puts prose around its block: when the prose in
    front and the text [t] of the block hold no run of three backticks and
    end with no backtick, and the text after the closing fence starts with
    no backtick, the cut gives [t]. *)
Theorem fenced_block_inside_prose (pre t post : string) :
  fence_free pre -> fence_free t -> PyStr.startswith "`" post = false ->
  strip_markdown (pre +:+ fence_json +:+ t +:+ fence +:+ post) = Ok t.
Proof.
  intros Hpre Ht Hpost. rewrite strip_markdown_eq.
  pose proof (partition_fence_free fence_json pre (t +:+ fence +:+ post)
                eq_refl Hpre) as P.
  pose proof (partition_fence_free fence t post eq_refl Ht) as Q.
  unfold PyStr.contains, after. rewrite P.
  rewrite before_fence_json.
  - unfold before. now rewrite Q.
  - intros a b Hab. rewrite Q in Hab. now injection Hab as <- <-.
Qed.

Section ScoringHandler.

Variable json_loads : string -> res pyval.
Variable messages_create : prompt -> nat -> res message.

(** X26.  The handler of the JSON error reads [response_text].  When the
    JSON error comes from the request itself, before the answer's text is
    bound, the handler prints its first line and then fails with
    [UnboundLocalError], which leaves [score_paper]. *)
Theorem json_error_before_the_text_escapes (paper : row) (w : world) (title : pyval) :
  messages_create (get_scoring_prompt paper) (calls w) = Raise JSONDecodeError ->
  py_slice (dict_get paper "title" (VStr "Unknown")) 50 = Ok title ->
  score_paper json_loads messages_create paper w
    = (Raise UnboundLocalError,
       logged w [EvRequest paper; EvPrint (MsgJsonParsingError title)] 1).
Proof.
  intros Hm Ht. unfold score_paper, bind, remote, score_paper_try.
  rewrite Hm. unfold lift, print, emit, logged. rewrite Ht.
  cbn [files sheets environ trace calls]. now rewrite <- !app_assoc.
Qed.

End ScoringHandler.

(** ** The collection stage: what is searched, and what is left on disk *)

Lemma searches_of_app (evs evs' : list event) :
  searches_of (evs ++ evs') = searches_of evs ++ searches_of evs'.
Proof. apply omap_app. Qed.

Lemma searches_of_cons (e : event) (evs : list event) :
  searches_of (e :: evs)
  = match e with
    | EvSearch title => title :: searches_of evs
    | _ => searches_of evs
    end.
Proof. now destruct e. Qed.

Lemma searches_of_prints (evs : list event) :
  forallb is_print evs = true -> searches_of evs = [].
Proof.
  induction evs as [|e evs IH]; [reflexivity |]. simpl.
  intros H. apply andb_prop in H as [He H]. destruct e; try discriminate.
  now apply IH.
Qed.

(** [drop_duplicates] keeps, of the rows with one value under [key], the
    first. *)
Lemma drop_duplicates_from_first (key : string) (df : list (gmap string string)) :
  forall seen r,
    r ∈ drop_duplicates_from key seen df ->
    exists pre post,
      df = pre ++ r :: post /\ forall p, p ∈ pre -> p !! key <> r !! key.
Proof.
  induction df as [|x df IH]; intros seen r Hr; simpl in Hr.
  - now apply elem_of_nil in Hr.
  - case_bool_decide as Hseen.
    + apply IH in Hr as Hr'. destruct Hr' as (pre & post & -> & Hpre).
      exists (x :: pre), post. split; [reflexivity |].
      intros p Hp. apply elem_of_cons in Hp as [-> | Hp]; [| now apply Hpre].
      apply drop_duplicates_from_fresh in Hr. intros E. now rewrite E in Hseen.
    + apply elem_of_cons in Hr as [-> | Hr].
      * exists [], df. split; [reflexivity |]. intros p Hp.
        now apply elem_of_nil in Hp.
      * apply IH in Hr as Hr'. destruct Hr' as (pre & post & -> & Hpre).
        exists (x :: pre), post. split; [reflexivity |].
        intros p Hp. apply elem_of_cons in Hp as [-> | Hp]; [| now apply Hpre].
        apply drop_duplicates_from_fresh in Hr. intros E. apply Hr.
        rewrite <- E. apply list_elem_of_here.
Qed.

Section CollectionRuns.

Variable search_paper_by_title : pyval -> nat -> res (option row).
Variable search_semantic_scholar : pyval -> nat -> option row.
Variable arxiv_search : string -> nat -> nat -> res (list arxiv_result).
Variable timestamp : string.

Lemma fetched_unfetched_length (titles : list pyval) :
  forall n,
    (length (fetched_by search_paper_by_title titles n)
     + length (unfetched_by search_paper_by_title titles n) = length titles)%nat.
Proof.
  induction titles as [|t titles IH]; intros n; [reflexivity |]. simpl.
  specialize (IH (S n)).
  destruct (search_paper_by_title t n) as [[p|]|e];
    [destruct (dict_truthy p) | |]; simpl; lia.
Qed.

Lemma found_missed_length (titles : list pyval) :
  forall n,
    (length (found_by search_semantic_scholar titles n)
     + length (missed_by search_semantic_scholar titles n) = length titles)%nat.
Proof.
  induction titles as [|t titles IH]; intros n; [reflexivity |]. simpl.
  specialize (IH (S n)). unfold found.
  destruct (search_semantic_scholar t n) as [p|];
    [destruct (dict_truthy p) |]; simpl; lia.
Qed.

(** The loop of the Excel pass, when it ends: one lookup and one pause of
    three seconds for each title, in order. *)
Lemma fetch_loop_acc (titles : list pyval) :
  forall idx total papers not_found w acc w',
    fetch_loop search_paper_by_title titles idx total papers not_found w
      = (Ok acc, w') ->
    fst acc = papers ++ fetched_by search_paper_by_title titles (calls w) /\
    snd acc = not_found ++ unfetched_by search_paper_by_title titles (calls w) /\
    exists evs,
      w' = logged w evs (length titles) /\
      searches_of evs = titles /\
      sleeps_of evs = repeat 3%Q (length titles).
Proof.
  induction titles as [|title titles IH]; intros idx total papers nf w acc w' H.
  - simpl in H. injection H as <- <-. simpl. rewrite !app_nil_r.
    repeat split. exists []. now rewrite logged_nil.
  - cbn [fetch_loop] in H. unfold bind, print, sleep, emit, remote, lift in H.
    cbn [files sheets environ trace calls] in H.
    cbn [fetched_by unfetched_by].
    destruct (search_paper_by_title title (calls w)) as [paper|e]; [| discriminate].
    rewrite <- !app_assoc in H. cbn [app] in H.
    change (World (files w) (sheets w) (environ w)
              (trace w ++ [EvPrint (MsgProgress idx total VNone); EvSearch title;
                           EvSleep 3]) (S (calls w)))
      with (logged w [EvPrint (MsgProgress idx total VNone); EvSearch title;
                      EvSleep 3] 1) in H.
    apply IH in H as (H1 & H2 & evs & -> & Hs & Hp).
    change (calls (logged w _ 1)) with (S (calls w)) in H1, H2.
    rewrite logged_logged.
    assert (Hev : exists evs0,
               logged w ([EvPrint (MsgProgress idx total VNone); EvSearch title;
                          EvSleep 3] ++ evs) (length titles + 1)
               = logged w evs0 (length (title :: titles)) /\
               searches_of evs0 = title :: titles /\
               sleeps_of evs0 = repeat 3%Q (length (title :: titles))).
    { eexists. split; [apply logged_eq; [reflexivity | simpl; lia] |].
      rewrite searches_of_app, sleeps_of_app, Hs, Hp. split; reflexivity. }
    destruct paper as [p|]; [destruct (dict_truthy p) |]; cbn [fst snd] in H1, H2;
      rewrite H1, H2, <- ?app_assoc; auto.
Qed.

(** The loop of the recovery pass, when it ends. *)
Lemma missing_loop_acc (titles : list pyval) :
  forall idx total found_papers still w acc w',
    missing_loop search_semantic_scholar titles idx total found_papers still w
      = (Ok acc, w') ->
    fst acc = found_papers ++ found_by search_semantic_scholar titles (calls w) /\
    snd acc = still ++ missed_by search_semantic_scholar titles (calls w) /\
    exists evs,
      w' = logged w evs (length titles) /\
      searches_of evs = titles /\
      sleeps_of evs = repeat 1%Q (length titles).
Proof.
  induction titles as [|title titles IH]; intros idx total fp st w acc w' H.
  - simpl in H. injection H as <- <-. simpl. rewrite !app_nil_r.
    repeat split. exists []. now rewrite logged_nil.
  - cbn [missing_loop] in H. unfold bind, print, sleep, emit, remote, lift, ret in H.
    destruct (py_slice title 60) as [shown|e]; [| discriminate].
    cbn [files sheets environ trace calls] in H. cbn [found_by missed_by found].
    assert (Hev : forall l evs,
               searches_of evs = titles ->
               sleeps_of evs = repeat 1%Q (length titles) ->
               exists evs0,
                 logged w ([EvPrint (MsgProgress idx total shown); EvSearch title;
                            EvPrint l; EvSleep 1] ++ evs) (length titles + 1)
                 = logged w evs0 (length (title :: titles)) /\
                 searches_of evs0 = title :: titles /\
                 sleeps_of evs0 = repeat 1%Q (length (title :: titles))).
    { intros l evs Hs Hp.
      eexists. split; [apply logged_eq; [reflexivity | simpl; lia] |].
      rewrite searches_of_app, sleeps_of_app, Hs, Hp. split; reflexivity. }
    destruct (search_semantic_scholar title (calls w)) as [p|]; cbn [found];
      [destruct (dict_truthy p) |];
      cbn [files sheets environ trace calls fst snd] in H;
      rewrite <- !app_assoc in H; cbn [app] in H;
      match type of H with
      | missing_loop _ _ _ _ _ _
          (World _ _ _ (trace w ++ ?pre) _) = _ =>
          change (World (files w) (sheets w) (environ w) (trace w ++ pre) (S (calls w)))
            with (logged w pre 1) in H
      end;
      apply IH in H as (H1 & H2 & evs & -> & Hs & Hp);
      change (calls (logged w _ 1)) with (S (calls w)) in H1, H2;
      rewrite logged_logged, H1, H2, <- ?app_assoc; auto.
Qed.


(** The loop of the recovery pass ends when every title can be sliced. *)
Lemma missing_loop_returns (titles : list pyval) :
  forallb sliceable titles = true ->
  forall idx total found_papers still w,
    exists acc w',
      missing_loop search_semantic_scholar titles idx total found_papers still w
        = (Ok acc, w').
Proof.
  induction titles as [|title titles IH]; intros Hs idx total fp st w.
  - eexists _, _. reflexivity.
  - cbn [forallb] in Hs. apply andb_prop in Hs as [Ht Hs].
    cbn [missing_loop]. unfold bind, print, sleep, emit, remote, lift, ret.
    destruct title; try discriminate; cbn [py_slice];
      cbn [files sheets environ trace calls];
      (destruct (search_semantic_scholar _ (calls w)) as [p|];
       [destruct (dict_truthy p) |]);
      cbn [files sheets environ trace calls fst snd]; apply IH, Hs.
Qed.

(** The recovery pass on a not-found list whose titles can be sliced: it
    returns, and what it leaves in the two files. *)
Lemma fetch_missing_papers_run (w : world) (waiting : list row)
    (titles : list pyval) :
  files w !! papers_not_found_csv = Some waiting ->
  df_column "title" waiting = Ok titles ->
  forallb sliceable titles = true ->
  sheets w !! curated_papers_csv = None ->
  exists w',
    fetch_missing_papers search_semantic_scholar w = (Ok tt, w') /\
    calls w' = (length titles + calls w)%nat /\
    sheets w' = sheets w /\
    files w' !! papers_not_found_csv
      = Some (match missed_by search_semantic_scholar titles (calls w) with
              | [] => waiting
              | _ :: _ =>
                  title_frame (missed_by search_semantic_scholar titles (calls w))
              end) /\
    files w' !! curated_papers_csv
      = match found_by search_semantic_scholar titles (calls w) with
        | [] => files w !! curated_papers_csv
        | _ :: _ =>
            Some (default [] (files w !! curated_papers_csv)
                  ++ found_by search_semantic_scholar titles (calls w))
        end.
Proof.
  intros Hnf Hcol Hsl Hsheet.
  unfold fetch_missing_papers, bind, except_FileNotFoundError, read_csv.
  rewrite Hnf. unfold ret, lift, print, emit.
  cbn [files sheets environ trace calls]. rewrite Hcol.
  rewrite <- !app_assoc. cbn [app].
  change (World (files w) (sheets w) (environ w)
            (trace w ++ [EvReadCsv papers_not_found_csv;
                         EvPrint (MsgTitles (length titles))]) (calls w))
    with (logged w [EvReadCsv papers_not_found_csv;
                    EvPrint (MsgTitles (length titles))] 0).
  destruct (missing_loop_returns titles Hsl 1%nat (length titles) [] []
              (logged w [EvReadCsv papers_not_found_csv;
                         EvPrint (MsgTitles (length titles))] 0))
    as (acc & w3 & L).
  rewrite L. apply missing_loop_acc in L as (H1 & H2 & evs & -> & _ & _).
  change (calls (logged w _ 0)) with (calls w) in H1, H2. cbn [app] in H1, H2.
  rewrite <- H1, <- H2. clear H1 H2.
  destruct (fst acc) as [|p ps].
  - destruct (snd acc) as [|t ts]; unfold to_csv, print, emit;
      cbn [files sheets environ trace calls logged];
      eexists; (split; [reflexivity |]); unfold logged; cbn [files sheets calls];
      (split; [lia |]); (split; [reflexivity |]).
    + split; [exact Hnf | reflexivity].
    + split; [apply lookup_insert_eq |].
      now rewrite lookup_insert_ne by discriminate.
  - unfold read_csv, to_csv, print, emit.
    cbn [files sheets environ trace calls logged]. rewrite Hsheet.
    destruct (files w !! curated_papers_csv) as [existing|];
      cbn [files sheets environ trace calls default];
      (destruct (snd acc) as [|t ts];
       cbn [files sheets environ trace calls];
       eexists; (split; [reflexivity |]); unfold logged; cbn [files sheets calls];
       (split; [lia |]); (split; [reflexivity |]);
       rewrite ?lookup_insert_eq, ?lookup_insert_ne by discriminate;
       rewrite ?lookup_insert_eq; (split; [assumption || reflexivity |]);
       reflexivity).
Qed.

Lemma found_by_indep (titles : list pyval) :
  (forall t n m, search_semantic_scholar t n = search_semantic_scholar t m) ->
  forall n m,
    found_by search_semantic_scholar titles n
      = found_by search_semantic_scholar titles m /\
    missed_by search_semantic_scholar titles n
      = missed_by search_semantic_scholar titles m.
Proof.
  intros Hind. induction titles as [|t titles IH]; intros n m; [now split |].
  cbn [found_by missed_by]. rewrite (Hind t n m).
  destruct (IH (S n) (S m)) as [-> ->]. now split.
Qed.

(** The loop over the results of one search records lines only. *)
Lemma search_arxiv_loop_trace (results : list arxiv_result) :
  forall papers w,
    exists evs,
      search_arxiv_loop results papers w
        = (Ok (papers ++ map arxiv_paper results), logged w evs 0) /\
      forallb is_print evs = true.
Proof.
  induction results as [|result results IH]; intros papers w.
  - exists []. simpl. now rewrite app_nil_r, logged_nil.
  - cbn [search_arxiv_loop]. unfold bind, print, emit.
    change (World (files w) (sheets w) (environ w)
              (trace w ++ [EvPrint (MsgPaperTitle
                 (PyStr.take 50 (dict_get (arxiv_paper result) "title" "")))])
              (calls w))
      with (logged w [EvPrint (MsgPaperTitle
              (PyStr.take 50 (dict_get (arxiv_paper result) "title" "")))] 0).
    destruct (IH (papers ++ [arxiv_paper result])
                (logged w [EvPrint (MsgPaperTitle
                   (PyStr.take 50 (dict_get (arxiv_paper result) "title" "")))] 0))
      as (evs & -> & Hev).
    eexists. rewrite logged_logged. split.
    + simpl. now rewrite <- app_assoc.
    + simpl. exact Hev.
Qed.

(** One search: one remote call, recorded with its query. *)
Lemma search_arxiv_run (query : string) (max_results : nat) (w : world) :
  exists evs,
    searches_of evs = [VStr query] /\
    search_arxiv arxiv_search query max_results w
      = (match arxiv_search query max_results (calls w) with
         | Ok results => Ok (map arxiv_paper results)
         | Raise e => Raise e
         end, logged w evs 1).
Proof.
  unfold search_arxiv, bind, print, emit, remote, lift.
  cbn [files sheets environ trace calls].
  rewrite <- !app_assoc. cbn [app].
  change (World (files w) (sheets w) (environ w)
            (trace w ++ [EvPrint (MsgSearching query); EvSearch (VStr query)])
            (S (calls w)))
    with (logged w [EvPrint (MsgSearching query); EvSearch (VStr query)] 1).
  destruct (arxiv_search query max_results (calls w)) as [results|e].
  - destruct (search_arxiv_loop_trace results []
                (logged w [EvPrint (MsgSearching query); EvSearch (VStr query)] 1))
      as (evs & -> & Hev).
    eexists. rewrite logged_logged. split; [| reflexivity].
    rewrite searches_of_app, (searches_of_prints _ Hev). reflexivity.
  - eexists. split; [| reflexivity]. reflexivity.
Qed.

(** The loop over the queries: one search for each query it comes to. *)
Lemma collect_run (qs : list string) :
  forall all_papers w r w',
    collect arxiv_search qs all_papers w = (r, w') ->
    exists evs n,
      w' = logged w evs n /\
      forall all, r = Ok all ->
        n = length qs /\ searches_of evs = map VStr qs /\
        all = all_papers ++ collected arxiv_search qs (calls w).
Proof.
  induction qs as [|q qs IH]; intros all w r w' H.
  - simpl in H. injection H as <- <-. exists [], 0%nat.
    rewrite logged_nil. split; [reflexivity |].
    intros a [= <-]. simpl. now rewrite app_nil_r.
  - cbn [collect] in H. unfold bind in H.
    destruct (search_arxiv_run q 15 w) as (evs & Hs & E). rewrite E in H.
    cbn [collected].
    destruct (arxiv_search q 15%nat (calls w)) as [results|e].
    + unfold print, emit in H. cbn [files sheets environ trace calls logged] in H.
      change (World (files w) (sheets w) (environ w)
                ((trace w ++ evs) ++ [EvPrint (MsgFoundPapers (length (map arxiv_paper results)))])
                (1 + calls w))
        with (logged (logged w evs 1)
                [EvPrint (MsgFoundPapers (length (map arxiv_paper results)))] 0) in H.
      apply IH in H as (evs' & n & -> & Hacc).
      eexists _, _. rewrite !logged_logged. split; [reflexivity |].
      intros a Ha. destruct (Hacc _ Ha) as (-> & Hs' & ->). split; [simpl; lia |].
      rewrite !searches_of_app, Hs, Hs'. split; [reflexivity |].
      now rewrite <- app_assoc.
    + injection H as <- <-. exists evs, 1%nat. split; [reflexivity |]. discriminate.
Qed.

(** The loop of the Excel pass stops at the first lookup that raises. *)
Lemma fetch_loop_raises (good : list pyval) (bad : pyval) (rest : list pyval)
    (e : exn) :
  (forall t n, t ∈ good -> exists o, search_paper_by_title t n = Ok o) ->
  (forall n, search_paper_by_title bad n = Raise e) ->
  forall idx total papers not_found w,
    exists w',
      fetch_loop search_paper_by_title (good ++ bad :: rest) idx total
        papers not_found w = (Raise e, w') /\
      files w' = files w.
Proof.
  intros Hgood Hbad.
  induction good as [|t good IH]; intros idx total papers nf w.
  - cbn [app fetch_loop]. unfold bind, print, sleep, emit, remote, lift.
    cbn [files sheets environ trace calls]. rewrite Hbad.
    eexists. split; reflexivity.
  - cbn [app fetch_loop]. unfold bind, print, sleep, emit, remote, lift.
    cbn [files sheets environ trace calls].
    destruct (Hgood t (calls w) (list_elem_of_here _ _)) as [o ->].
    match goal with
    | |- context [fetch_loop _ _ ?i ?tt ?p ?nf0 ?w0] =>
        destruct (IH (fun t0 n0 Ht => Hgood t0 n0 (list_elem_of_further _ _ _ Ht))
                    i tt p nf0 w0) as (w' & -> & Hf)
    end.
    exists w'. split; [reflexivity | exact Hf].
Qed.

End CollectionRuns.

Section CollectionExtras.

Variable search_paper_by_title : pyval -> nat -> res (option row).
Variable search_semantic_scholar : pyval -> nat -> option row.
Variable arxiv_search : string -> nat -> nat -> res (list arxiv_result).
Variable timestamp : string.

(** X11.  An Excel pass that returns its DataFrame has looked up every
    title of the title column once, in order; the papers it returns are the
    papers found, and together with the titles without a paper they account
    for every title.  The not-found list is replaced by those titles when
    there are some, and is left as it was on disk when every title was
    found. *)
Theorem excel_pass_accounts_for_every_title (excel_file : string)
    (w w' : world) (papers_df : list row) :
  fetch_papers_from_excel search_paper_by_title excel_file w
    = (Ok (Some papers_df), w') ->
  exists df col titles,
    sheets w !! excel_file = Some df /\
    title_column (map fst df) = Ok col /\
    sheet_titles df col = Ok titles /\
    searches_of (printed w w') = titles /\
    papers_df = fetched_by search_paper_by_title titles (calls w) /\
    (length papers_df + length (unfetched_by search_paper_by_title titles (calls w))
     = length titles)%nat /\
    files w' !! papers_not_found_csv
      = match unfetched_by search_paper_by_title titles (calls w) with
        | [] => files w !! papers_not_found_csv
        | _ :: _ =>
            Some (title_frame (unfetched_by search_paper_by_title titles (calls w)))
        end.
Proof.
  intros H.
  unfold fetch_papers_from_excel, bind, except_FileNotFoundError, read_excel,
    print, emit in H.
  cbn [files sheets environ trace calls] in H.
  destruct (sheets w !! excel_file) as [df|].
  2:{ destruct (files w !! excel_file); discriminate. }
  unfold ret, lift in H. cbn [files sheets environ trace calls] in H.
  destruct (title_column (map fst df)) as [col|e] eqn:Hcol; [| discriminate].
  destruct (sheet_titles df col) as [titles|e] eqn:Htitles; [| discriminate].
  exists df, col, titles. do 3 (split; [reflexivity || assumption |]).
  rewrite <- !app_assoc in H. cbn [app] in H.
  change (World (files w) (sheets w) (environ w)
            (trace w ++ [EvPrint MsgBanner; EvReadExcel excel_file;
                         EvPrint (MsgTitles (length titles))]) (calls w))
    with (logged w [EvPrint MsgBanner; EvReadExcel excel_file;
                    EvPrint (MsgTitles (length titles))] 0) in H.
  destruct (fetch_loop _ _ _ _ _ _ _) as [[acc|e] w3] eqn:L; [| discriminate].
  apply fetch_loop_acc in L as (H1 & H2 & evs & -> & Hs & _).
  change (calls (logged w _ 0)) with (calls w) in H1, H2. cbn [app] in H1, H2.
  rewrite logged_logged in H.
  pose proof (fetched_unfetched_length search_paper_by_title titles (calls w)) as Hlen.
  rewrite <- H1, <- H2 in *. clear H1 H2.
  destruct (fst acc) as [|p ps].
  { destruct (snd acc); unfold to_csv, print, emit, raise in H;
      cbn [files sheets environ trace calls] in H; discriminate. }
  unfold makedirs, to_csv, print, emit in H.
  cbn [String.eqb Ascii.eqb Bool.eqb files sheets environ trace calls] in H.
  destruct (snd acc) as [|t ts]; cbn [files sheets environ trace calls] in H;
    injection H as <- <-; unfold printed; cbn [files trace logged];
    rewrite <- !app_assoc, drop_app_length;
    repeat (rewrite searches_of_app || rewrite searches_of_cons); rewrite Hs;
    (split; [cbn; now rewrite app_nil_r |]);
    (split; [reflexivity |]); (split; [exact Hlen |]).
  - now rewrite lookup_insert_ne by discriminate.
  - apply lookup_insert_eq.
Qed.


(** X13.  A recovery pass that ends has searched every title of the
    not-found list once, in order: each title is either found or still
    missing.  The list is replaced by the titles still missing when there
    are some; when every title was found it is left as it was, with all
    its titles. *)
Theorem recovery_pass_accounts_for_every_title (w w' : world)
    (waiting : list row) (titles : list pyval) :
  fetch_missing_papers search_semantic_scholar w = (Ok tt, w') ->
  files w !! papers_not_found_csv = Some waiting ->
  df_column "title" waiting = Ok titles ->
  searches_of (printed w w') = titles /\
  (length (found_by search_semantic_scholar titles (calls w))
   + length (missed_by search_semantic_scholar titles (calls w))
   = length titles)%nat /\
  files w' !! papers_not_found_csv
    = Some (match missed_by search_semantic_scholar titles (calls w) with
            | [] => waiting
            | _ :: _ =>
                title_frame (missed_by search_semantic_scholar titles (calls w))
            end).
Proof.
  intros H Hnf Hcol.
  unfold fetch_missing_papers, bind, except_FileNotFoundError, read_csv in H.
  rewrite Hnf in H. unfold ret, lift, print, emit in H.
  cbn [files sheets environ trace calls] in H. rewrite Hcol in H.
  rewrite <- !app_assoc in H. cbn [app] in H.
  change (World (files w) (sheets w) (environ w)
            (trace w ++ [EvReadCsv papers_not_found_csv;
                         EvPrint (MsgTitles (length titles))]) (calls w))
    with (logged w [EvReadCsv papers_not_found_csv;
                    EvPrint (MsgTitles (length titles))] 0) in H.
  destruct (missing_loop _ _ _ _ _ _ _) as [[acc|e] w3] eqn:L; [| discriminate].
  apply missing_loop_acc in L as (_ & H2 & evs & -> & Hs & _).
  change (calls (logged w _ 0)) with (calls w) in H2. cbn [app] in H2.
  rewrite logged_logged in H.
  unfold read_csv, to_csv, print, emit in H.
  cbn [files sheets environ trace calls logged] in H.
  assert (Hfin : forall (fs : gmap string (list row)) (post : list event) (n : nat),
             searches_of post = [] ->
             searches_of
               (printed w
                  (World fs (sheets w) (environ w)
                     (trace w ++ ([EvReadCsv papers_not_found_csv;
                                   EvPrint (MsgTitles (length titles))] ++ evs) ++ post)
                     n)) = titles).
  { intros fs post n Hpost. unfold printed. cbn [trace].
    rewrite drop_app_length.
    repeat (rewrite searches_of_app || rewrite searches_of_cons).
    now rewrite Hs, Hpost, app_nil_r. }
  split; [| split; [apply found_missed_length |]]; rewrite <- ?H2; clear H2.
  - destruct (fst acc) as [|p ps]; cbn [files sheets environ trace calls logged] in H.
    + destruct (snd acc) as [|t ts]; cbn [files sheets environ trace calls] in H;
        injection H as <-; rewrite <- ?app_assoc; now apply Hfin.
    + destruct (files w !! curated_papers_csv) as [existing|];
        [| destruct (sheets w !! curated_papers_csv); [discriminate |]];
        cbn [files sheets environ trace calls] in H;
        destruct (snd acc) as [|t ts]; cbn [files sheets environ trace calls] in H;
        injection H as <-; rewrite <- ?app_assoc; now apply Hfin.
  - destruct (fst acc) as [|p ps]; cbn [files sheets environ trace calls logged] in H.
    + destruct (snd acc) as [|t ts]; cbn [files sheets environ trace calls] in H;
        injection H as <-; cbn [files];
        rewrite ?lookup_insert_eq; auto.
    + destruct (files w !! curated_papers_csv) as [existing|];
        [| destruct (sheets w !! curated_papers_csv); [discriminate |]];
        cbn [files sheets environ trace calls] in H;
        destruct (snd acc) as [|t ts]; cbn [files sheets environ trace calls] in H;
        injection H as <-; cbn [files];
        rewrite ?lookup_insert_eq, ?lookup_insert_ne by discriminate;
        rewrite ?lookup_insert_eq; auto.
Qed.

(** X14.  The recovery pass is not idempotent.  With a lookup that answers
    a title the same way at every call, a pass that finds every title of the
    not-found list leaves the list in place, so that a second pass finds the
    same papers again and appends them to the curated store a second
    time. *)
Theorem recovery_pass_twice_appends_twice (w : world) (waiting existing : list row)
    (titles : list pyval) :
  (forall t n m, search_semantic_scholar t n = search_semantic_scholar t m) ->
  files w !! papers_not_found_csv = Some waiting ->
  df_column "title" waiting = Ok titles ->
  forallb sliceable titles = true ->
  files w !! curated_papers_csv = Some existing ->
  sheets w !! curated_papers_csv = None ->
  missed_by search_semantic_scholar titles (calls w) = [] ->
  exists w1 w2,
    fetch_missing_papers search_semantic_scholar w = (Ok tt, w1) /\
    fetch_missing_papers search_semantic_scholar w1 = (Ok tt, w2) /\
    length (found_by search_semantic_scholar titles (calls w)) = length titles /\
    files w1 !! curated_papers_csv
      = Some (existing ++ found_by search_semantic_scholar titles (calls w)) /\
    files w2 !! curated_papers_csv
      = Some (existing ++ found_by search_semantic_scholar titles (calls w)
                       ++ found_by search_semantic_scholar titles (calls w)).
Proof.
  intros Hind Hnf Hcol Hsl Hex Hsheet Hmissed.
  destruct (fetch_missing_papers_run search_semantic_scholar w waiting titles
              Hnf Hcol Hsl Hsheet) as (w1 & R1 & Hc1 & Hs1 & Hn1 & Hf1).
  rewrite Hmissed in Hn1. rewrite Hex in Hf1. cbn [default] in Hf1.
  assert (Hsheet1 : sheets w1 !! curated_papers_csv = None) by now rewrite Hs1.
  destruct (fetch_missing_papers_run search_semantic_scholar w1 waiting titles
              Hn1 Hcol Hsl Hsheet1) as (w2 & R2 & _ & _ & _ & Hf2).
  destruct (found_by_indep search_semantic_scholar titles Hind (calls w1) (calls w))
    as [Ef _].
  rewrite Ef in Hf2.
  pose proof (found_missed_length search_semantic_scholar titles (calls w)) as Hlen.
  rewrite Hmissed in Hlen. cbn [length] in Hlen.
  exists w1, w2. split; [exact R1 |]. split; [exact R2 |]. split; [lia |].
  destruct (found_by search_semantic_scholar titles (calls w)) as [|p ps] eqn:Hfound.
  - rewrite !app_nil_r. rewrite Hf1 in Hf2. now split.
  - split; [exact Hf1 |]. rewrite Hf2, Hf1. cbn [default].
    f_equal. symmetry. apply (app_assoc existing (p :: ps) (p :: ps)).
Qed.


(** X16.  Of the rows collected under one [url], the arXiv collector keeps
    the first: each row it writes is a collected row that no earlier
    collected row shares its [url] with. *)
Theorem collector_keeps_first_of_each_url (w w' : world)
    (df : list (gmap string string)) (r : gmap string string) :
  arxiv_main arxiv_search timestamp w = (Ok df, w') ->
  r ∈ df ->
  exists earlier later,
    collected arxiv_search queries (calls w) = earlier ++ r :: later /\
    forall p, p ∈ earlier -> p !! "url" <> r !! "url".
Proof.
  intros H Hr. unfold arxiv_main, bind in H.
  destruct (collect arxiv_search queries [] w) as [[all|e] w1] eqn:C; [| discriminate].
  apply collect_spec in C as (_ & _ & Hall).
  specialize (Hall _ eq_refl). cbn [app] in Hall. subst all.
  unfold lift, drop_duplicates in H.
  destruct (existsb _ _); [| discriminate].
  unfold print, makedirs, emit, to_csv, ret in H.
  cbn [String.eqb Ascii.eqb Bool.eqb files sheets environ trace calls] in H.
  injection H as <- _.
  now apply drop_duplicates_from_first in Hr.
Qed.

(** X17.  The arXiv collector writes once, at the end.  A run that raises
    has written nothing; a run that returns has searched the three queries
    once each, in order, and has touched no file but its output. *)
Theorem collector_writes_at_the_end (w w' : world)
    (r : res (list (gmap string string))) :
  arxiv_main arxiv_search timestamp w = (r, w') ->
  match r with
  | Raise _ => files w' = files w
  | Ok df =>
      searches_of (printed w w') = map VStr queries /\
      calls w' = (3 + calls w)%nat /\
      forall path, path <> arxiv_output timestamp ->
                   files w' !! path = files w !! path
  end.
Proof.
  intros H. unfold arxiv_main, bind in H.
  destruct (collect arxiv_search queries [] w) as [[all|e] w1] eqn:C.
  2:{ injection H as <- <-. now apply collect_spec in C as (-> & _). }
  apply collect_run in C as (evs & n & -> & Hacc).
  destruct (Hacc _ eq_refl) as (-> & Hs & _).
  unfold lift in H. destruct (drop_duplicates "url" all) as [df|e].
  2:{ injection H as <- <-. reflexivity. }
  unfold print, makedirs, emit, to_csv, ret in H.
  cbn [String.eqb Ascii.eqb Bool.eqb files sheets environ trace calls logged] in H.
  injection H as <- <-. unfold printed. cbn [files trace calls].
  rewrite <- !app_assoc, drop_app_length.
  repeat (rewrite searches_of_app || rewrite searches_of_cons).
  rewrite Hs, !app_nil_r. split; [reflexivity |]. split; [reflexivity |].
  intros path Hp. now rewrite lookup_insert_ne by congruence.
Qed.

End CollectionExtras.

Lemma find_leftmost {A} (f : A -> bool) (l : list A) (x : A) :
  List.find f l = Some x ->
  f x = true /\
  exists before after,
    l = before ++ x :: after /\ forall c, c ∈ before -> f c = false.
Proof.
  induction l as [|y l IH]; [discriminate |]. simpl.
  destruct (f y) eqn:Hy.
  - intros [= ->]. split; [exact Hy |]. exists [], l. split; [reflexivity |].
    intros c Hc. now apply elem_of_nil in Hc.
  - intros H. destruct (IH H) as (Hx & before & after & -> & Hb).
    split; [exact Hx |]. exists (y :: before), after. split; [reflexivity |].
    intros c Hc. apply elem_of_cons in Hc as [-> | Hc]; [exact Hy | now apply Hb].
Qed.

Lemma find_none {A} (f : A -> bool) (l : list A) :
  List.find f l = None -> forall c, c ∈ l -> f c = false.
Proof.
  induction l as [|y l IH]; simpl; intros H c Hc.
  - now apply elem_of_nil in Hc.
  - destruct (f y) eqn:Hy; [discriminate |].
    apply elem_of_cons in Hc as [-> | Hc]; [exact Hy | now apply IH].
Qed.

(** X27.  The title column is the leftmost column whose lowered name holds
    the word title; when no column has such a name it is the first column;
    a sheet without columns raises [IndexError]. *)
Theorem title_column_is_leftmost_match (columns : list string) :
  match title_column columns with
  | Ok col =>
      exists before after,
        columns = before ++ col :: after /\
        (forall c, c ∈ before -> PyStr.contains "title" (PyStr.lower c) = false) /\
        (PyStr.contains "title" (PyStr.lower col) = false ->
         before = [] /\
         forall c, c ∈ after -> PyStr.contains "title" (PyStr.lower c) = false)
  | Raise e => e = IndexError /\ columns = []
  end.
Proof.
  unfold title_column.
  destruct (List.find _ columns) as [col|] eqn:F.
  - apply find_leftmost in F as (Hcol & before & after & -> & Hb).
    exists before, after. split; [reflexivity |]. split; [exact Hb |].
    intros Hno. congruence.
  - pose proof (find_none _ _ F) as Hnone.
    destruct columns as [|col after]; [now split |].
    cbn. exists [], after. split; [reflexivity |]. split.
    + intros c Hc. now apply elem_of_nil in Hc.
    + intros _. split; [reflexivity |]. intros c Hc.
      apply Hnone. now apply list_elem_of_further.
Qed.

(** ** The lookups *)

Lemma res_bind_Ok {A B} (r : res A) (k : A -> res B) (b : B) :
  res_bind r k = Ok b -> exists a, r = Ok a /\ k a = Ok b.
Proof. destruct r as [a|e]; [eauto | discriminate]. Qed.

Lemma catchable_bind {A B} (r : res A) (k : A -> res B) :
  catchable r -> (forall a, r = Ok a -> catchable (k a)) -> catchable (res_bind r k).
Proof.
  intros Hr Hk e. destruct r as [a|e']; simpl.
  - now apply Hk.
  - intros [= <-]. now apply Hr.
Qed.

Lemma catchable_Ok {A} (a : A) : catchable (Ok a).
Proof. intros e. discriminate. Qed.

Lemma catchable_Raise {A} (e : exn) :
  is_Exception e = true -> catchable (@Raise A e).
Proof. now intros He e' [= <-]. Qed.

Lemma catchable_py_get (v : pyval) (k : string) (default : pyval) :
  catchable (Lookup.py_get v k default).
Proof. destruct v; (apply catchable_Ok || now apply catchable_Raise). Qed.

Lemma catchable_py_getitem (v : pyval) (k : string) :
  catchable (Lookup.py_getitem v k).
Proof.
  destruct v; try now apply catchable_Raise.
  simpl. destruct (d !! k); [apply catchable_Ok | now apply catchable_Raise].
Qed.

Lemma catchable_py_len (v : pyval) : catchable (Lookup.py_len v).
Proof. destruct v; (apply catchable_Ok || now apply catchable_Raise). Qed.

Lemma catchable_py_first (v : pyval) : catchable (Lookup.py_first v).
Proof.
  destruct v as [| | | |s|l|]; try now apply catchable_Raise.
  - destruct s; [now apply catchable_Raise | apply catchable_Ok].
  - unfold Lookup.py_first, PyStr.item.
    destruct (l !! 0%nat); [apply catchable_Ok | now apply catchable_Raise].
Qed.

Lemma catchable_py_slice (v : pyval) (n : nat) : catchable (py_slice v n).
Proof. destruct v; (apply catchable_Ok || now apply catchable_Raise). Qed.

Lemma catchable_strings_of (items : list pyval) : catchable (Lookup.strings_of items).
Proof.
  induction items as [|x items IH]; [apply catchable_Ok |].
  destruct x; try now apply catchable_Raise.
  simpl. apply catchable_bind; [exact IH |]. intros; apply catchable_Ok.
Qed.

Lemma catchable_py_join (sep : string) (items : list pyval) :
  catchable (Lookup.py_join sep items).
Proof.
  apply catchable_bind; [apply catchable_strings_of |]. intros; apply catchable_Ok.
Qed.

Lemma catchable_comprehension (f : pyval -> res pyval) (items : list pyval) :
  (forall a, catchable (f a)) -> catchable (Lookup.comprehension f items).
Proof.
  intros Hf. induction items as [|x items IH]; [apply catchable_Ok |].
  simpl. apply catchable_bind; [apply Hf |]. intros y _.
  apply catchable_bind; [exact IH |]. intros; apply catchable_Ok.
Qed.

Lemma except_Exception_Some (body : res (option row)) (paper : row) :
  Lookup.except_Exception body = Ok (Some paper) -> body = Ok (Some paper).
Proof.
  destruct body as [o|e]; simpl; [auto |]. now destruct (is_Exception e).
Qed.

Lemma except_Exception_catchable (body : res (option row)) :
  catchable body -> exists o, Lookup.except_Exception body = Ok o.
Proof.
  intros H. destruct body as [o|e]; simpl; [eauto |].
  rewrite (H e eq_refl). eauto.
Qed.

(** A list that joins holds strings only. *)
Lemma strings_of_Ok (items : list pyval) (ss : list string) :
  Lookup.strings_of items = Ok ss -> items = map VStr ss.
Proof.
  revert ss. induction items as [|x items IH]; intros ss H.
  - now injection H as <-.
  - destruct x; try discriminate. simpl in H.
    apply res_bind_Ok in H as (ss' & Hs & H). injection H as <-.
    simpl. f_equal. now apply IH.
Qed.

Lemma strings_of_map (names : list string) :
  Lookup.strings_of (map VStr names) = Ok names.
Proof.
  induction names as [|x names IH]; [reflexivity |]. simpl. now rewrite IH.
Qed.

Lemma comprehension_elem (f : pyval -> res pyval) (items xs : list pyval) (a : pyval) :
  Lookup.comprehension f items = Ok xs -> a ∈ items ->
  exists x, f a = Ok x /\ x ∈ xs.
Proof.
  revert xs. induction items as [|b items IH]; intros xs H Ha.
  - now apply elem_of_nil in Ha.
  - simpl in H. apply res_bind_Ok in H as (y & Hy & H).
    apply res_bind_Ok in H as (ys & Hys & H). injection H as <-.
    apply elem_of_cons in Ha as [-> | Ha].
    + exists y. split; [exact Hy | apply list_elem_of_here].
    + destruct (IH _ Hys Ha) as (x & Hx & Hin).
      exists x. split; [exact Hx | now apply list_elem_of_further].
Qed.

Section LookupFacts.

Variable float_truthy : string -> bool.
Variable py_repr : pyval -> string.
Variable key_order : gmap string pyval -> list string.

Lemma catchable_py_iter (v : pyval) : catchable (Lookup.py_iter key_order v).
Proof. destruct v; (apply catchable_Ok || now apply catchable_Raise). Qed.

Lemma catchable_semantic_paper (title result : pyval) :
  catchable (Lookup.semantic_paper py_repr key_order title result).
Proof.
  unfold Lookup.semantic_paper, Lookup.semantic_authors.
  repeat first
    [ apply catchable_Ok
    | apply catchable_py_get | apply catchable_py_iter | apply catchable_py_join
    | apply catchable_comprehension; intros
    | apply catchable_bind; [| intros ? _] ].
Qed.

Lemma catchable_has_matches (data : pyval) :
  catchable (Lookup.has_matches float_truthy data).
Proof.
  unfold Lookup.has_matches.
  apply catchable_bind; [apply catchable_py_get |]. intros m _.
  destruct (Lookup.py_truthy float_truthy m); [| apply catchable_Ok].
  apply catchable_bind; [apply catchable_py_getitem |]. intros m' _.
  apply catchable_bind; [apply catchable_py_len |]. intros; apply catchable_Ok.
Qed.

Lemma catchable_scholar_paper (title result : pyval) :
  catchable (Lookup.scholar_paper py_repr key_order title result).
Proof.
  unfold Lookup.scholar_paper.
  repeat first
    [ apply catchable_Ok
    | apply catchable_py_get | apply catchable_py_getitem | apply catchable_py_iter
    | apply catchable_py_join | apply catchable_py_slice
    | apply catchable_bind; [| intros ? _] ].
Qed.

Section TitleLookup.

Variable arxiv_title_search : pyval -> nat -> res (list arxiv_result).
Variable scholar_first : pyval -> nat -> res pyval.

(** The title is sliced before anything else. *)
Lemma title_lookup_unsliceable (title : pyval) (n : nat) :
  sliceable title = false ->
  Lookup.search_paper_by_title py_repr key_order arxiv_title_search
    scholar_first title n = Raise TypeError.
Proof.
  intros Ht. unfold Lookup.search_paper_by_title.
  destruct title; try discriminate; reflexivity.
Qed.

(** Past the slice, every exception of the two [try] blocks is caught. *)
Lemma title_lookup_returns (title : pyval) (n : nat) :
  sliceable title = true ->
  catchable (arxiv_title_search title n) ->
  catchable (scholar_first title n) ->
  exists paper,
    Lookup.search_paper_by_title py_repr key_order arxiv_title_search
      scholar_first title n = Ok paper.
Proof.
  intros Ht Ha Hs.
  assert (Hc : catchable (Lookup.scholar_try py_repr key_order scholar_first title n)).
  { unfold Lookup.scholar_try. apply catchable_bind; [exact Hs |]. intros r _.
    apply catchable_bind; [apply catchable_scholar_paper |].
    intros; apply catchable_Ok. }
  assert (Hc' : catchable (Lookup.arxiv_try arxiv_title_search title n)).
  { unfold Lookup.arxiv_try. apply catchable_bind; [exact Ha |].
    intros [|result results] _; [apply catchable_Ok |].
    apply catchable_bind; [| intros; apply catchable_Ok].
    unfold Lookup.arxiv_match. apply catchable_bind; [| intros; apply catchable_Ok].
    destruct title; (apply catchable_Ok || now apply catchable_Raise). }
  unfold Lookup.search_paper_by_title.
  destruct title; try discriminate; cbn [py_slice res_bind];
    (destruct (Lookup.arxiv_try _ _ _) as [[p|]|e] eqn:E;
     [ eauto
     | now apply except_Exception_catchable
     | rewrite (Hc' e eq_refl); now apply except_Exception_catchable ]).
Qed.

End TitleLookup.

End LookupFacts.

Section LookupExtras.

Variable float_truthy : string -> bool.
Variable py_repr : pyval -> string.
Variable key_order : gmap string pyval -> list string.
Variable requests_get : pyval -> nat -> res Lookup.response.
Variable arxiv_title_search : pyval -> nat -> res (list arxiv_result).
Variable scholar_first : pyval -> nat -> res pyval.

(** X18.  [search_semantic_scholar] lets no exception out that
    [except Exception] catches: when the request and the decoding of its
    body raise nothing else, the lookup returns, whatever the body holds;
    and for a status other than 200 it returns [None]. *)
Theorem semantic_lookup_catches_every_failure (title : pyval) (n : nat) :
  catchable (requests_get title n) ->
  (forall response, requests_get title n = Ok response ->
                    catchable (Lookup.json response)) ->
  exists paper,
    Lookup.search_semantic_scholar float_truthy py_repr key_order requests_get title n
      = Ok paper /\
    forall response,
      requests_get title n = Ok response ->
      Lookup.status_code response <> 200 -> paper = None.
Proof.
  intros Hget Hjson.
  assert (Hc : catchable (Lookup.semantic_try float_truthy py_repr key_order
                            requests_get title n)).
  { unfold Lookup.semantic_try.
    apply catchable_bind; [exact Hget |]. intros response Hr.
    destruct (Lookup.status_code response =? 200); [| apply catchable_Ok].
    apply catchable_bind; [now apply Hjson |]. intros data _.
    apply catchable_bind; [apply catchable_has_matches |]. intros [|] _;
      [| apply catchable_Ok].
    apply catchable_bind; [apply catchable_py_getitem |]. intros m _.
    apply catchable_bind; [apply catchable_py_first |]. intros r _.
    apply catchable_bind; [apply catchable_semantic_paper |].
    intros; apply catchable_Ok. }
  destruct (except_Exception_catchable _ Hc) as [o Ho].
  exists o. split; [exact Ho |].
  intros response Hr Hs. unfold Lookup.search_semantic_scholar, Lookup.semantic_try in Ho.
  rewrite Hr in Ho. cbn [res_bind] in Ho.
  destruct (Z.eqb_spec (Lookup.status_code response) 200); [contradiction |].
  simpl in Ho. congruence.
Qed.

(** X19.  When [search_semantic_scholar] returns a paper, the status was
    200 and the body an object whose [data] is a list that starts with an
    object, the first match.  The paper's fields are read off that match: a
    default is taken for a key that is absent, not for a key whose value is
    null, which is stored as it is; [source] is the fixed tag. *)
Theorem semantic_lookup_reads_first_match (title : pyval) (n : nat) (paper : row) :
  Lookup.search_semantic_scholar float_truthy py_repr key_order requests_get title n
    = Ok (Some paper) ->
  exists response data result others authors,
    requests_get title n = Ok response /\
    Lookup.status_code response = 200 /\
    Lookup.json response = Ok (VDict data) /\
    data !! "data" = Some (VList (VDict result :: others)) /\
    paper !! "title" = Some (dict_get result "title" title) /\
    paper !! "authors" = Some (VStr authors) /\
    paper !! "abstract"
      = Some (dict_get result "abstract" (VStr "Abstract not available")) /\
    paper !! "published"
      = Some (VStr (Lookup.py_str py_repr (dict_get result "year" (VStr "Unknown")))) /\
    paper !! "url" = Some (dict_get result "url" (VStr "No URL")) /\
    paper !! "categories" = Some (dict_get result "venue" (VStr "Not specified")) /\
    paper !! "source" = Some (VStr "semantic_scholar").
Proof.
  intros H. apply except_Exception_Some in H. unfold Lookup.semantic_try in H.
  apply res_bind_Ok in H as (response & Hr & H).
  destruct (Z.eqb_spec (Lookup.status_code response) 200) as [Hs|]; [| discriminate].
  apply res_bind_Ok in H as (data & Hj & H).
  apply res_bind_Ok in H as (some & Hm & H).
  destruct some; [| discriminate].
  apply res_bind_Ok in H as (m & Hg & H).
  apply res_bind_Ok in H as (result & Hf & H).
  apply res_bind_Ok in H as (p & Hp & H). injection H as <-.
  destruct data as [| | | | | |data]; try discriminate.
  simpl in Hg. destruct (data !! "data") as [m'|] eqn:Hd; [| discriminate].
  injection Hg as ->.
  unfold Lookup.semantic_paper in Hp.
  apply res_bind_Ok in Hp as (authors & Ha & Hp).
  destruct result as [| | | | | |result]; try discriminate.
  cbn [Lookup.py_get res_bind] in Hp. injection Hp as <-.
  destruct m as [| | | |s|l|]; try discriminate.
  { destruct s; discriminate. }
  unfold Lookup.py_first, PyStr.item in Hf.
  destruct l as [|x others]; [discriminate |]. injection Hf as ->.
  exists response, data, result, others, authors.
  repeat (split; [assumption || reflexivity |]). reflexivity.
Qed.

(** X20.  A first match whose [authors] is null, or has an author whose
    [name] is null, makes the lookup return [None]: the paper is dropped
    although Semantic Scholar found it. *)
Theorem semantic_lookup_drops_match_without_names (title : pyval) (n : nat)
    (response : Lookup.response) (data result : gmap string pyval)
    (others : list pyval) :
  requests_get title n = Ok response ->
  Lookup.status_code response = 200 ->
  Lookup.json response = Ok (VDict data) ->
  data !! "data" = Some (VList (VDict result :: others)) ->
  result !! "authors" = Some VNone \/
  (exists l author, result !! "authors" = Some (VList l) /\
                    VDict author ∈ l /\ author !! "name" = Some VNone) ->
  Lookup.search_semantic_scholar float_truthy py_repr key_order requests_get title n
    = Ok None.
Proof.
  intros Hr Hs Hj Hd Hbad.
  assert (Ha : exists e, Lookup.semantic_authors key_order (VDict result) = Raise e).
  { unfold Lookup.semantic_authors, Lookup.py_get, dict_get. cbn [res_bind].
    destruct Hbad as [-> | (l & author & -> & Hin & Hname)]; [simpl; eauto |].
    cbn [Lookup.py_iter res_bind].
    destruct (Lookup.comprehension _ l) as [names|e] eqn:Hc; [| simpl; eauto].
    cbn [res_bind]. unfold Lookup.py_join.
    destruct (Lookup.strings_of names) as [ss|e] eqn:Hss; [| simpl; eauto].
    exfalso. apply strings_of_Ok in Hss. subst names.
    destruct (comprehension_elem _ _ _ _ Hc Hin) as (x & Hx & Hxs).
    simpl in Hx. unfold dict_get in Hx. rewrite Hname in Hx. injection Hx as <-.
    apply list_elem_of_fmap in Hxs as (s & Hs' & _). discriminate. }
  destruct Ha as [e Ha].
  assert (He : is_Exception e = true).
  { apply (catchable_semantic_paper py_repr key_order title (VDict result)).
    unfold Lookup.semantic_paper. now rewrite Ha. }
  unfold Lookup.search_semantic_scholar, Lookup.semantic_try.
  rewrite Hr. cbn [res_bind]. rewrite Hs, Hj. cbn [Z.eqb Pos.eqb res_bind].
  unfold Lookup.has_matches, Lookup.py_get, Lookup.py_getitem, dict_get.
  rewrite Hd. cbn [res_bind Lookup.py_truthy Lookup.py_len length Nat.ltb Nat.leb
                   Lookup.py_first PyStr.item].
  simpl lookup. cbn [res_bind].
  simpl. unfold Lookup.semantic_paper. rewrite Ha. simpl. now rewrite He.
Qed.

(** X21.  [search_paper_by_title] fails with [TypeError] on a title it
    cannot slice (a number, for one), whatever the two services would
    answer.  On a title it can slice it returns, with a paper or with
    [None], as long as the services raise nothing but what
    [except Exception] catches. *)
Theorem title_lookup_returns_or_TypeError (title : pyval) (n : nat) :
  (sliceable title = false ->
   Lookup.search_paper_by_title py_repr key_order arxiv_title_search
     scholar_first title n = Raise TypeError) /\
  (sliceable title = true ->
   catchable (arxiv_title_search title n) ->
   catchable (scholar_first title n) ->
   exists paper,
     Lookup.search_paper_by_title py_repr key_order arxiv_title_search
       scholar_first title n = Ok paper).
Proof.
  split; [apply title_lookup_unsliceable | apply title_lookup_returns].
Qed.

(** X22.  A match on arXiv is returned without asking Google Scholar: for
    a title that is a string and a search with at least one result, the
    paper is built from the first result, tagged [arxiv], with the title
    searched, and [match_quality] is [exact] when the lowered title occurs
    in the lowered title of the result, [partial] otherwise. *)
Theorem arxiv_match_is_returned (s : string) (n : nat)
    (result : arxiv_result) (others : list arxiv_result) :
  arxiv_title_search (VStr s) n = Ok (result :: others) ->
  exists paper,
    Lookup.search_paper_by_title py_repr key_order arxiv_title_search
      scholar_first (VStr s) n = Ok (Some paper) /\
    paper !! "title" = Some (VStr (result_title result)) /\
    paper !! "url" = Some (VStr (result_entry_id result)) /\
    paper !! "source" = Some (VStr "arxiv") /\
    paper !! "search_title" = Some (VStr s) /\
    paper !! "match_quality"
      = Some (VStr (if PyStr.contains (PyStr.lower s)
                         (PyStr.lower (result_title result))
                    then "exact" else "partial")).
Proof.
  intros H. unfold Lookup.search_paper_by_title, Lookup.arxiv_try.
  cbn [py_slice res_bind]. rewrite H.
  cbn [res_bind Lookup.arxiv_match Lookup.py_lower].
  eexists. split; [reflexivity |]. repeat split.
Qed.

(** X23.  Google Scholar is the fallback: when arXiv has no result for the
    title (or its search raises), the paper is built from the Scholar
    match, tagged [google_scholar].  Its [url] is the match's [pub_url],
    else its [eprint_url], else a placeholder; its authors are the items of
    the match's [author] joined by commas, so that an [author] given as one
    string comes out character by character. *)
Theorem scholar_match_is_the_fallback (s : string) (n : nat)
    (result bib : gmap string pyval) (title' : string) (names : list string) :
  arxiv_title_search (VStr s) n = Ok [] \/
  (exists e, arxiv_title_search (VStr s) n = Raise e /\ is_Exception e = true) ->
  scholar_first (VStr s) n = Ok (VDict result) ->
  result !! "bib" = Some (VDict bib) ->
  bib !! "title" = Some (VStr title') ->
  Lookup.py_iter key_order (dict_get bib "author" (VList [VStr "Unknown"]))
    = Ok (map VStr names) ->
  exists paper,
    Lookup.search_paper_by_title py_repr key_order arxiv_title_search
      scholar_first (VStr s) n = Ok (Some paper) /\
    paper !! "title" = Some (VStr title') /\
    paper !! "authors" = Some (VStr (PyStr.join ", " names)) /\
    paper !! "url"
      = Some (dict_get result "pub_url"
                (dict_get result "eprint_url" (VStr "No URL available"))) /\
    paper !! "source" = Some (VStr "google_scholar") /\
    paper !! "search_title" = Some (VStr s) /\
    paper !! "match_quality" = Some (VStr "google_scholar").
Proof.
  intros Harxiv Hscholar Hbib Htitle Hauthor.
  assert (Hjoin : Lookup.py_join ", " (map VStr names) = Ok (PyStr.join ", " names)).
  { unfold Lookup.py_join.
    now rewrite strings_of_map. }
  assert (Hs : Lookup.scholar_try py_repr key_order scholar_first (VStr s) n
               = Ok (Some
                   (<["title" := VStr title']>
                   (<["authors" := VStr (PyStr.join ", " names)]>
                   (<["abstract" := dict_get bib "abstract"
                        (VStr "Abstract not available from Google Scholar")]>
                   (<["published" := VStr (Lookup.py_str py_repr
                        (dict_get bib "pub_year" (VStr "Unknown")))]>
                   (<["url" := dict_get result "pub_url"
                        (dict_get result "eprint_url" (VStr "No URL available"))]>
                   (<["categories" := VStr "Not specified"]>
                   (<["source" := VStr "google_scholar"]>
                   (<["search_title" := VStr s]>
                   (<["match_quality" := VStr "google_scholar"]> ∅))))))))))).
  { unfold Lookup.scholar_try, Lookup.scholar_paper. rewrite Hscholar.
    cbn [res_bind Lookup.py_getitem]. rewrite Hbib.
    cbn [res_bind Lookup.py_getitem]. rewrite Htitle.
    cbn [res_bind Lookup.py_get]. rewrite Hauthor.
    cbn [res_bind]. rewrite Hjoin. reflexivity. }
  unfold Lookup.search_paper_by_title, Lookup.arxiv_try. cbn [py_slice res_bind].
  eexists. split.
  - destruct Harxiv as [-> | (e & -> & He)]; cbn [res_bind]; rewrite ?He, Hs;
      reflexivity.
  - repeat split.
Qed.

(** X24.  When arXiv has no result (or its search raises) and Google
    Scholar has none either (its iterator raises [StopIteration], or the
    search raises), the lookup returns [None] for a title it can slice. *)
Theorem lookup_finds_nothing (title : pyval) (n : nat) (e : exn) :
  sliceable title = true ->
  arxiv_title_search title n = Ok [] \/
  (exists e', arxiv_title_search title n = Raise e' /\ is_Exception e' = true) ->
  scholar_first title n = Raise e -> is_Exception e = true ->
  Lookup.search_paper_by_title py_repr key_order arxiv_title_search
    scholar_first title n = Ok None.
Proof.
  intros Ht Harxiv Hscholar He.
  unfold Lookup.search_paper_by_title, Lookup.arxiv_try, Lookup.scholar_try.
  rewrite Hscholar.
  destruct title; try discriminate; cbn [py_slice res_bind];
    (destruct Harxiv as [-> | (e' & -> & He')]; cbn [res_bind];
     rewrite ?He'; simpl; now rewrite He).
Qed.

(** X25.  A title cell the lookup cannot slice (a number, for one) ends
    the Excel pass: with the titles before it looked up, the pass fails with
    [TypeError] and writes nothing, neither the papers found so far nor the
    not-found list. *)
Theorem unsliceable_title_aborts_excel_pass (excel_file : string) (w : world)
    (df : sheet) (col : string) (good rest : list pyval) (bad : pyval) :
  sheets w !! excel_file = Some df ->
  title_column (map fst df) = Ok col ->
  sheet_titles df col = Ok (good ++ bad :: rest) ->
  forallb sliceable good = true ->
  sliceable bad = false ->
  (forall t n, t ∈ good -> catchable (arxiv_title_search t n) /\
                           catchable (scholar_first t n)) ->
  exists w',
    fetch_papers_from_excel
        (Lookup.search_paper_by_title py_repr key_order arxiv_title_search
           scholar_first) excel_file w
      = (Raise TypeError, w') /\
    files w' = files w.
Proof.
  intros Hsheet Hcol Htitles Hgood Hbad Hcatch.
  unfold fetch_papers_from_excel, bind, except_FileNotFoundError, read_excel,
    print, emit.
  cbn [files sheets environ trace calls]. rewrite Hsheet.
  unfold ret, lift. cbn [files sheets environ trace calls].
  rewrite Hcol, Htitles.
  match goal with
  | |- context [fetch_loop ?f ?ts ?i ?t ?p ?nf ?w0] =>
      destruct (fetch_loop_raises f good bad rest TypeError) with
        (idx := i) (total := t) (papers := p) (not_found := nf) (w := w0)
        as (w' & -> & Hf)
  end.
  - intros t n Ht.
    apply title_lookup_returns; [| apply Hcatch, Ht | apply Hcatch, Ht].
    apply (proj1 (forallb_forall _ _) Hgood). now apply list_elem_of_In.
  - intros n. now apply title_lookup_unsliceable.
  - exists w'. split; [reflexivity | exact Hf].
Qed.

End LookupExtras.

(** ** The further properties at concrete inputs *)

Lemma run_scored_returns :
  Demo.run_scored = (Ok (Some [Demo.row_a; Demo.row_c]), snd Demo.run_scored).
Proof. vm_compute. reflexivity. Qed.

Lemma requests_witness :
  exists rows,
    files Demo.world0 !! curated_papers_csv = Some rows /\
    requests_of (printed Demo.world0 (snd Demo.run_scored)) = limit None rows /\
    sleeps_of (printed Demo.world0 (snd Demo.run_scored))
      = repeat (1 # 2)%Q (length (limit None rows)) /\
    calls (snd Demo.run_scored) = (length (limit None rows) + calls Demo.world0)%nat.
Proof.
  exact (requests_follow_the_input JsonRef.loads Demo.endpoint Demo.statistics
           curated_papers_csv Demo.scored_papers_csv None Demo.world0
           (snd Demo.run_scored) [Demo.row_a; Demo.row_c] run_scored_returns).
Defined.

Lemma unusable_answer_witness :
  Cases.run_down
    = (Ok None,
       logged Demo.world_untitled
         [EvRequest Demo.paper_untitled;
          EvPrint (MsgErrorScoring (RuntimeError "overloaded"))] 1) /\
  expected_rows JsonRef.loads Cases.endpoint_down [Demo.paper_untitled]
    (calls Demo.world_untitled) = [].
Proof.
  apply (unusable_answer_gives_no_scores JsonRef.loads Cases.endpoint_down
           Demo.paper_untitled Demo.world_untitled (RuntimeError "overloaded")).
  left. split; [reflexivity |]. split; [discriminate | reflexivity].
Defined.

Lemma statistics_failure_witness :
  files (snd Cases.run_statistics_fail) !! Demo.scored_papers_csv
    = Some [Demo.row_a; Demo.row_c] /\
  fst Cases.run_statistics_fail
    = (if (0 <? length [Demo.row_a; Demo.row_c])%nat
       then match Cases.statistics_missing_column [Demo.row_a; Demo.row_c] with
            | Ok _ => Ok (Some [Demo.row_a; Demo.row_c])
            | Raise e => Raise e
            end
       else Ok (Some [Demo.row_a; Demo.row_c])).
Proof.
  apply (statistics_come_after_the_write JsonRef.loads Demo.endpoint
           Cases.statistics_missing_column curated_papers_csv Demo.scored_papers_csv
           None Demo.world0 (snd Cases.run_statistics_fail)
           (fst Cases.run_statistics_fail) [Demo.row_a; Demo.row_c]).
  - unfold Cases.run_statistics_fail.
    now destruct (score_papers_batch _ _ _ _ _ _ _).
  - apply list_elem_of_lookup_2 with (i := 14%nat). vm_compute. reflexivity.
Defined.

Lemma output_path_witness :
  exists w',
    Cases.run_bare_output = (Raise FileNotFoundError, w') /\
    files w' = files Demo.world0 /\
    requests_of (printed Demo.world0 w')
      = limit None [Demo.paper_a; Demo.paper_b; Demo.paper_c].
Proof.
  apply (output_path_without_directory Cases.decode_nothing Demo.endpoint_prose
           Demo.statistics curated_papers_csv Cases.bare_output None Demo.world0
           [Demo.paper_a; Demo.paper_b; Demo.paper_c] "sk-ant-demo").
  - vm_compute. reflexivity.
  - vm_compute. reflexivity.
  - vm_compute. reflexivity.
  - discriminate.
  - vm_compute. reflexivity.
  - intros p n e H. discriminate H.
  - intros s e H. injection H as <-. reflexivity.
Defined.

Lemma input_columns_witness :
  exists rows paper n message text inner obj,
    files Demo.world0 !! curated_papers_csv = Some rows /\
    paper ∈ limit None rows /\
    Demo.endpoint (get_scoring_prompt paper) n = Ok message /\
    first_text message = Ok text /\
    strip_markdown text = Ok inner /\
    JsonRef.loads (PyStr.strip inner) = Ok (VDict obj) /\
    forall field,
      field <> "tokens_used" ->
      Demo.row_a !! field = (match obj !! field with
                             | Some v => Some v
                             | None => paper !! field
                             end).
Proof.
  apply (input_columns_kept_unless_overridden JsonRef.loads Demo.endpoint
           Demo.statistics curated_papers_csv Demo.scored_papers_csv None
           Demo.world0 (snd Demo.run_scored) [Demo.row_a; Demo.row_c] Demo.row_a
           run_scored_returns).
  apply list_elem_of_here.
Defined.

Lemma only_the_output_file_witness :
  files (snd Demo.run_scored) !! curated_papers_csv
    = files Demo.world0 !! curated_papers_csv.
Proof.
  apply (only_the_output_file_is_written JsonRef.loads Demo.endpoint
           Demo.statistics curated_papers_csv Demo.scored_papers_csv None
           Demo.world0 (snd Demo.run_scored) (Ok (Some [Demo.row_a; Demo.row_c]))
           curated_papers_csv run_scored_returns).
  discriminate.
Defined.

Lemma prompt_fields_witness :
  get_scoring_prompt Demo.paper_b = get_scoring_prompt Cases.paper_b_with_url /\
  scores_of JsonRef.loads Demo.endpoint Demo.paper_b 0
    = scores_of JsonRef.loads Demo.endpoint Cases.paper_b_with_url 0.
Proof.
  apply (prompt_reads_four_fields JsonRef.loads Demo.endpoint
           Demo.paper_b Cases.paper_b_with_url 0); vm_compute; reflexivity.
Defined.

Lemma fenced_prose_witness :
  strip_markdown Cases.chatty = Ok Cases.inner_json.
Proof.
  apply (fenced_block_inside_prose ("Here are the scores:" +:+ Demo.newline)
           Cases.inner_json (Demo.newline +:+ "Let me know if you need more.")).
  - split; vm_compute; reflexivity.
  - split; vm_compute; reflexivity.
  - vm_compute. reflexivity.
Defined.

Lemma run_excel_pass_returns :
  Cases.run_excel_pass = (Ok (Some [Demo.entry; Demo.entry]), snd Cases.run_excel_pass).
Proof. vm_compute. reflexivity. Qed.

Lemma excel_pass_accounts_witness :
  exists df col titles,
    sheets Demo.world_excel !! Cases.excel_file = Some df /\
    title_column (map fst df) = Ok col /\
    sheet_titles df col = Ok titles /\
    searches_of (printed Demo.world_excel (snd Cases.run_excel_pass)) = titles /\
    [Demo.entry; Demo.entry]
      = fetched_by Demo.lookup_title titles (calls Demo.world_excel) /\
    (length [Demo.entry; Demo.entry]
     + length (unfetched_by Demo.lookup_title titles (calls Demo.world_excel))
     = length titles)%nat /\
    files (snd Cases.run_excel_pass) !! papers_not_found_csv
      = match unfetched_by Demo.lookup_title titles (calls Demo.world_excel) with
        | [] => files Demo.world_excel !! papers_not_found_csv
        | _ :: _ =>
            Some (title_frame
                    (unfetched_by Demo.lookup_title titles (calls Demo.world_excel)))
        end.
Proof.
  exact (excel_pass_accounts_for_every_title Demo.lookup_title Cases.excel_file
           Demo.world_excel (snd Cases.run_excel_pass) [Demo.entry; Demo.entry]
           run_excel_pass_returns).
Defined.


Lemma run_missing_returns : Demo.run_missing = (Ok tt, snd Demo.run_missing).
Proof. vm_compute. reflexivity. Qed.

Lemma recovery_pass_accounts_witness :
  searches_of (printed Demo.world_missing (snd Demo.run_missing))
    = [VStr "Cooperative guidance"] /\
  (length (found_by Demo.semantic_found [VStr "Cooperative guidance"]
             (calls Demo.world_missing))
   + length (missed_by Demo.semantic_found [VStr "Cooperative guidance"]
               (calls Demo.world_missing))
   = length [VStr "Cooperative guidance"])%nat /\
  files (snd Demo.run_missing) !! papers_not_found_csv
    = Some (match missed_by Demo.semantic_found [VStr "Cooperative guidance"]
                    (calls Demo.world_missing) with
            | [] => title_frame [VStr "Cooperative guidance"]
            | _ :: _ =>
                title_frame (missed_by Demo.semantic_found [VStr "Cooperative guidance"]
                               (calls Demo.world_missing))
            end).
Proof.
  apply (recovery_pass_accounts_for_every_title Demo.semantic_found
           Demo.world_missing (snd Demo.run_missing)
           (title_frame [VStr "Cooperative guidance"]) [VStr "Cooperative guidance"]
           run_missing_returns).
  - vm_compute. reflexivity.
  - vm_compute. reflexivity.
Defined.

Lemma recovery_pass_twice_witness :
  exists w1 w2,
    fetch_missing_papers Demo.semantic_found Demo.world_missing = (Ok tt, w1) /\
    fetch_missing_papers Demo.semantic_found w1 = (Ok tt, w2) /\
    length (found_by Demo.semantic_found [VStr "Cooperative guidance"]
              (calls Demo.world_missing))
      = length [VStr "Cooperative guidance"] /\
    files w1 !! curated_papers_csv
      = Some ([Demo.earlier]
              ++ found_by Demo.semantic_found [VStr "Cooperative guidance"]
                   (calls Demo.world_missing)) /\
    files w2 !! curated_papers_csv
      = Some ([Demo.earlier]
              ++ found_by Demo.semantic_found [VStr "Cooperative guidance"]
                   (calls Demo.world_missing)
              ++ found_by Demo.semantic_found [VStr "Cooperative guidance"]
                   (calls Demo.world_missing)).
Proof.
  apply (recovery_pass_twice_appends_twice Demo.semantic_found Demo.world_missing
           (title_frame [VStr "Cooperative guidance"]) [Demo.earlier]
           [VStr "Cooperative guidance"]).
  - reflexivity.
  - vm_compute. reflexivity.
  - vm_compute. reflexivity.
  - reflexivity.
  - vm_compute. reflexivity.
  - vm_compute. reflexivity.
  - vm_compute. reflexivity.
Defined.


Lemma run_arxiv_returns :
  arxiv_main Demo.arxiv Demo.stamp Demo.world_empty
    = (Ok [arxiv_paper Demo.result_1; arxiv_paper Demo.result_2],
       snd (arxiv_main Demo.arxiv Demo.stamp Demo.world_empty)).
Proof. vm_compute. reflexivity. Qed.

Lemma collector_keeps_first_witness :
  exists earlier later,
    collected Demo.arxiv queries (calls Demo.world_empty)
      = earlier ++ arxiv_paper Demo.result_2 :: later /\
    forall p, p ∈ earlier -> p !! "url" <> arxiv_paper Demo.result_2 !! "url".
Proof.
  apply (collector_keeps_first_of_each_url Demo.arxiv Demo.stamp Demo.world_empty
           (snd (arxiv_main Demo.arxiv Demo.stamp Demo.world_empty))
           [arxiv_paper Demo.result_1; arxiv_paper Demo.result_2]
           (arxiv_paper Demo.result_2) run_arxiv_returns).
  apply list_elem_of_further, list_elem_of_here.
Defined.

Lemma collector_writes_witness :
  searches_of (printed Demo.world_empty
                 (snd (arxiv_main Demo.arxiv Demo.stamp Demo.world_empty)))
    = map VStr queries /\
  calls (snd (arxiv_main Demo.arxiv Demo.stamp Demo.world_empty))
    = (3 + calls Demo.world_empty)%nat /\
  forall path, path <> arxiv_output Demo.stamp ->
               files (snd (arxiv_main Demo.arxiv Demo.stamp Demo.world_empty)) !! path
               = files Demo.world_empty !! path.
Proof.
  exact (collector_writes_at_the_end Demo.arxiv Demo.stamp Demo.world_empty
           (snd (arxiv_main Demo.arxiv Demo.stamp Demo.world_empty))
           (Ok [arxiv_paper Demo.result_1; arxiv_paper Demo.result_2])
           run_arxiv_returns).
Defined.

Lemma semantic_lookup_catches_witness :
  exists paper,
    Lookup.search_semantic_scholar Cases.float_truthy Cases.py_repr Cases.key_order
      Cases.requests_timeout (VStr "Cooperative guidance") 0 = Ok paper /\
    forall response,
      Cases.requests_timeout (VStr "Cooperative guidance") 0 = Ok response ->
      Lookup.status_code response <> 200 -> paper = None.
Proof.
  apply (semantic_lookup_catches_every_failure Cases.float_truthy Cases.py_repr
           Cases.key_order Cases.requests_timeout (VStr "Cooperative guidance") 0).
  - intros e H. injection H as <-. reflexivity.
  - intros response H. discriminate H.
Defined.

Lemma semantic_lookup_found :
  Lookup.search_semantic_scholar Cases.float_truthy Cases.py_repr Cases.key_order
    Cases.requests_found (VStr "cooperative guidance") 0 = Ok (Some Cases.paper_found).
Proof. vm_compute. reflexivity. Qed.

Lemma semantic_lookup_reads_witness :
  exists response data result others authors,
    Cases.requests_found (VStr "cooperative guidance") 0 = Ok response /\
    Lookup.status_code response = 200 /\
    Lookup.json response = Ok (VDict data) /\
    data !! "data" = Some (VList (VDict result :: others)) /\
    Cases.paper_found !! "title"
      = Some (dict_get result "title" (VStr "cooperative guidance")) /\
    Cases.paper_found !! "authors" = Some (VStr authors) /\
    Cases.paper_found !! "abstract"
      = Some (dict_get result "abstract" (VStr "Abstract not available")) /\
    Cases.paper_found !! "published"
      = Some (VStr (Lookup.py_str Cases.py_repr
                      (dict_get result "year" (VStr "Unknown")))) /\
    Cases.paper_found !! "url" = Some (dict_get result "url" (VStr "No URL")) /\
    Cases.paper_found !! "categories"
      = Some (dict_get result "venue" (VStr "Not specified")) /\
    Cases.paper_found !! "source" = Some (VStr "semantic_scholar").
Proof.
  exact (semantic_lookup_reads_first_match Cases.float_truthy Cases.py_repr
           Cases.key_order Cases.requests_found (VStr "cooperative guidance") 0
           Cases.paper_found semantic_lookup_found).
Defined.

Lemma semantic_lookup_drops_witness :
  Lookup.search_semantic_scholar Cases.float_truthy Cases.py_repr Cases.key_order
    Cases.requests_without_authors (VStr "Cooperative guidance") 0 = Ok None.
Proof.
  apply (semantic_lookup_drops_match_without_names Cases.float_truthy Cases.py_repr
           Cases.key_order Cases.requests_without_authors
           (VStr "Cooperative guidance") 0 Cases.response_without_authors
           {["data" := VList [VDict Cases.match_without_authors]]}
           Cases.match_without_authors []).
  - reflexivity.
  - reflexivity.
  - reflexivity.
  - vm_compute. reflexivity.
  - left. vm_compute. reflexivity.
Defined.

Lemma arxiv_match_witness :
  exists paper,
    Lookup.search_paper_by_title Cases.py_repr Cases.key_order Cases.arxiv_one
      Cases.scholar_none (VStr "cooperative GUIDANCE") 0 = Ok (Some paper) /\
    paper !! "title" = Some (VStr (result_title Demo.result_1)) /\
    paper !! "url" = Some (VStr (result_entry_id Demo.result_1)) /\
    paper !! "source" = Some (VStr "arxiv") /\
    paper !! "search_title" = Some (VStr "cooperative GUIDANCE") /\
    paper !! "match_quality"
      = Some (VStr (if PyStr.contains (PyStr.lower "cooperative GUIDANCE")
                         (PyStr.lower (result_title Demo.result_1))
                    then "exact" else "partial")).
Proof.
  apply (arxiv_match_is_returned Cases.py_repr Cases.key_order Cases.arxiv_one
           Cases.scholar_none "cooperative GUIDANCE" 0 Demo.result_1 []).
  reflexivity.
Defined.

Lemma scholar_fallback_witness :
  exists paper,
    Lookup.search_paper_by_title Cases.py_repr Cases.key_order Cases.arxiv_none
      Cases.scholar_one (VStr "Swarm control") 0 = Ok (Some paper) /\
    paper !! "title" = Some (VStr "Swarm control") /\
    paper !! "authors" = Some (VStr (PyStr.join ", " ["A"; " "; "B"])) /\
    paper !! "url"
      = Some (dict_get Cases.scholar_match "pub_url"
                (dict_get Cases.scholar_match "eprint_url" (VStr "No URL available"))) /\
    paper !! "source" = Some (VStr "google_scholar") /\
    paper !! "search_title" = Some (VStr "Swarm control") /\
    paper !! "match_quality" = Some (VStr "google_scholar").
Proof.
  apply (scholar_match_is_the_fallback Cases.py_repr Cases.key_order Cases.arxiv_none
           Cases.scholar_one "Swarm control" 0 Cases.scholar_match Cases.scholar_bib
           "Swarm control" ["A"; " "; "B"]).
  - left. reflexivity.
  - reflexivity.
  - vm_compute. reflexivity.
  - vm_compute. reflexivity.
  - vm_compute. reflexivity.
Defined.

Lemma lookup_nothing_witness :
  Lookup.search_paper_by_title Cases.py_repr Cases.key_order Cases.arxiv_none
    Cases.scholar_none (VStr "Cooperative guidance") 0 = Ok None.
Proof.
  apply (lookup_finds_nothing Cases.py_repr Cases.key_order Cases.arxiv_none
           Cases.scholar_none (VStr "Cooperative guidance") 0 StopIteration).
  - reflexivity.
  - left. reflexivity.
  - reflexivity.
  - reflexivity.
Defined.

Lemma unsliceable_title_witness :
  exists w',
    fetch_papers_from_excel
        (Lookup.search_paper_by_title Cases.py_repr Cases.key_order Cases.arxiv_one
           Cases.scholar_none) Cases.excel_file Cases.world_number
      = (Raise TypeError, w') /\
    files w' = files Cases.world_number.
Proof.
  apply (unsliceable_title_aborts_excel_pass Cases.py_repr Cases.key_order
           Cases.arxiv_one Cases.scholar_none Cases.excel_file Cases.world_number
           Cases.sheet_with_number "Title" [VStr "Cooperative guidance"] []
           (VInt 2024)).
  - vm_compute. reflexivity.
  - vm_compute. reflexivity.
  - vm_compute. reflexivity.
  - reflexivity.
  - reflexivity.
  - intros t n _. split; intros e H; [discriminate H |].
    injection H as <-. reflexivity.
Defined.

Example decimal_of_a_year : Lookup.decimal 2021 = "2021" /\ Lookup.decimal (-7) = "-7"
                            /\ Lookup.decimal 0 = "0".
Proof. repeat split. Qed.

Lemma json_error_before_the_text_witness :
  score_paper JsonRef.loads Cases.endpoint_json_error Demo.paper_b Demo.world0
    = (Raise UnboundLocalError,
       logged Demo.world0
         [EvRequest Demo.paper_b;
          EvPrint (MsgJsonParsingError (VStr "Swarm control survey"))] 1).
Proof.
  apply (json_error_before_the_text_escapes JsonRef.loads Cases.endpoint_json_error
           Demo.paper_b Demo.world0 (VStr "Swarm control survey")).
  - reflexivity.
  - vm_compute. reflexivity.
Defined.
